(** * Pharmacy ordering backend: safety evaluation, refill prediction,
      order lifecycle and the preview/confirm protocol

    A shallow embedding of the Python backend (agents/safety_agent.py,
    agents/refill_agent.py, agents/fulfillment_agent.py,
    agents/orchestrator_agent.py, services/data_service.py, main.py,
    models/schemas.py) and the properties stated about it.

    Conventions of the embedding.
    - Python [int] is [Z]; [float] is IEEE binary64, through the Standard
      Library's executable specification [SpecFloat] (module [Float64]).
      The stock column of the medicine frame is a numpy int64 column.
    - A call that can raise returns a [Call]; a function that changes an
      in-memory table before it raises returns the tables as they are at
      that point, next to the [Call].
    - [Optional[T]] is [option T]; a dict used as a table is a [gmap].
    - The in-memory singletons (orchestrator, fulfillment agent, data
      service) are fields of one explicit [World] that every handler threads.
    - Values that come from outside the process are arguments of the
      handler that consumes them: the extraction result, the uuid behind a
      preview or order id, the outcome of the outbound HTTP call.
    - Wall-clock timestamps ([datetime.now()]) and tracing calls
      ([langfuse_context], trace urls) are left out: no stated property
      reads them. *)

From Stdlib Require Import ZArith Bool List Sorted.
From Stdlib Require Import Floats.SpecFloat.
From stdpp Require Import base option list gmap strings pretty.

Local Open Scope Z_scope.

(** ** Binary64 arithmetic as Python computes it *)
Module Float64.

Definition prec : Z := 53.
Definition emax : Z := 1024.

Definition float : Type := spec_float.

(** The double nearest to the rational [p/q] (ties to even), with sign
    [s]; [p >= 0] and [q > 0].  This is how a decimal literal such as
    [0.05] is read, and how a decimal result is converted back. *)
Definition of_ratio (s : bool) (p q : Z) : float :=
  match p with
  | Z0 => S754_zero s
  | _ =>
      let '(mz, ez, lz) := SFdiv_core_binary prec emax p 0 q 0 in
      binary_round_aux prec emax s mz ez lz
  end.

(** A decimal literal [p/q] with [q] a power of ten. *)
Definition dec (p q : Z) : float := of_ratio false p q.

(** The double nearest to the integer [n] (ties to even); an infinity
    when that is beyond the range of a double. *)
Definition of_Z (n : Z) : float := binary_normalize prec emax n 0 false.

Definition is_finite (x : float) : bool :=
  match x with
  | S754_zero _ | S754_finite _ _ _ => true
  | _ => false
  end.

(** Whether the [int] [n] converts to a [float]: CPython rounds to the
    nearest double and raises [OverflowError] when that is not finite,
    which is from [2^1024 - 2^970] on, halfway between the largest double
    and [2^1024]. *)
Definition float_limit : Z := 2 ^ 1024 - 2 ^ 970.

Definition converts (n : Z) : bool := Z.abs n <? float_limit.

Definition fmul : float -> float -> float := SFmul prec emax.
Definition fadd : float -> float -> float := SFadd prec emax.
Definition feqb : float -> float -> bool := SFeqb.

(** Nearest integer to [a/b], ties to the even one ([b > 0]). *)
Definition half_even_div (a b : Z) : Z :=
  let q := a / b in
  let r := a mod b in
  match (2 * r) ?= b with
  | Lt => q
  | Gt => q + 1
  | Eq => if Z.even q then q else q + 1
  end.

(** The number of hundredths nearest to the exact value [m * 2^e]. *)
Definition hundredths (m : positive) (e : Z) : Z :=
  if 0 <=? e then Z.pos m * 100 * 2 ^ e
  else half_even_div (Z.pos m * 100) (2 ^ (- e)).

(** [round(x, 2)]: the exact binary value is rounded to two decimals
    (correctly, ties to even) and the decimal result is read back as the
    nearest double; zeros, infinities and NaN are returned unchanged. *)
Definition round2 (x : float) : float :=
  match x with
  | S754_finite s m e => of_ratio s (hundredths m e) 100
  | _ => x
  end.

(** [sum(xs)] over floats, accumulated left to right from [0] (CPython
    3.12 and later add a compensation term; no statement below depends on
    how the total of several items is accumulated). *)
Definition fsum (xs : list float) : float :=
  fold_left fadd xs (S754_zero false).

(** Two decimal digits of a number below 100. *)
Definition two_digits (n : Z) : string :=
  if n <? 10 then "0" +:+ pretty n else pretty n.

(** [f"{x:.2f}"]. *)
Definition fmt2f (x : float) : string :=
  match x with
  | S754_zero s => (if s then "-" else "") +:+ "0.00"
  | S754_infinity s => (if s then "-" else "") +:+ "inf"
  | S754_nan => "nan"
  | S754_finite s m e =>
      let h := hundredths m e in
      (if s then "-" else "") +:+ pretty (h / 100) +:+ "." +:+ two_digits (h mod 100)
  end.

(** [f"{x}"] is only used inside notification text that is not modelled. *)

End Float64.

(** ** models/schemas.py *)

Inductive OrderStatus : Set :=
| PENDING | VALIDATED | CONFIRMED | PREPARING | PROCESSING | SHIPPED
| DELIVERED | COMPLETED | CANCELLED | BLOCKED | FAILED.

Global Instance OrderStatus_eq_dec : EqDecision OrderStatus.
Proof. solve_decision. Defined.

Definition OrderStatus_value (s : OrderStatus) : string :=
  match s with
  | PENDING => "PENDING" | VALIDATED => "VALIDATED" | CONFIRMED => "CONFIRMED"
  | PREPARING => "PREPARING" | PROCESSING => "PROCESSING" | SHIPPED => "SHIPPED"
  | DELIVERED => "DELIVERED" | COMPLETED => "COMPLETED" | CANCELLED => "CANCELLED"
  | BLOCKED => "BLOCKED" | FAILED => "FAILED"
  end.

Inductive SafetyDecision : Set := APPROVE | REJECT | CONDITIONAL.

Global Instance SafetyDecision_eq_dec : EqDecision SafetyDecision.
Proof. solve_decision. Defined.

Inductive RefillAction : Set := REMIND | AUTO_REFILL | BLOCK.

Global Instance RefillAction_eq_dec : EqDecision RefillAction.
Proof. solve_decision. Defined.

(** [Literal["LOW", "MEDIUM", "HIGH", "CRITICAL"]] *)
Inductive Urgency : Set := LOW | MEDIUM | HIGH | CRITICAL.

Global Instance Urgency_eq_dec : EqDecision Urgency.
Proof. solve_decision. Defined.

Module Medicine.
Record t : Type := mk {
  medicine_id : string;
  medicine_name : string;
  strength : string;
  form : string;
  stock_level : Z;
  prescription_required : bool;
  category : string;
  discontinued : bool;
  max_quantity_per_order : Z;
  controlled_substance : bool
}.

Definition with_stock_level (v : Z) (m : t) : t :=
  mk (medicine_id m) (medicine_name m) (strength m) (form m) v
     (prescription_required m) (category m) (discontinued m)
     (max_quantity_per_order m) (controlled_substance m).
End Medicine.

Module Patient.
Record t : Type := mk {
  patient_id : string;
  patient_name : string;
  patient_email : string;
  patient_phone : string
}.
End Patient.

Module ExtractedEntity.
Record t : Type := mk {
  medicine : string;
  dosage : string;
  frequency : string;
  quantity : Z;
  confidence : Float64.float;
  raw_text : string
}.
End ExtractedEntity.

Module ExtractionResult.
Record t : Type := mk {
  entities : list ExtractedEntity.t;
  needs_clarification : bool;
  clarification_message : string
}.
End ExtractionResult.

Module SafetyCheckResult.
Record t : Type := mk {
  decision : SafetyDecision;
  reasons : list string;
  allowed_quantity : option Z;
  requires_followup : bool;
  requires_prescription : bool;
  blocked_items : list string
}.
End SafetyCheckResult.

Module RefillPrediction.
Record t : Type := mk {
  patient_id : string;
  patient_name : string;
  medicine : string;
  medicine_id : string;
  days_remaining : Z;
  last_purchase_date : string;
  action : RefillAction;
  justification : string;
  urgency : Urgency
}.
End RefillPrediction.

Module OrderItem.
Record t : Type := mk {
  medicine_id : string;
  medicine_name : string;
  strength : string;
  quantity : Z;
  unit_price : Float64.float;
  prescription_required : bool
}.

Definition with_unit_price (p : Float64.float) (i : t) : t :=
  mk (medicine_id i) (medicine_name i) (strength i) (quantity i) p
     (prescription_required i).
End OrderItem.

Module OrderPreview.
Record t : Type := mk {
  preview_id : string;
  patient_id : string;
  patient_name : string;
  items : list OrderItem.t;
  total_amount : Float64.float;
  safety_decision : SafetyDecision;
  safety_reasons : list string;
  requires_prescription : bool
}.

Definition with_items (l : list OrderItem.t) (p : t) : t :=
  mk (preview_id p) (patient_id p) (patient_name p) l (total_amount p)
     (safety_decision p) (safety_reasons p) (requires_prescription p).
End OrderPreview.

Module Order.
Record t : Type := mk {
  order_id : string;
  patient_id : string;
  patient_name : string;
  patient_email : string;
  patient_phone : string;
  items : list OrderItem.t;
  total_amount : Float64.float;
  status : OrderStatus;
  prescription_id : option string
}.

Definition with_status (s : OrderStatus) (o : t) : t :=
  mk (order_id o) (patient_id o) (patient_name o) (patient_email o)
     (patient_phone o) (items o) (total_amount o) s (prescription_id o).
End Order.

Module OrderStatusUpdate.
Record t : Type := mk {
  order_id : string;
  status : OrderStatus;
  message : string
}.
End OrderStatusUpdate.

Module ChatRequest.
(** [message] and [conversation_history] only feed the external
    classifier and extractor, whose answers are handler arguments. *)
Record t : Type := mk {
  patient_id : string;
  session_id : option string
}.
End ChatRequest.

Module ChatResponse.
Record t : Type := mk {
  message : string;
  extracted_entities : option ExtractionResult.t;
  safety_result : option SafetyCheckResult.t;
  order_preview : option OrderPreview.t;
  order : option Order.t;
  refill_suggestions : list RefillPrediction.t;
  requires_confirmation : bool
}.

(** [ChatResponse(message=...)] with every other field at its default. *)
Definition text (message : string) : t :=
  mk message None None None None [] false.
End ChatResponse.

(** ** Truth values of Python objects used in conditions *)

(** [if n:] for an [Optional[int]]: [None] and [0] are both false. *)
Definition truthy_opt_int (n : option Z) : bool :=
  match n with
  | Some v => negb (v =? 0)
  | None => false
  end.

(** [if s:] for a [str]. *)
Definition truthy_str (s : string) : bool :=
  negb (String.eqb s "").

(** [if l:] for a list. *)
Definition truthy_list {A} (l : list A) : bool :=
  match l with
  | [] => false
  | _ :: _ => true
  end.

(** ** agents/safety_agent.py *)
Module SafetyAgent.

(** The five locals that the loop of [evaluate] updates. *)
Record Locals : Type := mkLocals {
  reasons : list string;
  blocked_items : list string;
  requires_prescription : bool;
  allowed_quantity : option Z;
  requires_followup : bool
}.

Definition init : Locals := mkLocals [] [] false None false.

(** [entity.quantity if entity and entity.quantity > 0 else 30] *)
Definition requested_qty (entity : option ExtractedEntity.t) : Z :=
  match entity with
  | Some e =>
      if 0 <? ExtractedEntity.quantity e then ExtractedEntity.quantity e else 30
  | None => 30
  end.

Definition add_reason (r : string) (l : Locals) : Locals :=
  mkLocals (reasons l ++ [r]) (blocked_items l) (requires_prescription l)
           (allowed_quantity l) (requires_followup l).

Definition block (name : string) (l : Locals) : Locals :=
  mkLocals (reasons l) (blocked_items l ++ [name]) (requires_prescription l)
           (allowed_quantity l) (requires_followup l).

Definition set_requires_prescription (l : Locals) : Locals :=
  mkLocals (reasons l) (blocked_items l) true
           (allowed_quantity l) (requires_followup l).

Definition set_requires_followup (l : Locals) : Locals :=
  mkLocals (reasons l) (blocked_items l) (requires_prescription l)
           (allowed_quantity l) true.

Definition set_allowed_quantity (q : Z) (l : Locals) : Locals :=
  mkLocals (reasons l) (blocked_items l) (requires_prescription l)
           (Some q) (requires_followup l).

(** Lines 117-121: the prescription check. *)
Definition check_prescription (has_prescription : bool)
    (medicine : Medicine.t) (l : Locals) : Locals :=
  if Medicine.prescription_required medicine then
    let l := set_requires_prescription l in
    if negb has_prescription then
      add_reason (Medicine.medicine_name medicine
                  +:+ " requires a valid prescription.") l
    else l
  else l.

(** Lines 123-126: the controlled-substance check. *)
Definition check_controlled (medicine : Medicine.t) (l : Locals) : Locals :=
  if Medicine.controlled_substance medicine then
    set_requires_followup
      (add_reason (Medicine.medicine_name medicine
         +:+ " is a controlled substance. Special handling required.") l)
  else l.

(** Lines 134-136: stock below the requested quantity. *)
Definition check_stock_shortfall (requested : Z)
    (medicine : Medicine.t) (l : Locals) : Locals :=
  if Medicine.stock_level medicine <? requested then
    let q := Z.min (Medicine.stock_level medicine)
                   (Medicine.max_quantity_per_order medicine) in
    add_reason ("Limited stock available for "
                +:+ Medicine.medicine_name medicine
                +:+ ". Maximum quantity: " +:+ pretty q)
               (set_allowed_quantity q l)
  else l.

(** Lines 138-142: requested quantity above the per-order maximum. *)
Definition check_max_quantity (requested : Z)
    (medicine : Medicine.t) (l : Locals) : Locals :=
  if Medicine.max_quantity_per_order medicine <? requested then
    let l :=
      if negb (truthy_opt_int (allowed_quantity l)) then
        set_allowed_quantity (Medicine.max_quantity_per_order medicine) l
      else l in
    add_reason ("Maximum quantity per order for "
                +:+ Medicine.medicine_name medicine +:+ " is "
                +:+ pretty (Medicine.max_quantity_per_order medicine)) l
  else l.

(** One iteration of the loop (lines 107-142), [continue] included. *)
Definition check_medicine (has_prescription : bool)
    (entity : option ExtractedEntity.t) (medicine : Medicine.t)
    (l : Locals) : Locals :=
  let requested := requested_qty entity in
  if Medicine.discontinued medicine then
    add_reason (Medicine.medicine_name medicine
                +:+ " has been discontinued and is no longer available.")
               (block (Medicine.medicine_name medicine) l)
  else
    let l := check_prescription has_prescription medicine l in
    let l := check_controlled medicine l in
    if Medicine.stock_level medicine =? 0 then
      add_reason (Medicine.medicine_name medicine
                  +:+ " is currently out of stock.")
                 (block (Medicine.medicine_name medicine) l)
    else
      let l := check_stock_shortfall requested medicine l in
      check_max_quantity requested medicine l.

(** [for i, medicine in enumerate(matched_medicines)], from index [i]. *)
Fixpoint check_all (has_prescription : bool)
    (entities : list ExtractedEntity.t) (i : nat)
    (matched_medicines : list Medicine.t) (l : Locals) : Locals :=
  match matched_medicines with
  | [] => l
  | medicine :: rest =>
      check_all has_prescription entities (S i) rest
        (check_medicine has_prescription (entities !! i) medicine l)
  end.

(** Lines 144-154: the decision and the default reason. *)
Definition decide_result (has_prescription : bool)
    (matched_medicines : list Medicine.t) (l : Locals)
    : SafetyDecision * list string :=
  if truthy_list (blocked_items l)
     && (length (blocked_items l) =? length matched_medicines)%nat then
    (REJECT, reasons l)
  else if truthy_list (blocked_items l)
          || (requires_prescription l && negb has_prescription) then
    (CONDITIONAL, reasons l)
  else if requires_followup l || truthy_opt_int (allowed_quantity l) then
    (CONDITIONAL, reasons l)
  else
    (APPROVE,
     if negb (truthy_list (reasons l))
     then reasons l ++ ["All safety checks passed."]
     else reasons l).

Definition evaluate (entities : list ExtractedEntity.t)
    (matched_medicines : list Medicine.t) (has_prescription : bool)
    : SafetyCheckResult.t :=
  let l := check_all has_prescription entities 0 matched_medicines init in
  let verdict := decide_result has_prescription matched_medicines l in
  SafetyCheckResult.mk (fst verdict) (snd verdict) (allowed_quantity l)
    (requires_followup l) (requires_prescription l) (blocked_items l).

End SafetyAgent.

(** ** agents/refill_agent.py *)
Module RefillAgent.

(** A medication record: the keys that [predict] reads with [dict.get];
    [None] is an absent key. *)
Record MedRecord : Type := mkMedRecord {
  rec_days_remaining : option Z;
  rec_medicine : option string;
  rec_medicine_name : option string;
  rec_medicine_id : option string;
  rec_purchase_date : option string;
  rec_dosage : option string
}.

(** Lines 83-101: action, urgency and justification, or [None] for the
    [continue] branch. *)
Definition classify (patient_name : string) (days_remaining : Z)
    : option (RefillAction * Urgency * string) :=
  if days_remaining <=? 0 then
    Some (BLOCK, CRITICAL,
          "Medication supply exhausted. " +:+ patient_name
          +:+ "'s prescription may need renewal before refill.")
  else if days_remaining <=? 3 then
    Some (REMIND, HIGH,
          "Only " +:+ pretty days_remaining +:+ " days of supply remaining for "
          +:+ patient_name +:+ ". Recommend immediate refill.")
  else if days_remaining <=? 7 then
    Some (AUTO_REFILL, MEDIUM,
          "Running low on supply (" +:+ pretty days_remaining
          +:+ " days). Auto-refill scheduled for " +:+ patient_name +:+ ".")
  else if days_remaining <=? 14 then
    Some (REMIND, LOW,
          "Supply adequate for " +:+ pretty days_remaining
          +:+ " days. Reminder sent to " +:+ patient_name +:+ " for planning.")
  else None.

(** The body of the loop for one record; [today] is the formatted
    current date used when the record has no purchase date. *)
Definition predict_one (today patient_id patient_name : string)
    (med : MedRecord) : option RefillPrediction.t :=
  let days_remaining := default 0 (rec_days_remaining med) in
  let medicine_name :=
    default (default "Unknown" (rec_medicine_name med)) (rec_medicine med) in
  let medicine_id := default "" (rec_medicine_id med) in
  let last_purchase := default today (rec_purchase_date med) in
  match classify patient_name days_remaining with
  | Some (action, urgency, justification) =>
      Some (RefillPrediction.mk patient_id patient_name medicine_name
              medicine_id days_remaining last_purchase action
              justification urgency)
  | None => None
  end.

Fixpoint predict (today patient_id patient_name : string)
    (medication_history : list MedRecord) : list RefillPrediction.t :=
  match medication_history with
  | [] => []
  | med :: rest =>
      match predict_one today patient_id patient_name med with
      | Some p => p :: predict today patient_id patient_name rest
      | None => predict today patient_id patient_name rest
      end
  end.

End RefillAgent.

(** ** Calls that may raise *)

(** A call either returns or raises; [try_except] is
    [try: ... except Exception as e: handler(e)]. *)
Inductive Call (A : Type) : Type :=
| Returns (a : A)
| Raises (error : string).
Arguments Returns {A} a.
Arguments Raises {A} error.

Definition try_except {A} (body : Call A) (handler : string -> A) : Call A :=
  match body with
  | Returns a => Returns a
  | Raises e => Returns (handler e)
  end.

(** ** Python and numpy numbers *)

(** [float(n)] as the mixed operation [x * n] performs it. *)
Definition int_to_float (n : Z) : Call Float64.float :=
  if Float64.converts n then Returns (Float64.of_Z n)
  else Raises "OverflowError: int too large to convert to float".

Definition int64_min : Z := - 2 ^ 63.
Definition int64_max : Z := 2 ^ 63 - 1.

Definition in_int64 (n : Z) : bool := (int64_min <=? n) && (n <=? int64_max).

(** The int64 that an int64 operation with exact result [n] produces:
    numpy wraps around (and warns). *)
Definition wrap_int64 (n : Z) : Z := (n - int64_min) mod 2 ^ 64 + int64_min.

(** What numpy raises for a Python [int] operand that is no int64. *)
Definition int64_overflow (n : Z) : string :=
  "OverflowError: Python integer " +:+ pretty n +:+ " out of bounds for int64".

(** ** Python string helpers *)

Definition nl : string := String (Ascii.ascii_of_nat 10) EmptyString.

(** [sep.join(parts)] *)
Fixpoint join (sep : string) (parts : list string) : string :=
  match parts with
  | [] => ""
  | [p] => p
  | p :: rest => p +:+ sep +:+ join sep rest
  end.

(** [needle in hay] for two [str]. *)
Fixpoint is_substring (needle hay : string) : bool :=
  String.prefix needle hay
  || match hay with
     | EmptyString => false
     | String _ rest => is_substring needle rest
     end.

(** [s[-n:]] *)
Definition last_chars (n : nat) (s : string) : string :=
  String.substring (String.length s - n) n s.

(** String operations whose definition lives outside the repository:
    [str.lower] and pandas' [Series.str.contains], which compiles its
    argument as a regular expression ([regex_error] is the [re.error] for
    a pattern that does not compile) and searches each value for it. *)
Record StrOps : Type := mkStrOps {
  str_lower : string -> string;
  regex_error : string -> option string;
  series_contains : string -> string -> bool
}.

(** The price table repeated in the orchestrator and the fulfillment
    agent: [price_map.get(name, 0.50)]. *)
Definition price_map (name : string) : option Float64.float :=
  if String.eqb name "Paracetamol" then Some (Float64.dec 15 100)
  else if String.eqb name "Metformin" then Some (Float64.dec 20 100)
  else if String.eqb name "Atorvastatin" then Some (Float64.dec 85 100)
  else if String.eqb name "Lisinopril" then Some (Float64.dec 55 100)
  else if String.eqb name "Amlodipine" then Some (Float64.dec 65 100)
  else if String.eqb name "Omeprazole" then Some (Float64.dec 40 100)
  else if String.eqb name "Amoxicillin" then Some (Float64.dec 35 100)
  else if String.eqb name "Ibuprofen" then Some (Float64.dec 20 100)
  else if String.eqb name "Aspirin" then Some (Float64.dec 10 100)
  else None.

Definition price_of (name : string) : Float64.float :=
  default (Float64.dec 50 100) (price_map name).

(** [item.unit_price * item.quantity]: the quantity is converted to a
    [float], which raises when it is too large. *)
Definition line_amount (item : OrderItem.t) : Call Float64.float :=
  match int_to_float (OrderItem.quantity item) with
  | Returns quantity =>
      Returns (Float64.fmul (OrderItem.unit_price item) quantity)
  | Raises e => Raises e
  end.

(** [sum(item.unit_price * item.quantity for item in items)], from the
    running total [acc]: the first item that raises ends the sum. *)
Fixpoint items_total_from (acc : Float64.float) (items : list OrderItem.t)
    : Call Float64.float :=
  match items with
  | [] => Returns acc
  | item :: rest =>
      match line_amount item with
      | Returns amount => items_total_from (Float64.fadd acc amount) rest
      | Raises e => Raises e
      end
  end.

Definition items_total (items : list OrderItem.t) : Call Float64.float :=
  items_total_from (S754_zero false) items.

(** ** services/data_service.py *)
Module DataService.

(** One row appended to the order history by [add_order]. *)
Record OrderRow : Type := mkOrderRow {
  row_order_id : string;
  row_patient_id : string;
  row_patient_name : string;
  row_patient_email : string;
  row_patient_phone : string;
  row_medicine : string;
  row_medicine_id : string;
  row_dosage : string;
  row_quantity : Z;
  row_supply_days : Z;
  row_prescription_id : string;
  row_order_status : string
}.

(** The two data frames; [None] when the CSV file was missing at start.
    A row of the medicine frame carries the columns of [Medicine]; the
    CSV copy rewritten after each update mirrors the frame. *)
Record t : Type := mk {
  medicines_df : option (list Medicine.t);
  orders_df : option (list OrderRow)
}.

(** Lines 80-104.  [str.contains] raises [re.error] when the lower-cased
    query is no regular expression. *)
Definition search_medicine (ops : StrOps) (query : string) (ds : t)
    : Call (list Medicine.t) :=
  match medicines_df ds with
  | None => Returns []
  | Some rows =>
      let query_lower := str_lower ops query in
      match regex_error ops query_lower with
      | Some e => Raises e
      | None =>
          Returns
            (List.filter (fun row =>
                            series_contains ops
                              (str_lower ops (Medicine.medicine_name row))
                              query_lower) rows)
      end
  end.

Definition get_medicine_by_id (medicine_id : string) (ds : t)
    : option Medicine.t :=
  match medicines_df ds with
  | None => None
  | Some rows =>
      snd <$> list_find (fun row => Medicine.medicine_id row = medicine_id) rows
  end.

(** Lines 146-167.  [idx[0]] is the first row with that id.
    [current_stock] is a numpy int64, so the subtraction is an int64
    operation: a [quantity_sold] that is no int64 raises [OverflowError],
    before anything is written, and a difference that is no int64 wraps
    around. *)
Definition update_stock (medicine_id : string) (quantity_sold : Z) (ds : t)
    : Call (bool * t) :=
  match medicines_df ds with
  | None => Returns (false, ds)
  | Some rows =>
      match list_find (fun row => Medicine.medicine_id row = medicine_id) rows with
      | None => Returns (false, ds)
      | Some (i, row) =>
          let current_stock := Medicine.stock_level row in
          if in_int64 quantity_sold then
            let new_stock :=
              Z.max 0 (wrap_int64 (current_stock - quantity_sold)) in
            let new_stock := if new_stock <? 0 then 0 else new_stock in
            Returns
              (true,
               mk (Some (<[i := Medicine.with_stock_level new_stock row]> rows))
                  (orders_df ds))
          else Raises (int64_overflow quantity_sold)
      end
  end.

Definition add_order (order_data : OrderRow) (ds : t) : bool * t :=
  (true, mk (medicines_df ds) (Some (default [] (orders_df ds) ++ [order_data]))).

End DataService.

(** ** agents/fulfillment_agent.py *)

Module AgentEvent.
Record t : Type := mk {
  agent_name : string;
  action : string;
  description : string;
  status : string
}.
End AgentEvent.

(** What the awaited [client.post(...)] produces: a response with its
    status code, or an exception raised by the HTTP client (connection
    failure, timeout), all of which derive from [Exception]. *)
Inductive PostOutcome : Type :=
| Response (status_code : Z)
| Raised (error : string).

Module Receipt.
Record Line : Type := mkLine {
  line_medicine : string;
  line_strength : string;
  line_quantity : Z;
  line_unit_price : Float64.float;
  line_total : Float64.float
}.

(** The dict returned by [generate_receipt], without [order_date] and
    [issued_at]. *)
Record t : Type := mk {
  receipt_number : string;
  order_id : string;
  patient_name : string;
  patient_id : string;
  patient_email : string;
  patient_phone : string;
  items : list Line;
  subtotal : Float64.float;
  tax : Float64.float;
  delivery_fee : Float64.float;
  grand_total : Float64.float;
  payment_status : string;
  delivery_status : string;
  estimated_delivery : string;
  thank_you_message : string
}.
End Receipt.

Module FulfillmentAgent.

Record t : Type := mk {
  orders : gmap string Order.t;
  order_history : gmap string (list OrderStatusUpdate.t);
  order_events : gmap string (list AgentEvent.t)
}.

Definition empty : t := mk ∅ ∅ ∅.

Definition add_event (order_id agent_name action description status : string)
    (fa : t) : t :=
  let event := AgentEvent.mk agent_name action description status in
  mk (orders fa) (order_history fa)
     (<[order_id := default [] (order_events fa !! order_id) ++ [event]]>
        (order_events fa)).

Definition get_events (order_id : string) (fa : t) : list AgentEvent.t :=
  default [] (order_events fa !! order_id).

(** Lines 84-88: fill in a price that is still zero. *)
Definition fill_price (item : OrderItem.t) : OrderItem.t :=
  if Float64.feqb (OrderItem.unit_price item) (Float64.of_Z 0) then
    OrderItem.with_unit_price (price_of (OrderItem.medicine_name item)) item
  else item.

(** Lines 57-133.  [order_id] is the generated
    [ORD-<date>-<6 hex digits>].  The prices are filled in on the item
    objects of the caller (the caller models that); the sum raises before
    anything is stored. *)
Definition create_order (order_id : string)
    (patient_id patient_name patient_email patient_phone : string)
    (items : list OrderItem.t) (fa : t) : Call Order.t * t :=
  let items := map fill_price items in
  match items_total items with
  | Raises e => (Raises e, fa)
  | Returns total_amount =>
      let order :=
        Order.mk order_id patient_id patient_name patient_email patient_phone
                 items (Float64.round2 total_amount) PENDING None in
      let fa :=
        mk (<[order_id := order]> (orders fa))
           (<[order_id := [OrderStatusUpdate.mk order_id PENDING
                             ("Order created for " +:+ patient_name)]]>
              (order_history fa))
           (order_events fa) in
      (Returns order,
       add_event order_id "Conversational Ordering Agent" "Order Requested"
                 "Order initiated via conversation" "completed" fa)
  end.

(** [reasons[0] if reasons else fallback] *)
Definition first_reason (reasons : list string) (fallback : string) : string :=
  match reasons with
  | r :: _ => r
  | [] => fallback
  end.

Definition record_safety_validation (order_id : string)
    (decision : SafetyDecision) (reasons : list string) (fa : t) : t :=
  match decision with
  | APPROVE =>
      add_event order_id "Safety & Policy Agent" "AI Safety Validation"
                "Prescription verified and approved" "completed" fa
  | CONDITIONAL =>
      add_event order_id "Safety & Policy Agent" "AI Safety Validation"
                ("Conditional approval: "
                 +:+ first_reason reasons "Conditions apply")
                "completed" fa
  | REJECT =>
      add_event order_id "Safety & Policy Agent" "Blocked by AI"
                ("Blocked: " +:+ first_reason reasons "Safety check failed")
                "blocked" fa
  end.

Definition record_order_confirmed (order_id : string) (fa : t) : t :=
  add_event order_id "Safety & Policy Agent" "AI Order Confirmed"
            "AI validated and confirmed order" "completed" fa.

Definition record_inventory_updated (order_id : string) (quantity : Z)
    (fa : t) : t :=
  add_event order_id "Inventory & Fulfillment Agent" "Inventory Updated"
            ("Stock reduced by " +:+ pretty quantity +:+ " units")
            "completed" fa.

Definition record_fulfillment_initiated (order_id : string) (fa : t) : t :=
  add_event order_id "Inventory & Fulfillment Agent" "Fulfillment Initiated"
            "Warehouse notified for fulfillment" "completed" fa.

Definition get_order (order_id : string) (fa : t) : option Order.t :=
  orders fa !! order_id.

Definition get_order_history (order_id : string) (fa : t)
    : list OrderStatusUpdate.t :=
  default [] (order_history fa !! order_id).

(** Lines 233-257.  The order object is the one stored in [orders], so
    assigning its status updates the table. *)
Definition update_order_status (order_id : string) (status : OrderStatus)
    (message : string) (fa : t) : option Order.t * t :=
  match orders fa !! order_id with
  | None => (None, fa)
  | Some order =>
      let order := Order.with_status status order in
      (Some order,
       mk (<[order_id := order]> (orders fa))
          (<[order_id := default [] (order_history fa !! order_id)
                         ++ [OrderStatusUpdate.mk order_id status message]]>
             (order_history fa))
          (order_events fa))
  end.

(** The body of the [try] block of [trigger_warehouse_webhook]
    (lines 284-302): the awaited post may raise; a 200 response updates
    the order and appends the event; any other response only prints. *)
Definition webhook_body (order : Order.t) (post : PostOutcome) (fa : t)
    : Call t :=
  match post with
  | Raised e => Raises e
  | Response status_code =>
      if status_code =? 200 then
        let fa :=
          snd (update_order_status (Order.order_id order) PROCESSING
                 "Order sent to warehouse for fulfillment" fa) in
        Returns (add_event (Order.order_id order) "System" "Dispatched"
                           "Package dispatched from warehouse" "completed" fa)
      else Returns fa
  end.

(** Lines 259-304. *)
Definition trigger_warehouse_webhook (order : Order.t) (post : PostOutcome)
    (fa : t) : Call t :=
  try_except (webhook_body order post fa) (fun _ => fa).

(** Lines 311-319 for one item. *)
Definition receipt_line (item : OrderItem.t) : Call Receipt.Line :=
  match line_amount item with
  | Returns amount =>
      Returns
        (Receipt.mkLine (OrderItem.medicine_name item) (OrderItem.strength item)
           (OrderItem.quantity item) (OrderItem.unit_price item)
           (Float64.round2 amount))
  | Raises e => Raises e
  end.

Fixpoint receipt_lines (items : list OrderItem.t) : Call (list Receipt.Line) :=
  match items with
  | [] => Returns []
  | item :: rest =>
      match receipt_line item with
      | Raises e => Raises e
      | Returns line =>
          match receipt_lines rest with
          | Raises e => Raises e
          | Returns lines => Returns (line :: lines)
          end
      end
  end.

(** Lines 306-344. *)
Definition generate_receipt (order : Order.t) : Call Receipt.t :=
  let receipt_number := "RCP-" +:+ last_chars 6 (Order.order_id order) in
  match receipt_lines (Order.items order) with
  | Raises e => Raises e
  | Returns items_detail =>
      let subtotal := Order.total_amount order in
      let tax := Float64.round2 (Float64.fmul subtotal (Float64.dec 5 100)) in
      let delivery_fee := Float64.dec 200 100 in
      let grand_total :=
        Float64.round2
          (Float64.fadd (Float64.fadd subtotal tax) delivery_fee) in
      Returns
        (Receipt.mk receipt_number (Order.order_id order)
           (Order.patient_name order) (Order.patient_id order)
           (Order.patient_email order) (Order.patient_phone order)
           items_detail subtotal tax delivery_fee grand_total "Paid"
           "Preparing" "1-2 business days"
           ("Thank you, " +:+ Order.patient_name order
            +:+ "! Your order is being prepared. You'll receive updates via email."))
  end.

(** The timeline effect of [send_receipt_notification]. *)
Definition send_receipt_notification (receipt : Receipt.t) (fa : t) : t :=
  add_event (Receipt.order_id receipt) "System" "Notifications Sent"
            ("Receipt sent to " +:+ Receipt.patient_email receipt
             +:+ " and " +:+ Receipt.patient_phone receipt)
            "completed" fa.

End FulfillmentAgent.

(** ** agents/orchestrator_agent.py *)

Module Orchestrator.

(** [pending_previews] and [session_contexts]; [conversation_histories]
    is never written and is left out. *)
Record t : Type := mk {
  pending_previews : gmap string OrderPreview.t;
  session_contexts : gmap string string
}.

Definition empty : t := mk ∅ ∅.

End Orchestrator.

(** The three module-level singletons. *)
Record World : Type := mkWorld {
  orchestrator_agent : Orchestrator.t;
  fulfillment_agent : FulfillmentAgent.t;
  data_service : DataService.t
}.

Definition with_orchestrator (o : Orchestrator.t) (w : World) : World :=
  mkWorld o (fulfillment_agent w) (data_service w).

Definition with_fulfillment (fa : FulfillmentAgent.t) (w : World) : World :=
  mkWorld (orchestrator_agent w) fa (data_service w).

Definition with_data (ds : DataService.t) (w : World) : World :=
  mkWorld (orchestrator_agent w) (fulfillment_agent w) ds.

Module OrchestratorAgent.

(** [f"PRV-{uuid.uuid4().hex[:8].upper()}"], given the eight digits. *)
Definition _generate_preview_id (hex8 : string) : string := "PRV-" +:+ hex8.

(** [request.session_id or request.patient_id] *)
Definition session_key (request : ChatRequest.t) : string :=
  match ChatRequest.session_id request with
  | Some s => if truthy_str s then s else ChatRequest.patient_id request
  | None => ChatRequest.patient_id request
  end.

(** Line 234: [not entity.dosage or entity.dosage.lower() in med.strength.lower()] *)
Definition dosage_matches (ops : StrOps) (entity : ExtractedEntity.t)
    (med : Medicine.t) : bool :=
  negb (truthy_str (ExtractedEntity.dosage entity))
  || is_substring (str_lower ops (ExtractedEntity.dosage entity))
                  (str_lower ops (Medicine.strength med)).

(** Lines 230-238 for one entity: the first result whose strength
    matches, else the first result, nothing when the search is empty. *)
Definition match_entity (ops : StrOps) (ds : DataService.t)
    (entity : ExtractedEntity.t) : Call (option Medicine.t) :=
  match DataService.search_medicine ops (ExtractedEntity.medicine entity) ds with
  | Raises e => Raises e
  | Returns search_results =>
      Returns
        (if truthy_list search_results then
           match List.find (dosage_matches ops entity) search_results with
           | Some med => Some med
           | None => head search_results
           end
         else None)
  end.

(** Lines 228-238: the matched medicines, in the order of the entities
    that have one; the first search that raises ends the loop. *)
Fixpoint match_entities (ops : StrOps) (ds : DataService.t)
    (entities : list ExtractedEntity.t) : Call (list Medicine.t) :=
  match entities with
  | [] => Returns []
  | entity :: rest =>
      match match_entity ops ds entity with
      | Raises e => Raises e
      | Returns found =>
          match match_entities ops ds rest with
          | Raises e => Raises e
          | Returns matched =>
              Returns (match found with
                       | Some med => med :: matched
                       | None => matched
                       end)
          end
      end
  end.

(** Lines 272-274. *)
Definition item_quantity (allowed_quantity : option Z)
    (entity : ExtractedEntity.t) : Z :=
  let quantity :=
    if 0 <? ExtractedEntity.quantity entity
    then ExtractedEntity.quantity entity else 30 in
  if truthy_opt_int allowed_quantity then
    Z.min quantity (default 0 allowed_quantity)
  else quantity.

(** Lines 269-282, from index [i]; prices are still at their default. *)
Fixpoint build_items (allowed_quantity : option Z) (i : nat)
    (entities : list ExtractedEntity.t) (matched_medicines : list Medicine.t)
    : list OrderItem.t :=
  match entities with
  | [] => []
  | entity :: rest =>
      match matched_medicines !! i with
      | Some med =>
          OrderItem.mk (Medicine.medicine_id med) (Medicine.medicine_name med)
            (Medicine.strength med) (item_quantity allowed_quantity entity)
            (Float64.of_Z 0) (Medicine.prescription_required med)
          :: build_items allowed_quantity (S i) rest matched_medicines
      | None => build_items allowed_quantity (S i) rest matched_medicines
      end
  end.

(** Lines 296-298. *)
Definition set_price (item : OrderItem.t) : OrderItem.t :=
  OrderItem.with_unit_price (price_of (OrderItem.medicine_name item)) item.

Definition item_summary (item : OrderItem.t) : string :=
  OrderItem.medicine_name item +:+ " " +:+ OrderItem.strength item
  +:+ " x" +:+ pretty (OrderItem.quantity item).

Definition items_summary (items : list OrderItem.t) : string :=
  join ", " (map item_summary items).

(** Lines 203-333.  [extraction_result] is the extractor's answer and
    [hex8] the digits of the fresh preview id.  A search or the subtotal
    may raise; nothing has been written by then. *)
Definition _handle_order (ops : StrOps) (request : ChatRequest.t)
    (patient : Patient.t) (extraction_result : ExtractionResult.t)
    (hex8 : string) (w : World) : Call ChatResponse.t * World :=
  let entities := ExtractionResult.entities extraction_result in
  if ExtractionResult.needs_clarification extraction_result then
    (Returns
       (ChatResponse.mk
          (ExtractionResult.clarification_message extraction_result)
          (Some extraction_result) None None None [] false), w)
  else if negb (truthy_list entities) then
    (Returns
       (ChatResponse.mk
          "I couldn't identify any medications in your request. Could you please specify which medicine you need?"
          (Some extraction_result) None None None [] false), w)
  else
    match match_entities ops (data_service w) entities with
    | Raises e => (Raises e, w)
    | Returns matched_medicines =>
        if negb (truthy_list matched_medicines) then
          (Returns
             (ChatResponse.mk
                ("I couldn't find '"
                 +:+ default "" (ExtractedEntity.medicine <$> head entities)
                 +:+ "' in our inventory. Please check the spelling or try a different medication.")
                (Some extraction_result) None None None [] false), w)
        else
          let safety_result :=
            SafetyAgent.evaluate entities matched_medicines false in
          match SafetyCheckResult.decision safety_result with
          | REJECT =>
              (Returns
                 (ChatResponse.mk
                    ("I'm sorry, but I cannot process this order. "
                     +:+ join " " (SafetyCheckResult.reasons safety_result))
                    (Some extraction_result) (Some safety_result) None None []
                    false),
               w)
          | decision =>
              let preview_id := _generate_preview_id hex8 in
              let items :=
                build_items (SafetyCheckResult.allowed_quantity safety_result)
                            0 entities matched_medicines in
              let items := map set_price items in
              match items_total items with
              | Raises e => (Raises e, w)
              | Returns subtotal =>
                  let preview :=
                    OrderPreview.mk preview_id (Patient.patient_id patient)
                      (Patient.patient_name patient) items
                      (Float64.round2 subtotal) decision
                      (SafetyCheckResult.reasons safety_result)
                      (SafetyCheckResult.requires_prescription safety_result) in
                  let o := orchestrator_agent w in
                  let o :=
                    Orchestrator.mk
                      (<[preview_id := preview]> (Orchestrator.pending_previews o))
                      (<[session_key request := preview_id]>
                         (Orchestrator.session_contexts o)) in
                  let message :=
                    match decision with
                    | CONDITIONAL =>
                        "I can prepare your order for " +:+ items_summary items
                        +:+ ". However: "
                        +:+ join " " (SafetyCheckResult.reasons safety_result)
                        +:+ nl +:+ nl
                        +:+ "Would you like to proceed? Reply 'confirm' to place the order or 'cancel' to cancel."
                    | _ =>
                        "Great! I've prepared your order for "
                        +:+ items_summary items
                        +:+ "." +:+ nl +:+ nl +:+ "Estimated total: $"
                        +:+ Float64.fmt2f (OrderPreview.total_amount preview)
                        +:+ nl +:+ nl
                        +:+ "Please reply 'confirm' to place the order or 'cancel' to cancel."
                    end in
                  (Returns
                     (ChatResponse.mk message (Some extraction_result)
                        (Some safety_result) (Some preview) None [] true),
                   with_orchestrator o w)
              end
          end
    end.

(** Lines 370-373: the stock updates of the confirmation, with the
    running total of quantities.  When an update raises, the updates of
    the items before it have been made. *)
Fixpoint update_inventory (items : list OrderItem.t) (total_quantity : Z)
    (ds : DataService.t) : Call Z * DataService.t :=
  match items with
  | [] => (Returns total_quantity, ds)
  | item :: rest =>
      match DataService.update_stock (OrderItem.medicine_id item)
              (OrderItem.quantity item) ds with
      | Raises e => (Raises e, ds)
      | Returns (_, ds) =>
          update_inventory rest (total_quantity + OrderItem.quantity item) ds
      end
  end.

(** Lines 385-400. *)
Definition history_row (order : Order.t) (patient : Patient.t)
    (item : OrderItem.t) : DataService.OrderRow :=
  DataService.mkOrderRow (Order.order_id order) (Patient.patient_id patient)
    (Patient.patient_name patient) (Patient.patient_email patient)
    (Patient.patient_phone patient) (OrderItem.medicine_name item)
    (OrderItem.medicine_id item) (OrderItem.strength item)
    (OrderItem.quantity item) 30
    (match Order.prescription_id order with
     | Some p => if truthy_str p then p else "null"
     | None => "null"
     end)
    "PROCESSING".

Definition add_history (order : Order.t) (patient : Patient.t)
    (ds : DataService.t) : DataService.t :=
  fold_left (fun ds item => snd (DataService.add_order (history_row order patient item) ds))
            (Order.items order) ds.

(** Lines 413-433. *)
Definition confirmation_message (order : Order.t) (receipt : Receipt.t)
    : string :=
  let tax := Float64.fmul (Order.total_amount order) (Float64.dec 5 100) in
  let delivery := Float64.dec 200 100 in
  let grand_total :=
    Float64.fadd (Float64.fadd (Order.total_amount order) tax) delivery in
  "âœ… **Order Confirmed!**" +:+ nl +:+ nl
  +:+ "**Order ID:** " +:+ Order.order_id order +:+ nl
  +:+ "**Items:** " +:+ items_summary (Order.items order) +:+ nl
  +:+ "**Subtotal:** $" +:+ Float64.fmt2f (Order.total_amount order) +:+ nl
  +:+ "**Tax (5%):** $" +:+ Float64.fmt2f tax +:+ nl
  +:+ "**Delivery:** $" +:+ Float64.fmt2f delivery +:+ nl
  +:+ "**Total:** $" +:+ Float64.fmt2f grand_total +:+ nl +:+ nl
  +:+ "**Receipt #:** " +:+ Receipt.receipt_number receipt +:+ nl +:+ nl
  +:+ Receipt.thank_you_message receipt +:+ nl +:+ nl
  +:+ "Your order is now being prepared for delivery.".

Definition nothing_to_confirm : string :=
  "I don't see any pending order to confirm. Would you like to place a new order?".

(** The guard of line 340:
    [not preview_id or preview_id not in self.pending_previews]. *)
Definition pending_preview (request : ChatRequest.t) (o : Orchestrator.t)
    : option (string * OrderPreview.t) :=
  match Orchestrator.session_contexts o !! session_key request with
  | None => None
  | Some preview_id =>
      if truthy_str preview_id then
        match Orchestrator.pending_previews o !! preview_id with
        | Some preview => Some (preview_id, preview)
        | None => None
        end
      else None
  end.

(** [fulfillment_agent.update_order_status(order.order_id, ...)] as the
    handler sees it: its [order] is the object stored in [orders], so it
    has the new status when the stored order has. *)
Definition set_status (status : OrderStatus) (message : string)
    (order : Order.t) (fa : FulfillmentAgent.t)
    : Order.t * FulfillmentAgent.t :=
  (default order
     (fst (FulfillmentAgent.update_order_status (Order.order_id order) status
             message fa)),
   snd (FulfillmentAgent.update_order_status (Order.order_id order) status
          message fa)).

(** Lines 335-439.  [order_id] is the id generated by [create_order] and
    [post] the outcome of the outbound call.  [create_order] fills the
    prices in on the item objects of the stored preview.  When
    [create_order] or a stock update raises, the preview and the session
    binding stay, with what was written before. *)
Definition _handle_order_confirmation (request : ChatRequest.t)
    (patient : Patient.t) (order_id : string) (post : PostOutcome)
    (w : World) : Call ChatResponse.t * World :=
  let session_id := session_key request in
  match pending_preview request (orchestrator_agent w) with
  | None => (Returns (ChatResponse.text nothing_to_confirm), w)
  | Some (preview_id, preview) =>
      let o :=
        Orchestrator.mk
          (<[preview_id
             := OrderPreview.with_items
                  (map FulfillmentAgent.fill_price (OrderPreview.items preview))
                  preview]>
             (Orchestrator.pending_previews (orchestrator_agent w)))
          (Orchestrator.session_contexts (orchestrator_agent w)) in
      match FulfillmentAgent.create_order order_id (Patient.patient_id patient)
              (Patient.patient_name patient) (Patient.patient_email patient)
              (Patient.patient_phone patient) (OrderPreview.items preview)
              (fulfillment_agent w) with
      | (Raises e, fa) => (Raises e, mkWorld o fa (data_service w))
      | (Returns order, fa) =>
          let fa :=
            FulfillmentAgent.record_safety_validation (Order.order_id order)
              (OrderPreview.safety_decision preview)
              (OrderPreview.safety_reasons preview) fa in
          let '(order, fa) :=
            set_status VALIDATED "Safety validation completed" order fa in
          let fa :=
            FulfillmentAgent.record_order_confirmed (Order.order_id order) fa in
          let '(order, fa) :=
            set_status CONFIRMED "Order confirmed by patient" order fa in
          match update_inventory (Order.items order) 0 (data_service w) with
          | (Raises e, ds) => (Raises e, mkWorld o fa ds)
          | (Returns total_quantity, ds) =>
              let fa :=
                FulfillmentAgent.record_inventory_updated (Order.order_id order)
                  total_quantity fa in
              let fa :=
                FulfillmentAgent.record_fulfillment_initiated
                  (Order.order_id order) fa in
              let '(order, fa) :=
                set_status PROCESSING "Order is being processed for delivery"
                  order fa in
              match FulfillmentAgent.trigger_warehouse_webhook order post fa with
              | Raises e => (Raises e, mkWorld o fa ds)
              | Returns fa =>
                  let order :=
                    default order
                      (FulfillmentAgent.get_order (Order.order_id order) fa) in
                  let ds := add_history order patient ds in
                  match FulfillmentAgent.generate_receipt order with
                  | Raises e => (Raises e, mkWorld o fa ds)
                  | Returns receipt =>
                      let fa :=
                        FulfillmentAgent.send_receipt_notification receipt fa in
                      let o :=
                        Orchestrator.mk
                          (delete preview_id (Orchestrator.pending_previews o))
                          (delete session_id (Orchestrator.session_contexts o)) in
                      (Returns
                         (ChatResponse.mk (confirmation_message order receipt)
                            None None None (Some order) [] false),
                       mkWorld o fa ds)
                  end
              end
          end
      end
  end.

(** Lines 441-454. *)
Definition _handle_order_cancellation (request : ChatRequest.t) (w : World)
    : ChatResponse.t * World :=
  let session_id := session_key request in
  let o := orchestrator_agent w in
  let preview_id := Orchestrator.session_contexts o !! session_id in
  let pending :=
    match preview_id with
    | Some p =>
        if truthy_str p
           && bool_decide (is_Some (Orchestrator.pending_previews o !! p))
        then delete p (Orchestrator.pending_previews o)
        else Orchestrator.pending_previews o
    | None => Orchestrator.pending_previews o
    end in
  let o := Orchestrator.mk pending (delete session_id (Orchestrator.session_contexts o)) in
  (ChatResponse.text
     "Your order has been cancelled. Is there anything else I can help you with?",
   with_orchestrator o w).

End OrchestratorAgent.

(** ** main.py: the order endpoints *)
Module Api.

(** What an endpoint produces: the JSON body, the [HTTPException] it
    raised, or another exception that left it. *)
Inductive Result : Type :=
| Json (status order_id : string)
| HTTPException (status_code : Z) (detail : string)
| Unhandled (error : string).

(** Lines 210-211.  When an update raises, the updates of the items
    before it have been made. *)
Fixpoint decrement_stock (items : list OrderItem.t) (ds : DataService.t)
    : Call unit * DataService.t :=
  match items with
  | [] => (Returns tt, ds)
  | item :: rest =>
      match DataService.update_stock (OrderItem.medicine_id item)
              (OrderItem.quantity item) ds with
      | Raises e => (Raises e, ds)
      | Returns (_, ds) => decrement_stock rest ds
      end
  end.

(** Lines 195-219.  The second component lists, by id, the stored
    orders for which [trigger_warehouse_webhook] was handed to
    [background_tasks].  A stock update that raises leaves the endpoint
    after the CONFIRMED status was written and before the task is
    scheduled. *)
Definition confirm_order (order_id : string) (w : World)
    : Result * list string * World :=
  match FulfillmentAgent.get_order order_id (fulfillment_agent w) with
  | None => (HTTPException 404 "Order not found", [], w)
  | Some order =>
      if negb (bool_decide (Order.status order = PENDING)) then
        (HTTPException 400
           ("Order is not pending. Current status: "
            +:+ OrderStatus_value (Order.status order)), [], w)
      else
        let fa :=
          snd (FulfillmentAgent.update_order_status order_id CONFIRMED
                 "Order confirmed" (fulfillment_agent w)) in
        match decrement_stock (Order.items order) (data_service w) with
        | (Raises e, ds) =>
            (Unhandled e, [], mkWorld (orchestrator_agent w) fa ds)
        | (Returns _, ds) =>
            let scheduled := [Order.order_id order] in
            let fa :=
              snd (FulfillmentAgent.update_order_status order_id PREPARING
                     "Preparing order" fa) in
            (Json "confirmed" order_id, scheduled,
             mkWorld (orchestrator_agent w) fa ds)
        end
  end.

(** Lines 222-233. *)
Definition cancel_order (order_id : string) (w : World) : Result * World :=
  match FulfillmentAgent.get_order order_id (fulfillment_agent w) with
  | None => (HTTPException 404 "Order not found", w)
  | Some order =>
      if bool_decide (Order.status order = COMPLETED)
         || bool_decide (Order.status order = CANCELLED) then
        (HTTPException 400
           ("Cannot cancel order. Current status: "
            +:+ OrderStatus_value (Order.status order)), w)
      else
        (Json "cancelled" order_id,
         with_fulfillment
           (snd (FulfillmentAgent.update_order_status order_id CANCELLED
                   "Order cancelled by user" (fulfillment_agent w))) w)
  end.

End Api.

(** ** services/data_service.py: the queries over the two frames *)
Module DataQueries.

(** The patient columns of a history row. *)
Definition patient_of_row (row : DataService.OrderRow) : Patient.t :=
  Patient.mk (DataService.row_patient_id row) (DataService.row_patient_name row)
             (DataService.row_patient_email row)
             (DataService.row_patient_phone row).

(** [drop_duplicates(subset=['patient_id'])]: the first row of each
    patient id, in the order of the frame. *)
Fixpoint drop_duplicates (seen : list string)
    (rows : list DataService.OrderRow) : list DataService.OrderRow :=
  match rows with
  | [] => []
  | row :: rest =>
      if existsb (String.eqb (DataService.row_patient_id row)) seen
      then drop_duplicates seen rest
      else row :: drop_duplicates (DataService.row_patient_id row :: seen) rest
  end.

(** Lines 106-120. *)
Definition get_all_patients (ds : DataService.t) : list Patient.t :=
  match DataService.orders_df ds with
  | None => []
  | Some rows => map patient_of_row (drop_duplicates [] rows)
  end.

(** Lines 139-144. *)
Definition get_patient_order_history (patient_id : string)
    (ds : DataService.t) : list DataService.OrderRow :=
  match DataService.orders_df ds with
  | None => []
  | Some rows =>
      List.filter (fun row => String.eqb (DataService.row_patient_id row)
                                patient_id) rows
  end.

(** Lines 122-137: the first row with that patient id. *)
Definition get_patient_by_id (patient_id : string) (ds : DataService.t)
    : option Patient.t :=
  match DataService.orders_df ds with
  | None => None
  | Some rows =>
      patient_of_row
        <$> head (List.filter
                    (fun row => String.eqb (DataService.row_patient_id row)
                                  patient_id) rows)
  end.

End DataQueries.

(** ** agents/refill_agent.py: predictions for all patients *)
Module RefillBatch.

(** [urgency_order.get(x.urgency, 4)] *)
Definition urgency_order (u : Urgency) : nat :=
  match u with
  | CRITICAL => 0
  | HIGH => 1
  | MEDIUM => 2
  | LOW => 3
  end.

Definition sort_key (p : RefillPrediction.t) : nat :=
  urgency_order (RefillPrediction.urgency p).

(** [list.sort(key=...)] is a stable sort; its result is the one that
    inserting the elements from the last to the first, each before the
    first element whose key is not smaller, produces. *)
Fixpoint insert_by_key (p : RefillPrediction.t)
    (sorted : list RefillPrediction.t) : list RefillPrediction.t :=
  match sorted with
  | [] => [p]
  | q :: rest =>
      if (sort_key p <=? sort_key q)%nat then p :: q :: rest
      else q :: insert_by_key p rest
  end.

Definition sort_by_urgency (l : list RefillPrediction.t)
    : list RefillPrediction.t :=
  foldr insert_by_key [] l.

(** Lines 133-148: the predictions of every patient, in the order of the
    patients.  [needing_refill] is the data service's refill query at the
    current date, whose calendar arithmetic lies outside this model. *)
Fixpoint collect (today : string)
    (needing_refill : string -> list RefillAgent.MedRecord)
    (patients : list Patient.t) : list RefillPrediction.t :=
  match patients with
  | [] => []
  | patient :: rest =>
      let medication_history := needing_refill (Patient.patient_id patient) in
      (if truthy_list medication_history then
         RefillAgent.predict today (Patient.patient_id patient)
           (Patient.patient_name patient) medication_history
       else [])
      ++ collect today needing_refill rest
  end.

(** Lines 121-154. *)
Definition get_all_patient_refills (today : string)
    (needing_refill : string -> list RefillAgent.MedRecord)
    (ds : DataService.t) : list RefillPrediction.t :=
  sort_by_urgency
    (collect today needing_refill (DataQueries.get_all_patients ds)).

End RefillBatch.

(** ** agents/extraction_agent.py *)
Module ExtractionAgent.

(** One object of the model's [entities] array whose values the fields
    of [ExtractedEntity] accept, by the keys that [extract] reads with
    [dict.get]: [None] is an absent key, [Some v] the value as pydantic
    validates it. *)
Record EntityData : Type := mkEntityData {
  data_medicine : option string;
  data_dosage : option string;
  data_frequency : option string;
  data_quantity : option Z;
  data_confidence : option Float64.float;
  data_raw_text : option string
}.

(** The parsed JSON answer, by what [extract] does with it.  An element
    of [data_entities] is [Returns] of an object as above, or [Raises] of
    the exception that reading or validating the element raises (an
    element that is no object, a key that holds null or a value of another
    type).  [data_flags] is what the constructor of [ExtractionResult]
    makes of the two other keys: [Returns] of the accepted values ([None]
    for an absent key) or [Raises] of its validation error. *)
Record ResultData : Type := mkResultData {
  data_entities : option (list (Call EntityData));
  data_flags : Call (option bool * option string)
}.

(** Lines 147-154. *)
Definition parse_entity (entity_data : EntityData) : ExtractedEntity.t :=
  ExtractedEntity.mk
    (default "" (data_medicine entity_data))
    (default "" (data_dosage entity_data))
    (default "" (data_frequency entity_data))
    (default 0 (data_quantity entity_data))
    (default (Float64.of_Z 0) (data_confidence entity_data))
    (default "" (data_raw_text entity_data)).

(** Lines 145-154: the loop ends at the first element that raises. *)
Fixpoint parse_entities (elements : list (Call EntityData))
    : Call (list ExtractedEntity.t) :=
  match elements with
  | [] => Returns []
  | Raises e :: _ => Raises e
  | Returns entity_data :: rest =>
      match parse_entities rest with
      | Raises e => Raises e
      | Returns entities => Returns (parse_entity entity_data :: entities)
      end
  end.

(** Lines 131-182.  [answer] is what the API call, [json.loads] and the
    reading of the [entities] key produce: the parsed object, or the
    exception raised (by the call, by the parser, by an answer that is no
    object or whose [entities] cannot be iterated). *)
Definition extract (answer : Call ResultData) : Call ExtractionResult.t :=
  try_except
    (match answer with
     | Raises e => Raises e
     | Returns result_data =>
         match parse_entities (default [] (data_entities result_data)) with
         | Raises e => Raises e
         | Returns entities =>
             match data_flags result_data with
             | Raises e => Raises e
             | Returns (needs_clarification, clarification_message) =>
                 Returns
                   (ExtractionResult.mk entities
                      (default false needs_clarification)
                      (default "" clarification_message))
             end
         end
     end)
    (fun e =>
       ExtractionResult.mk [] true
         ("I had trouble understanding your request. Could you please rephrase it? Error: "
          +:+ e)).

End ExtractionAgent.

(** ** agents/orchestrator_agent.py: routing and the refill check *)
Module Routing.

(** The classifier's JSON answer, by the keys that the orchestrator
    reads. *)
Record IntentResult : Type := mkIntentResult {
  intent : option string;
  response_draft : option string
}.

(** Lines 179-201.  [answer] is what the API call followed by
    [json.loads] produces. *)
Definition _determine_intent (answer : Call IntentResult) : Call IntentResult :=
  try_except answer
    (fun e =>
       mkIntentResult (Some "GENERAL_INQUIRY")
         (Some ("I apologize, I encountered an issue. How can I help you today? (Error: "
                +:+ e +:+ ")"))).

(** Lines 483-491: the line of one prediction. *)
Definition refill_line (pred : RefillPrediction.t) : string :=
  let status :=
    "**" +:+ RefillPrediction.medicine pred +:+ "**: "
    +:+ pretty (RefillPrediction.days_remaining pred) +:+ " days remaining" in
  match RefillPrediction.action pred with
  | REMIND => status +:+ " âš ï¸ (refill soon)"
  | AUTO_REFILL => status +:+ " ðŸ”„ (auto-refill eligible)"
  | BLOCK => status +:+ " âŒ (action required)"
  end.

(** Lines 456-502.  [medication_history] is the data service's refill
    query for the patient at the current date. *)
Definition _handle_refill_check (today : string) (patient : Patient.t)
    (medication_history : list RefillAgent.MedRecord) : ChatResponse.t :=
  if negb (truthy_list medication_history) then
    ChatResponse.text
      ("Hi " +:+ Patient.patient_name patient
       +:+ "! I checked your medication history, and you don't have any refills due at the moment. All your medications should be well-stocked.")
  else
    let predictions :=
      RefillAgent.predict today (Patient.patient_id patient)
        (Patient.patient_name patient) medication_history in
    if negb (truthy_list predictions) then
      ChatResponse.text
        ("Hi " +:+ Patient.patient_name patient
         +:+ "! Your medications are all looking good - no urgent refills needed right now.")
    else
      let message :=
        "Hi " +:+ Patient.patient_name patient
        +:+ "! Here's your medication refill status:" +:+ nl +:+ nl
        +:+ join nl (map refill_line predictions) in
      let message :=
        if existsb (fun p => bool_decide (RefillPrediction.action p = REMIND))
                   predictions
        then message +:+ nl +:+ nl
             +:+ "Would you like me to prepare a refill order for any of these?"
        else message in
      ChatResponse.mk message None None None None predictions false.

(** What one turn receives from outside the process. *)
Record Turn : Type := mkTurn {
  classifier_answer : Call IntentResult;
  extraction_answer : Call ExtractionAgent.ResultData;
  preview_hex8 : string;
  new_order_id : string;
  warehouse_post : PostOutcome;
  refill_records : list RefillAgent.MedRecord;
  today : string;
  status_reply : ChatResponse.t
}.

(** Lines 89-145.  The reply of [_handle_status_check], which reads the
    stored orders in insertion order and writes nothing, is an argument
    ([status_reply]); indexing the classifier's answer without an
    ["intent"] key raises. *)
Definition process_message (ops : StrOps) (request : ChatRequest.t)
    (turn : Turn) (w : World) : Call ChatResponse.t * World :=
  match DataQueries.get_patient_by_id (ChatRequest.patient_id request)
          (data_service w) with
  | None =>
      (Returns
         (ChatResponse.text
            "I couldn't find your patient record. Please select a valid patient."),
       w)
  | Some patient =>
      match _determine_intent (classifier_answer turn) with
      | Raises e => (Raises e, w)
      | Returns intent_result =>
          match intent intent_result with
          | None => (Raises "KeyError: 'intent'", w)
          | Some name =>
              if String.eqb name "ORDER" then
                match ExtractionAgent.extract (extraction_answer turn) with
                | Raises e => (Raises e, w)
                | Returns extraction_result =>
                    OrchestratorAgent._handle_order ops request patient
                      extraction_result (preview_hex8 turn) w
                end
              else if String.eqb name "REFILL_CHECK" then
                (Returns
                   (_handle_refill_check (today turn) patient
                      (refill_records turn)), w)
              else if String.eqb name "CONFIRM_ORDER" then
                OrchestratorAgent._handle_order_confirmation request patient
                  (new_order_id turn) (warehouse_post turn) w
              else if String.eqb name "CANCEL_ORDER" then
                (Returns
                   (fst (OrchestratorAgent._handle_order_cancellation request w)),
                 snd (OrchestratorAgent._handle_order_cancellation request w))
              else if String.eqb name "STATUS_CHECK" then
                (Returns (status_reply turn), w)
              else
                (Returns
                   (ChatResponse.text
                      (default
                         "How can I help you with your pharmacy needs today?"
                         (response_draft intent_result))),
                 w)
          end
      end
  end.

End Routing.

(** ** main.py: further endpoints *)
Module Endpoints.

(** Lines 186-192. *)
Definition get_order (order_id : string) (w : World)
    : Api.Result + Order.t :=
  match FulfillmentAgent.get_order order_id (fulfillment_agent w) with
  | None => inl (Api.HTTPException 404 "Order not found")
  | Some order => inr order
  end.

(** Lines 303-329: the inbound warehouse acknowledgement; the JSON body
    it returns does not depend on the stored order. *)
Definition warehouse_webhook (order_id : string) (w : World) : World :=
  match FulfillmentAgent.get_order order_id (fulfillment_agent w) with
  | Some _ =>
      with_fulfillment
        (snd (FulfillmentAgent.update_order_status order_id PROCESSING
                "Order received by warehouse, processing for shipment"
                (fulfillment_agent w))) w
  | None => w
  end.

(** The background task that [confirm_order] scheduled, run after the
    response: [trigger_warehouse_webhook(order)] on the stored order. *)
Definition run_scheduled (order_id : string) (post : PostOutcome) (w : World)
    : Call World :=
  match FulfillmentAgent.get_order order_id (fulfillment_agent w) with
  | None => Returns w
  | Some order =>
      match FulfillmentAgent.trigger_warehouse_webhook order post
              (fulfillment_agent w) with
      | Returns fa => Returns (with_fulfillment fa w)
      | Raises e => Raises e
      end
  end.

(** Lines 279-296. *)
Definition get_patient_refills (today patient_id : string)
    (medication_history : list RefillAgent.MedRecord) (w : World)
    : Api.Result + list RefillPrediction.t :=
  match DataQueries.get_patient_by_id patient_id (data_service w) with
  | None => inl (Api.HTTPException 404 "Patient not found")
  | Some patient =>
      if negb (truthy_list medication_history) then inr []
      else inr (RefillAgent.predict today patient_id
                  (Patient.patient_name patient) medication_history)
  end.

End Endpoints.

(** * Properties *)

(** ** Vocabulary of the statements *)

(** An item that the safety loop blocks: discontinued, or out of stock. *)
Definition is_blocked (m : Medicine.t) : bool :=
  Medicine.discontinued m || (Medicine.stock_level m =? 0).

(** The item reaches the quantity checks and its stock is below the
    requested quantity. *)
Definition stock_shortfall (entity : option ExtractedEntity.t)
    (m : Medicine.t) : bool :=
  negb (is_blocked m)
  && (Medicine.stock_level m <? SafetyAgent.requested_qty entity).

(** The item reaches the quantity checks and the requested quantity is
    above its per-order maximum. *)
Definition over_max (entity : option ExtractedEntity.t)
    (m : Medicine.t) : bool :=
  negb (is_blocked m)
  && (Medicine.max_quantity_per_order m <? SafetyAgent.requested_qty entity).

(** The cap that the checks of one item compute when no cap is set yet. *)
Definition own_cap (entity : option ExtractedEntity.t) (m : Medicine.t) : Z :=
  if Medicine.stock_level m <? SafetyAgent.requested_qty entity
  then Z.min (Medicine.stock_level m) (Medicine.max_quantity_per_order m)
  else Medicine.max_quantity_per_order m.

(** The cap of the first item, from index [i], that triggers the
    stock-shortfall or the max-per-order check. *)
Fixpoint first_cap (entities : list ExtractedEntity.t) (i : nat)
    (meds : list Medicine.t) : option Z :=
  match meds with
  | [] => None
  | m :: rest =>
      if stock_shortfall (entities !! i) m || over_max (entities !! i) m
      then Some (own_cap (entities !! i) m)
      else first_cap entities (S i) rest
  end.

(** How many items, from index [i], trigger one of the two checks. *)
Fixpoint triggering (entities : list ExtractedEntity.t) (i : nat)
    (meds : list Medicine.t) : nat :=
  match meds with
  | [] => O
  | m :: rest =>
      ((if stock_shortfall (entities !! i) m || over_max (entities !! i) m
        then 1 else 0) + triggering entities (S i) rest)%nat
  end.

(** The stock level recorded for a medicine id, if the id is known. *)
Definition stock_of (medicine_id : string) (ds : DataService.t) : option Z :=
  Medicine.stock_level <$> DataService.get_medicine_by_id medicine_id ds.


(** The previews that are live for a session: the stored previews whose
    id the session's context maps to. *)
Definition live_previews (session_id : string) (o : Orchestrator.t)
    : list string :=
  filter (fun preview_id =>
            Orchestrator.session_contexts o !! session_id = Some preview_id)
         (elements (dom (Orchestrator.pending_previews o))).

(** One invocation of the order, confirm or cancel handler, whether it
    returns or raises. *)
Inductive Step : World -> World -> Prop :=
| step_order ops request patient extraction_result hex8 w :
    Step w (snd (OrchestratorAgent._handle_order ops request patient
                   extraction_result hex8 w))
| step_confirm request patient order_id post w :
    Step w (snd (OrchestratorAgent._handle_order_confirmation request patient
                   order_id post w))
| step_cancel request w :
    Step w (snd (OrchestratorAgent._handle_order_cancellation request w)).

(** The worlds reached from a start with no preview and no session. *)
Inductive Reachable : World -> Prop :=
| reach_start w :
    orchestrator_agent w = Orchestrator.empty -> Reachable w
| reach_step w w' : Reachable w -> Step w w' -> Reachable w'.

(** Every preview id that a session is bound to is a non-empty string. *)
Definition bound_ids_nonempty (o : Orchestrator.t) : Prop :=
  forall session_id preview_id,
    Orchestrator.session_contexts o !! session_id = Some preview_id ->
    truthy_str preview_id = true.

(** String operations for closed examples, whose queries are plain
    words: no case folding, every pattern compiles, plain substring
    search. *)
Definition plain_ops : StrOps :=
  mkStrOps (fun s => s) (fun _ => None)
           (fun hay needle => is_substring needle hay).

(** The preview of a reply, when the handler returned one. *)
Definition returned_preview (c : Call ChatResponse.t)
    : option OrderPreview.t :=
  match c with
  | Returns reply => ChatResponse.order_preview reply
  | Raises _ => None
  end.


(** The order of a reply, when the handler returned one. *)
Definition returned_order (c : Call ChatResponse.t) : option Order.t :=
  match c with
  | Returns reply => ChatResponse.order reply
  | Raises _ => None
  end.

(** Sample data for the closed instances below. *)
Definition sample_patient : Patient.t :=
  Patient.mk "PAT001" "Alice Smith" "alice@example.com" "555-0100".

Definition sample_catalog : list Medicine.t :=
  [Medicine.mk "MED001" "Paracetamol" "500mg" "Tablet" 100 false
               "Analgesic" false 30 false;
   Medicine.mk "MED002" "Ibuprofen" "200mg" "Tablet" 5 false
               "Analgesic" false 30 false;
   Medicine.mk "MED003" "Loratadine" "10mg" "Tablet" 40 false
               "Antihistamine" false 0 false].

Definition sample_world : World :=
  mkWorld Orchestrator.empty FulfillmentAgent.empty
          (DataService.mk (Some sample_catalog) None).

Definition sample_request : ChatRequest.t :=
  ChatRequest.mk "PAT001" (Some "session-1").

Definition sample_entity (medicine : string) (quantity : Z)
    : ExtractedEntity.t :=
  ExtractedEntity.mk medicine "" "" quantity (S754_zero false) "".

(** The world after one order for Ibuprofen (stock 5, so capped). *)
Definition world_with_preview : World :=
  snd (OrchestratorAgent._handle_order plain_ops sample_request sample_patient
         (ExtractionResult.mk [sample_entity "Ibuprofen" 0] false "")
         "1A2B3C4D" sample_world).

(** A stored order that was cancelled. *)
Definition cancelled_order : Order.t :=
  Order.mk "ORD-20240101-ABC123" "PAT001" "Alice Smith" "alice@example.com"
           "555-0100"
           [OrderItem.mk "MED001" "Paracetamol" "500mg" 10
                         (Float64.dec 15 100) false]
           (Float64.dec 150 100) CANCELLED None.

Definition world_with_cancelled_order : World :=
  mkWorld Orchestrator.empty
    (FulfillmentAgent.mk {[ "ORD-20240101-ABC123" := cancelled_order ]} ∅ ∅)
    (DataService.mk (Some sample_catalog) None).

(** The double written as [n] hundredths, such as [cents 10700] for
    [107.00]. *)
Definition cents (n : Z) : Float64.float := Float64.dec n 100.

(** The magnitude of a finite double as a fraction
    [magnitude_num / magnitude_den], and its sign. *)
Definition magnitude_num (x : Float64.float) : Z :=
  match x with
  | S754_finite _ m e => Z.pos m * 2 ^ Z.max e 0
  | _ => 0
  end.

Definition magnitude_den (x : Float64.float) : Z :=
  match x with
  | S754_finite _ _ e => 2 ^ Z.max (- e) 0
  | _ => 1
  end.

Definition is_negative (x : Float64.float) : bool :=
  match x with
  | S754_zero s | S754_infinity s | S754_finite s _ _ => s
  | S754_nan => false
  end.

(** [y] is [x] rounded to two decimals: for a whole number [n] of
    hundredths that is within half a hundredth of the magnitude of [x],
    [y] is the double nearest to [n/100], with the sign of [x]. *)
Definition rounded_to_cents (x y : Float64.float) : Prop :=
  exists n,
    0 <= n
    /\ Z.abs (2 * (100 * magnitude_num x - n * magnitude_den x))
       <= magnitude_den x
    /\ y = Float64.of_ratio (is_negative x) n 100.

(** The receipt call for an order with the given subtotal. *)
Definition receipt_for (subtotal : Float64.float) : Call Receipt.t :=
  FulfillmentAgent.generate_receipt
    (Order.mk "ORD-20240101-ABC123" "PAT001" "Alice Smith"
              "alice@example.com" "555-0100" [] subtotal PENDING None).

(** The number of hundredths that a double is nearest to. *)
Definition cents_of (x : Float64.float) : Z :=
  match x with
  | S754_finite _ m e => Float64.hundredths m e
  | _ => 0
  end.

(** The tax of the receipt for a subtotal of [c] hundredths, in
    hundredths. *)
Definition tax_cents (c : Z) : Z :=
  match receipt_for (cents c) with
  | Returns r => cents_of (Receipt.tax r)
  | Raises _ => 0
  end.

(** For a subtotal of [c] hundredths: the receipt is produced, its tax is
    a whole number of hundredths, within half a hundredth of 5%, and the
    grand total is the exact sum of subtotal, tax and 2.00. *)
Definition whole_cents_at (c : Z) : bool :=
  match receipt_for (cents c) with
  | Returns r =>
      let t := tax_cents c in
      Float64.feqb (Receipt.tax r) (cents t)
      && (Z.abs (100 * t - 5 * c) <=? 50)
      && Float64.feqb (Receipt.grand_total r) (cents (c + t + 200))
  | Raises _ => false
  end.

(** [n, n-1, ..., 0] *)
Fixpoint down_from (n : nat) : list Z :=
  match n with
  | O => [0]
  | S k => Z.of_nat n :: down_from k
  end.

(** How strict a safety decision is. *)
Definition strictness (d : SafetyDecision) : nat :=
  match d with
  | APPROVE => 0
  | CONDITIONAL => 1
  | REJECT => 2
  end.

(** The id that [create_order] builds (line 69) from the date stamp and
    the six hex digits of the uuid. *)
Definition generated_order_id (date hex6 : string) : string :=
  "ORD-" +:+ date +:+ "-" +:+ hex6.

(** What the fulfillment agent holds about one order id: the stored
    order, its status history and its timeline. *)
Definition order_view (order_id : string) (fa : FulfillmentAgent.t)
    : option Order.t * list OrderStatusUpdate.t * list AgentEvent.t :=
  (FulfillmentAgent.get_order order_id fa,
   FulfillmentAgent.get_order_history order_id fa,
   FulfillmentAgent.get_events order_id fa).

(** The order that [create_order] builds for a patient, at a status. *)
Definition order_at (status : OrderStatus) (order_id : string)
    (patient : Patient.t) (items : list OrderItem.t) (total : Float64.float)
    : Order.t :=
  Order.mk order_id (Patient.patient_id patient) (Patient.patient_name patient)
    (Patient.patient_email patient) (Patient.patient_phone patient) items
    (Float64.round2 total) status None.

(** The timeline event that [record_safety_validation] appends. *)
Definition validation_event (decision : SafetyDecision)
    (reasons : list string) : AgentEvent.t :=
  match decision with
  | APPROVE =>
      AgentEvent.mk "Safety & Policy Agent" "AI Safety Validation"
        "Prescription verified and approved" "completed"
  | CONDITIONAL =>
      AgentEvent.mk "Safety & Policy Agent" "AI Safety Validation"
        ("Conditional approval: "
         +:+ FulfillmentAgent.first_reason reasons "Conditions apply")
        "completed"
  | REJECT =>
      AgentEvent.mk "Safety & Policy Agent" "Blocked by AI"
        ("Blocked: "
         +:+ FulfillmentAgent.first_reason reasons "Safety check failed")
        "blocked"
  end.

(** The timeline label that [record_safety_validation] writes. *)
Definition validation_action (decision : SafetyDecision) : string :=
  match decision with
  | REJECT => "Blocked by AI"
  | _ => "AI Safety Validation"
  end.

(** Whether the outbound call was answered with status 200. *)
Definition answered_200 (post : PostOutcome) : bool :=
  match post with
  | Response code => code =? 200
  | Raised _ => false
  end.

(** No medicine of the table has a negative stock level. *)
Definition stock_nonneg (ds : DataService.t) : Prop :=
  forall rows, DataService.medicines_df ds = Some rows ->
               Forall (fun m => 0 <= Medicine.stock_level m) rows.

(** The fulfillment agent after the awaited notification call. *)
Definition after_webhook (order : Order.t) (post : PostOutcome)
    (fa : FulfillmentAgent.t) : FulfillmentAgent.t :=
  match FulfillmentAgent.trigger_warehouse_webhook order post fa with
  | Returns fa' => fa'
  | Raises _ => fa
  end.

(** The sample world with one more item in the catalog, discontinued. *)
Definition world_with_discontinued : World :=
  mkWorld Orchestrator.empty FulfillmentAgent.empty
    (DataService.mk
       (Some (sample_catalog
              ++ [Medicine.mk "MED004" "Rofecoxib" "25mg" "Tablet" 50 false
                              "Analgesic" true 30 false]))
       None).

(** An order id reads the same in two worlds: the stored order, its status
    history and its timeline, and what the order endpoint returns. *)
Definition same_order (order_id : string) (w w' : World) : Prop :=
  order_view order_id (fulfillment_agent w')
  = order_view order_id (fulfillment_agent w)
  /\ Endpoints.get_order order_id w' = Endpoints.get_order order_id w.

(** The action and urgency of a prediction. *)
Definition grade (p : RefillPrediction.t) : RefillAction * Urgency :=
  (RefillPrediction.action p, RefillPrediction.urgency p).

(** The days remaining of a record: [med.get("days_remaining", 0)]. *)
Definition days_of (med : RefillAgent.MedRecord) : Z :=
  default 0 (RefillAgent.rec_days_remaining med).

(** The prediction [p] is the one that the table of the refill rules
    gives for the record [med]: it carries the record's days remaining,
    and BLOCK/CRITICAL for 0 days or less, REMIND/HIGH for 1 to 3,
    AUTO_REFILL/MEDIUM for 4 to 7, REMIND/LOW for 8 to 14. *)
Definition graded_by_table (p : RefillPrediction.t)
    (med : RefillAgent.MedRecord) : Prop :=
  let d := days_of med in
  RefillPrediction.days_remaining p = d
  /\ ((d <= 0
       /\ RefillPrediction.action p = BLOCK
       /\ RefillPrediction.urgency p = CRITICAL)
      \/ (1 <= d <= 3
          /\ RefillPrediction.action p = REMIND
          /\ RefillPrediction.urgency p = HIGH)
      \/ (4 <= d <= 7
          /\ RefillPrediction.action p = AUTO_REFILL
          /\ RefillPrediction.urgency p = MEDIUM)
      \/ (8 <= d <= 14
          /\ RefillPrediction.action p = REMIND
          /\ RefillPrediction.urgency p = LOW)).

(** A medication record that carries only its days remaining. *)
Definition record_with_days (d : Z) : RefillAgent.MedRecord :=
  RefillAgent.mkMedRecord (Some d) None None None None None.

(** The accumulated locals of a whole pass. *)
Definition pass (entities : list ExtractedEntity.t)
    (meds : list Medicine.t) (has_prescription : bool) : SafetyAgent.Locals :=
  SafetyAgent.check_all has_prescription entities 0 meds SafetyAgent.init.


(** ** The safety evaluator *)

Section SafetyLoop.

Variable has_prescription : bool.
Variable entities : list ExtractedEntity.t.

Local Abbreviation check_all := (SafetyAgent.check_all has_prescription entities).
Local Abbreviation check_medicine := (SafetyAgent.check_medicine has_prescription).

(** *** Field by field through the checks of one item *)

Lemma check_prescription_fields m acc :
  let acc' := SafetyAgent.check_prescription has_prescription m acc in
  SafetyAgent.blocked_items acc' = SafetyAgent.blocked_items acc
  /\ SafetyAgent.allowed_quantity acc' = SafetyAgent.allowed_quantity acc
  /\ SafetyAgent.requires_followup acc' = SafetyAgent.requires_followup acc
  /\ SafetyAgent.requires_prescription acc'
     = SafetyAgent.requires_prescription acc
       || Medicine.prescription_required m.
Proof.
  unfold SafetyAgent.check_prescription.
  destruct (Medicine.prescription_required m), has_prescription; cbn;
    rewrite ?orb_true_r, ?orb_false_r; done.
Qed.

Lemma check_controlled_fields m acc :
  let acc' := SafetyAgent.check_controlled m acc in
  SafetyAgent.blocked_items acc' = SafetyAgent.blocked_items acc
  /\ SafetyAgent.allowed_quantity acc' = SafetyAgent.allowed_quantity acc
  /\ SafetyAgent.requires_prescription acc'
     = SafetyAgent.requires_prescription acc
  /\ SafetyAgent.requires_followup acc'
     = SafetyAgent.requires_followup acc
       || Medicine.controlled_substance m.
Proof.
  unfold SafetyAgent.check_controlled.
  destruct (Medicine.controlled_substance m); cbn;
    rewrite ?orb_true_r, ?orb_false_r; done.
Qed.

Lemma check_stock_shortfall_fields requested m acc :
  let acc' := SafetyAgent.check_stock_shortfall requested m acc in
  SafetyAgent.blocked_items acc' = SafetyAgent.blocked_items acc
  /\ SafetyAgent.requires_prescription acc'
     = SafetyAgent.requires_prescription acc
  /\ SafetyAgent.requires_followup acc' = SafetyAgent.requires_followup acc
  /\ SafetyAgent.allowed_quantity acc'
     = if Medicine.stock_level m <? requested
       then Some (Z.min (Medicine.stock_level m)
                        (Medicine.max_quantity_per_order m))
       else SafetyAgent.allowed_quantity acc.
Proof.
  unfold SafetyAgent.check_stock_shortfall.
  destruct (Medicine.stock_level m <? requested); cbn; done.
Qed.

Lemma check_max_quantity_fields requested m acc :
  let acc' := SafetyAgent.check_max_quantity requested m acc in
  SafetyAgent.blocked_items acc' = SafetyAgent.blocked_items acc
  /\ SafetyAgent.requires_prescription acc'
     = SafetyAgent.requires_prescription acc
  /\ SafetyAgent.requires_followup acc' = SafetyAgent.requires_followup acc
  /\ SafetyAgent.allowed_quantity acc'
     = if Medicine.max_quantity_per_order m <? requested
       then if truthy_opt_int (SafetyAgent.allowed_quantity acc)
            then SafetyAgent.allowed_quantity acc
            else Some (Medicine.max_quantity_per_order m)
       else SafetyAgent.allowed_quantity acc.
Proof.
  unfold SafetyAgent.check_max_quantity.
  destruct (Medicine.max_quantity_per_order m <? requested); cbn;
    [|done].
  destruct (truthy_opt_int (SafetyAgent.allowed_quantity acc)); cbn; done.
Qed.

(** The four accumulators after one iteration. *)
Lemma check_medicine_fields entity m acc :
  let acc' := check_medicine entity m acc in
  let requested := SafetyAgent.requested_qty entity in
  let after_stock :=
    if Medicine.stock_level m <? requested
    then Some (Z.min (Medicine.stock_level m)
                     (Medicine.max_quantity_per_order m))
    else SafetyAgent.allowed_quantity acc in
  SafetyAgent.blocked_items acc'
  = SafetyAgent.blocked_items acc
    ++ (if is_blocked m then [Medicine.medicine_name m] else [])
  /\ SafetyAgent.requires_prescription acc'
     = SafetyAgent.requires_prescription acc
       || (negb (Medicine.discontinued m)
           && Medicine.prescription_required m)
  /\ SafetyAgent.requires_followup acc'
     = SafetyAgent.requires_followup acc
       || (negb (Medicine.discontinued m)
           && Medicine.controlled_substance m)
  /\ SafetyAgent.allowed_quantity acc'
     = if is_blocked m then SafetyAgent.allowed_quantity acc
       else if Medicine.max_quantity_per_order m <? requested
            then if truthy_opt_int after_stock then after_stock
                 else Some (Medicine.max_quantity_per_order m)
            else after_stock.
Proof.
  unfold SafetyAgent.check_medicine, is_blocked. cbv zeta.
  destruct (Medicine.discontinued m); cbn [orb negb andb].
  { cbn. rewrite !orb_false_r. done. }
  set (a1 := SafetyAgent.check_prescription has_prescription m acc).
  set (a2 := SafetyAgent.check_controlled m a1).
  destruct (check_prescription_fields m acc) as (Hb1 & Hq1 & Hf1 & Hp1).
  destruct (check_controlled_fields m a1) as (Hb2 & Hq2 & Hp2 & Hf2).
  fold a1 in Hb1, Hq1, Hf1, Hp1, Hb2, Hq2, Hp2, Hf2.
  fold a2 in Hb2, Hq2, Hp2, Hf2.
  destruct (Medicine.stock_level m =? 0).
  { cbn. rewrite Hb2, Hb1, Hp2, Hp1, Hf2, Hf1, Hq2, Hq1. done. }
  set (a3 := SafetyAgent.check_stock_shortfall
               (SafetyAgent.requested_qty entity) m a2).
  destruct (check_stock_shortfall_fields
              (SafetyAgent.requested_qty entity) m a2)
    as (Hb3 & Hp3 & Hf3 & Hq3).
  destruct (check_max_quantity_fields
              (SafetyAgent.requested_qty entity) m a3)
    as (Hb4 & Hp4 & Hf4 & Hq4).
  fold a3 in Hb3, Hp3, Hf3, Hq3, Hb4, Hp4, Hf4, Hq4.
  rewrite Hb4, Hb3, Hb2, Hb1, Hp4, Hp3, Hp2, Hp1, Hf4, Hf3, Hf2, Hf1.
  rewrite Hq4, Hq3, Hq2, Hq1, app_nil_r. done.
Qed.

Lemma check_all_app l1 l2 i acc :
  check_all i (l1 ++ l2) acc
  = check_all (i + length l1) l2 (check_all i l1 acc).
Proof.
  revert i acc; induction l1 as [|m l1 IH]; intros i acc; simpl.
  - by rewrite Nat.add_0_r.
  - rewrite IH. f_equal. lia.
Qed.

(** The blocked list grows by exactly the blocked items, in order. *)
Lemma check_all_blocked meds i acc :
  SafetyAgent.blocked_items (check_all i meds acc)
  = SafetyAgent.blocked_items acc
    ++ map Medicine.medicine_name (List.filter is_blocked meds).
Proof.
  revert i acc; induction meds as [|m meds IH]; intros i acc; simpl.
  - by rewrite app_nil_r.
  - rewrite IH.
    destruct (check_medicine_fields (entities !! i) m acc) as (-> & _).
    destruct (is_blocked m); simpl; by rewrite <- ?app_assoc, ?app_nil_r.
Qed.

Lemma check_all_requires_prescription meds i acc :
  SafetyAgent.requires_prescription (check_all i meds acc)
  = SafetyAgent.requires_prescription acc
    || existsb (fun m => negb (Medicine.discontinued m)
                         && Medicine.prescription_required m) meds.
Proof.
  revert i acc; induction meds as [|m meds IH]; intros i acc; simpl.
  - by rewrite orb_false_r.
  - rewrite IH.
    destruct (check_medicine_fields (entities !! i) m acc) as (_ & -> & _).
    by rewrite orb_assoc.
Qed.

Lemma check_all_requires_followup meds i acc :
  SafetyAgent.requires_followup (check_all i meds acc)
  = SafetyAgent.requires_followup acc
    || existsb (fun m => negb (Medicine.discontinued m)
                         && Medicine.controlled_substance m) meds.
Proof.
  revert i acc; induction meds as [|m meds IH]; intros i acc; simpl.
  - by rewrite orb_false_r.
  - rewrite IH.
    destruct (check_medicine_fields (entities !! i) m acc)
      as (_ & _ & -> & _).
    by rewrite orb_assoc.
Qed.

(** *** How one item moves the cap *)

Local Ltac cap_cases entity m acc :=
  destruct (check_medicine_fields entity m acc) as (_ & _ & _ & ->);
  unfold stock_shortfall, over_max in *;
  destruct (is_blocked m) eqn:Hblocked; simpl in *;
  repeat match goal with
         | H : (_ <? _) = _ |- _ => rewrite H
         end; simpl.

(** The stock-shortfall check assigns the cap whatever was there. *)
Lemma check_medicine_shortfall entity m acc :
  stock_shortfall entity m = true ->
  SafetyAgent.allowed_quantity (check_medicine entity m acc)
  = Some (Z.min (Medicine.stock_level m) (Medicine.max_quantity_per_order m)).
Proof.
  intros H. cap_cases entity m acc; [discriminate|].
  destruct (Medicine.max_quantity_per_order m
            <? SafetyAgent.requested_qty entity) eqn:Hmax; [|reflexivity].
  destruct (Z.min (Medicine.stock_level m)
              (Medicine.max_quantity_per_order m) =? 0) eqn:Hzero;
    simpl; [|reflexivity].
  apply Z.eqb_eq in Hzero. unfold is_blocked in Hblocked.
  apply orb_false_iff in Hblocked as [_ Hz]. apply Z.eqb_neq in Hz.
  f_equal. lia.
Qed.

(** Without a stock shortfall an item leaves a non-zero cap alone. *)
Lemma check_medicine_keeps_cap entity m acc :
  stock_shortfall entity m = false ->
  truthy_opt_int (SafetyAgent.allowed_quantity acc) = true ->
  SafetyAgent.allowed_quantity (check_medicine entity m acc)
  = SafetyAgent.allowed_quantity acc.
Proof.
  intros H Ht. cap_cases entity m acc; [reflexivity|].
  rewrite Ht.
  destruct (Medicine.max_quantity_per_order m
            <? SafetyAgent.requested_qty entity); reflexivity.
Qed.

(** An item that triggers neither check leaves any cap alone. *)
Lemma check_medicine_no_trigger entity m acc :
  stock_shortfall entity m = false ->
  over_max entity m = false ->
  SafetyAgent.allowed_quantity (check_medicine entity m acc)
  = SafetyAgent.allowed_quantity acc.
Proof.
  intros H1 H2. cap_cases entity m acc; reflexivity.
Qed.

(** The max-per-order check sets the cap when none is set. *)
Lemma check_medicine_over_max entity m acc :
  stock_shortfall entity m = false ->
  over_max entity m = true ->
  truthy_opt_int (SafetyAgent.allowed_quantity acc) = false ->
  SafetyAgent.allowed_quantity (check_medicine entity m acc)
  = Some (Medicine.max_quantity_per_order m).
Proof.
  intros H1 H2 Ht. cap_cases entity m acc; [discriminate|].
  by rewrite Ht.
Qed.

Lemma check_all_keeps_cap meds i acc :
  (forall j m, meds !! j = Some m ->
               stock_shortfall (entities !! (i + j)%nat) m = false) ->
  truthy_opt_int (SafetyAgent.allowed_quantity acc) = true ->
  SafetyAgent.allowed_quantity (check_all i meds acc)
  = SafetyAgent.allowed_quantity acc.
Proof.
  revert i acc; induction meds as [|m meds IH]; intros i acc Hno Ht; simpl.
  - reflexivity.
  - assert (Hm : stock_shortfall (entities !! i) m = false).
    { specialize (Hno O m eq_refl). by rewrite Nat.add_0_r in Hno. }
    rewrite IH.
    + by apply check_medicine_keeps_cap.
    + intros j m' Hj. specialize (Hno (S j) m' Hj).
      by replace (S i + j)%nat with (i + S j)%nat by lia.
    + by rewrite check_medicine_keeps_cap.
Qed.

Lemma check_all_no_trigger meds i acc :
  (forall j m, meds !! j = Some m ->
               stock_shortfall (entities !! (i + j)%nat) m = false
               /\ over_max (entities !! (i + j)%nat) m = false) ->
  SafetyAgent.allowed_quantity (check_all i meds acc)
  = SafetyAgent.allowed_quantity acc.
Proof.
  revert i acc; induction meds as [|m meds IH]; intros i acc Hno; simpl.
  - reflexivity.
  - assert (Hm : stock_shortfall (entities !! i) m = false
                 /\ over_max (entities !! i) m = false).
    { specialize (Hno O m eq_refl). by rewrite Nat.add_0_r in Hno. }
    rewrite IH.
    + destruct Hm. by apply check_medicine_no_trigger.
    + intros j m' Hj. specialize (Hno (S j) m' Hj).
      by replace (S i + j)%nat with (i + S j)%nat by lia.
Qed.

End SafetyLoop.

Lemma evaluate_blocked_items entities meds hp :
  SafetyCheckResult.blocked_items (SafetyAgent.evaluate entities meds hp)
  = map Medicine.medicine_name (List.filter is_blocked meds).
Proof.
  unfold SafetyAgent.evaluate; simpl. by rewrite check_all_blocked.
Qed.

Lemma evaluate_allowed_quantity entities meds hp :
  SafetyCheckResult.allowed_quantity (SafetyAgent.evaluate entities meds hp)
  = SafetyAgent.allowed_quantity (pass entities meds hp).
Proof.
  reflexivity.
Qed.

(** The decision of [evaluate] in terms of the returned fields; the cap
    counts through its truth value. *)
Lemma evaluate_decision entities meds hp :
  meds <> [] ->
  let r := SafetyAgent.evaluate entities meds hp in
  let blocked := length (SafetyCheckResult.blocked_items r) in
  let conditions :=
    negb (blocked =? 0)%nat
    || (SafetyCheckResult.requires_prescription r && negb hp)
    || SafetyCheckResult.requires_followup r
    || truthy_opt_int (SafetyCheckResult.allowed_quantity r) in
  SafetyCheckResult.decision r
  = if (blocked =? length meds)%nat then REJECT
    else if conditions then CONDITIONAL else APPROVE.
Proof.
  intros Hne. unfold SafetyAgent.evaluate, SafetyAgent.decide_result; simpl.
  set (l := SafetyAgent.check_all hp entities 0 meds SafetyAgent.init).
  destruct meds as [|m0 meds']; [done|].
  destruct (SafetyAgent.blocked_items l) as [|b bs] eqn:Hb; simpl.
  - destruct (SafetyAgent.requires_prescription l), hp,
      (SafetyAgent.requires_followup l),
      (truthy_opt_int (SafetyAgent.allowed_quantity l)); reflexivity.
  - destruct (length bs =? length meds')%nat; simpl; reflexivity.
Qed.

(** C1, on the input where the code departs from it: one entity with
    quantity 0 (so 30 is requested) matched to one item that is in stock
    (5 units), not discontinued, with a per-order maximum of 0.  Both
    quantity checks fire and the returned cap is [Some 0]; because the
    decision tests the cap by its truth value, the result is APPROVE, with
    no blocked item, no prescription or follow-up requirement, and the two
    cap reasons. *)
Theorem evaluate_zero_cap_is_approved :
  let m := Medicine.mk "MED001" "Paracetamol" "500mg" "Tablet" 5 false
                       "Analgesic" false 0 false in
  let r := SafetyAgent.evaluate [sample_entity "Paracetamol" 0] [m] false in
  SafetyCheckResult.allowed_quantity r = Some 0
  /\ SafetyCheckResult.blocked_items r = []
  /\ SafetyCheckResult.requires_prescription r = false
  /\ SafetyCheckResult.requires_followup r = false
  /\ SafetyCheckResult.decision r = APPROVE
  /\ SafetyCheckResult.reasons r
     = ["Limited stock available for Paracetamol. Maximum quantity: 0";
        "Maximum quantity per order for Paracetamol is 0"].
Proof. vm_compute. repeat split; reflexivity. Qed.

(** The decision rule of C1 on every input whose returned cap is not 0:
    REJECT exactly when every matched item is blocked; otherwise
    CONDITIONAL exactly when some item is blocked, a prescription is
    required and absent, follow-up is required, or a cap was set;
    otherwise APPROVE, with the default reason when none accumulated. *)
Theorem evaluate_decision_nonzero_cap entities meds hp :
  meds <> [] ->
  SafetyCheckResult.allowed_quantity (SafetyAgent.evaluate entities meds hp)
    <> Some 0 ->
  let r := SafetyAgent.evaluate entities meds hp in
  let blocked := length (SafetyCheckResult.blocked_items r) in
  let conditional :=
    (0 < blocked)%nat
    \/ (SafetyCheckResult.requires_prescription r = true /\ hp = false)
    \/ SafetyCheckResult.requires_followup r = true
    \/ SafetyCheckResult.allowed_quantity r <> None in
  blocked = length (List.filter is_blocked meds)
  /\ (SafetyCheckResult.decision r = REJECT <-> blocked = length meds)
  /\ (SafetyCheckResult.decision r = CONDITIONAL
      <-> blocked <> length meds /\ conditional)
  /\ (SafetyCheckResult.decision r = APPROVE
      <-> blocked <> length meds /\ ~ conditional)
  /\ (SafetyCheckResult.decision r = APPROVE ->
      SafetyAgent.reasons (pass entities meds hp) = [] ->
      SafetyCheckResult.reasons r = ["All safety checks passed."]).
Proof.
  intros Hne Hcap r blocked conditional.
  pose proof (evaluate_decision entities meds hp Hne) as Hd.
  cbv zeta in Hd. fold r in Hd. fold blocked in Hd.
  assert (Hlen : blocked = length (List.filter is_blocked meds)).
  { unfold blocked, r. by rewrite evaluate_blocked_items, length_map. }
  assert (Htruthy : truthy_opt_int (SafetyCheckResult.allowed_quantity r) = true
                    <-> SafetyCheckResult.allowed_quantity r <> None).
  { fold r in Hcap. destruct (SafetyCheckResult.allowed_quantity r) as [q|]; simpl.
    - split; [done|]. intros _. apply negb_true_iff, Z.eqb_neq. congruence.
    - split; [done|]. congruence. }
  assert (Hcond :
    (negb (blocked =? 0)%nat
     || (SafetyCheckResult.requires_prescription r && negb hp)
     || SafetyCheckResult.requires_followup r
     || truthy_opt_int (SafetyCheckResult.allowed_quantity r)) = true
    <-> conditional).
  { unfold conditional.
    rewrite !orb_true_iff, andb_true_iff, !negb_true_iff, Nat.eqb_neq, Htruthy.
    split.
    - intros [[[H|H]|H]|H]; [left; lia | right; left | right; right; left
                              | right; right; right]; done.
    - intros [H|[H|[H|H]]]; [left; left; left; lia | left; left; right
                              | left; right | right]; done. }
  split; [exact Hlen|].
  destruct (blocked =? length meds)%nat eqn:Hall.
  - apply Nat.eqb_eq in Hall. rewrite Hd.
    repeat split; try done; try (intros [? _]; done).
  - apply Nat.eqb_neq in Hall.
    destruct (negb (blocked =? 0)%nat
              || (SafetyCheckResult.requires_prescription r && negb hp)
              || SafetyCheckResult.requires_followup r
              || truthy_opt_int (SafetyCheckResult.allowed_quantity r)) eqn:Hc.
    + assert (conditional) by (by apply Hcond).
      rewrite Hd. repeat split; try done; try (intros [? ?]; done).
    + assert (~ conditional) by (rewrite <- Hcond; congruence).
      rewrite Hd. repeat split; try done; try (intros [? ?]; done).
      intros _ Hr. subst r.
      unfold SafetyAgent.evaluate, SafetyAgent.decide_result in Hd |- *.
      simpl in Hd |- *. fold (pass entities meds hp) in Hd |- *.
      destruct (truthy_list (SafetyAgent.blocked_items (pass entities meds hp))
                && (length (SafetyAgent.blocked_items (pass entities meds hp))
                    =? length meds)%nat); [done|].
      destruct (truthy_list (SafetyAgent.blocked_items (pass entities meds hp))
                || SafetyAgent.requires_prescription (pass entities meds hp)
                   && negb hp); [done|].
      destruct (SafetyAgent.requires_followup (pass entities meds hp)
                || truthy_opt_int
                     (SafetyAgent.allowed_quantity (pass entities meds hp)));
        [done|].
      simpl. by rewrite Hr.
Qed.

Lemma evaluate_decision_nonzero_cap_witness :
  let m := Medicine.mk "MED002" "Ibuprofen" "200mg" "Tablet" 5 false
                       "Analgesic" false 30 false in
  SafetyCheckResult.decision (SafetyAgent.evaluate [] [m] false) = CONDITIONAL
  <-> length (SafetyCheckResult.blocked_items (SafetyAgent.evaluate [] [m] false))
      <> 1%nat
      /\ ((0 < length (SafetyCheckResult.blocked_items
                         (SafetyAgent.evaluate [] [m] false)))%nat
          \/ (SafetyCheckResult.requires_prescription
                (SafetyAgent.evaluate [] [m] false) = true /\ false = false)
          \/ SafetyCheckResult.requires_followup
               (SafetyAgent.evaluate [] [m] false) = true
          \/ SafetyCheckResult.allowed_quantity
               (SafetyAgent.evaluate [] [m] false) <> None).
Proof.
  intros m.
  refine (proj1 (proj2 (proj2
    (evaluate_decision_nonzero_cap [] [m] false _ _)))).
  - discriminate.
  - vm_compute. discriminate.
Defined.

(** C2, as stated, fails: two items in stock with 5 and 10 units, both
    asked for 30 with a per-order maximum of 30, both trigger the
    stock-shortfall check; the first item's cap is 5 but the pass returns
    10, the cap of the later item. *)
Lemma later_shortfall_overwrites_first_cap :
  let e := ExtractedEntity.mk "x" "" "" 30 (S754_zero false) "" in
  let a := Medicine.mk "MED001" "Paracetamol" "500mg" "Tablet" 5 false
                       "Analgesic" false 30 false in
  let b := Medicine.mk "MED002" "Ibuprofen" "200mg" "Tablet" 10 false
                       "Analgesic" false 30 false in
  (2 <= triggering [e; e] 0 [a; b])%nat
  /\ first_cap [e; e] 0 [a; b] = Some 5
  /\ SafetyCheckResult.allowed_quantity (SafetyAgent.evaluate [e; e] [a; b] false)
     = Some 10
  /\ SafetyCheckResult.allowed_quantity (SafetyAgent.evaluate [e; e] [a; b] false)
     <> first_cap [e; e] 0 [a; b].
Proof. vm_compute. repeat split; try lia; discriminate. Qed.

(** C2, amended: only the max-per-order check is guarded.  (1) When an
    item triggers the stock-shortfall check and no later item does, the
    returned cap is that item's [min(stock, max)], if non-zero, whatever
    earlier items had set: the last shortfall wins.  (2) When no item
    triggers the stock-shortfall check, the returned cap is the maximum of
    the first item that triggered the max-per-order check, if non-zero:
    there the first one wins. *)
Theorem allowed_quantity_of_pass entities pre m post hp :
  let k := length pre in
  let r := SafetyAgent.evaluate entities (pre ++ m :: post) hp in
  (stock_shortfall (entities !! k) m = true ->
   (forall j m', post !! j = Some m' ->
                 stock_shortfall (entities !! (S k + j)%nat) m' = false) ->
   Z.min (Medicine.stock_level m) (Medicine.max_quantity_per_order m) <> 0 ->
   SafetyCheckResult.allowed_quantity r
   = Some (Z.min (Medicine.stock_level m) (Medicine.max_quantity_per_order m)))
  /\
  ((forall j m', (pre ++ m :: post) !! j = Some m' ->
                 stock_shortfall (entities !! j) m' = false) ->
   (forall j m', pre !! j = Some m' -> over_max (entities !! j) m' = false) ->
   over_max (entities !! k) m = true ->
   Medicine.max_quantity_per_order m <> 0 ->
   SafetyCheckResult.allowed_quantity r
   = Some (Medicine.max_quantity_per_order m)).
Proof.
  intros k r. subst r. rewrite evaluate_allowed_quantity. unfold pass.
  rewrite check_all_app. simpl. fold k.
  set (acc := SafetyAgent.check_all hp entities 0 pre SafetyAgent.init).
  split.
  - intros Hm Hpost Hnz.
    rewrite check_all_keeps_cap.
    + by apply check_medicine_shortfall.
    + exact Hpost.
    + rewrite check_medicine_shortfall by done. simpl.
      by apply negb_true_iff, Z.eqb_neq.
  - intros Hno Hpre Hm Hnz.
    assert (Hm' : stock_shortfall (entities !! k) m = false).
    { apply (Hno k). unfold k. by rewrite lookup_app_r, Nat.sub_diag. }
    assert (Hacc : SafetyAgent.allowed_quantity acc = None).
    { unfold acc. rewrite check_all_no_trigger; [done|].
      intros j m' Hj. simpl. split; [|by apply Hpre].
      apply Hno. by apply lookup_app_l_Some. }
    assert (Hstep : SafetyAgent.allowed_quantity
                      (SafetyAgent.check_medicine hp (entities !! k) m acc)
                    = Some (Medicine.max_quantity_per_order m)).
    { apply check_medicine_over_max; [done|done|]. by rewrite Hacc. }
    rewrite check_all_keeps_cap.
    + exact Hstep.
    + intros j m' Hj. apply Hno.
      replace (S k + j)%nat with (length pre + S j)%nat by (unfold k; lia).
      by rewrite lookup_app_r, Nat.add_comm, Nat.add_sub by lia.
    + rewrite Hstep. simpl. by apply negb_true_iff, Z.eqb_neq.
Qed.

Lemma allowed_quantity_of_pass_witness :
  let e := ExtractedEntity.mk "x" "" "" 30 (S754_zero false) "" in
  let a := Medicine.mk "MED001" "Paracetamol" "500mg" "Tablet" 5 false
                       "Analgesic" false 30 false in
  let b := Medicine.mk "MED002" "Ibuprofen" "200mg" "Tablet" 10 false
                       "Analgesic" false 30 false in
  let c := Medicine.mk "MED003" "Aspirin" "75mg" "Tablet" 500 false
                       "Analgesic" false 20 false in
  let d := Medicine.mk "MED004" "Omeprazole" "20mg" "Capsule" 400 false
                       "Antacid" false 10 false in
  SafetyCheckResult.allowed_quantity (SafetyAgent.evaluate [e; e] [a; b] false)
  = Some 10
  /\ SafetyCheckResult.allowed_quantity (SafetyAgent.evaluate [e; e] [c; d] false)
     = Some 20.
Proof.
  intros e a b c d. split.
  - refine (proj1 (allowed_quantity_of_pass [e; e] [a] b [] false) _ _ _).
    + reflexivity.
    + intros j m' Hj. destruct j; discriminate.
    + vm_compute. discriminate.
  - refine (proj2 (allowed_quantity_of_pass [e; e] [] c [d] false) _ _ _ _).
    + intros j m' Hj. destruct j as [|[|j]]; simpl in Hj; inversion Hj;
        reflexivity.
    + intros j m' Hj. destruct j; discriminate.
    + reflexivity.
    + vm_compute. discriminate.
Defined.

(** ** The refill predictor *)

Lemma predict_cons today patient_id patient_name med rest :
  RefillAgent.predict today patient_id patient_name (med :: rest)
  = match RefillAgent.predict_one today patient_id patient_name med with
    | Some p => p :: RefillAgent.predict today patient_id patient_name rest
    | None => RefillAgent.predict today patient_id patient_name rest
    end.
Proof. reflexivity. Qed.

(* One record: what [predict] appends for it. *)
Lemma predict_one_graded today patient_id patient_name med :
  let d := days_of med in
  match RefillAgent.predict_one today patient_id patient_name med with
  | Some p => d <= 14 /\ graded_by_table p med
  | None => 14 < d
  end.
Proof.
  unfold graded_by_table, days_of, RefillAgent.predict_one,
    RefillAgent.classify.
  set (d := default 0 (RefillAgent.rec_days_remaining med)). cbv zeta.
  repeat match goal with
         | |- context [?x <=? ?y] => destruct (Z.leb_spec x y)
         end;
    cbn [RefillPrediction.days_remaining RefillPrediction.action
         RefillPrediction.urgency]; try lia;
    (split; [lia|]); (split; [reflexivity|]); intuition lia.
Qed.

(** C4: [predict] returns, in order, one prediction for each record with
    at most 14 days remaining (an absent key counts as 0) and none for the
    others; each prediction carries the days of its record and the action
    and urgency that the table gives for them; the grades of the output
    depend on the days of the records alone; and the six sample inputs map
    as stated, the record with 15 days being left out. *)
Theorem refill_classification today patient_id patient_name :
  (forall history,
     Forall2 graded_by_table
       (RefillAgent.predict today patient_id patient_name history)
       (List.filter (fun med => days_of med <=? 14) history))
  /\ (forall history today' patient_id' patient_name' history',
        map days_of history = map days_of history' ->
        map grade (RefillAgent.predict today patient_id patient_name history)
        = map grade
            (RefillAgent.predict today' patient_id' patient_name' history'))
  /\ map (fun p => (RefillPrediction.days_remaining p, grade p))
         (RefillAgent.predict today patient_id patient_name
            (map record_with_days [-5; 0; 2; 5; 10; 15]))
     = [(-5, (BLOCK, CRITICAL)); (0, (BLOCK, CRITICAL)); (2, (REMIND, HIGH));
        (5, (AUTO_REFILL, MEDIUM)); (10, (REMIND, LOW))].
Proof.
  assert (Hall : forall today patient_id patient_name history,
            Forall2 graded_by_table
              (RefillAgent.predict today patient_id patient_name history)
              (List.filter (fun med => days_of med <=? 14) history)).
  { clear. intros today patient_id patient_name history.
    induction history as [|med rest IH]; [constructor|].
    rewrite predict_cons. cbn [List.filter].
    pose proof (predict_one_graded today patient_id patient_name med) as H.
    cbv zeta in H.
    destruct (RefillAgent.predict_one today patient_id patient_name med)
      as [p|].
    - destruct H as [Hd Hp].
      destruct (Z.leb_spec (days_of med) 14); [|lia]. by constructor.
    - destruct (Z.leb_spec (days_of med) 14); [lia|]. exact IH. }
  assert (Hgrade : forall p med,
            graded_by_table p med ->
            grade p
            = if days_of med <=? 0 then (BLOCK, CRITICAL)
              else if days_of med <=? 3 then (REMIND, HIGH)
              else if days_of med <=? 7 then (AUTO_REFILL, MEDIUM)
              else (REMIND, LOW)).
  { clear. intros p med (_ & Hcases). unfold grade.
    repeat match goal with
           | |- context [?x <=? ?y] => destruct (Z.leb_spec x y)
           end;
      destruct Hcases as [(? & -> & ->)|[(? & -> & ->)|[(? & -> & ->)
                         |(? & -> & ->)]]]; try reflexivity; lia. }
  split; [apply Hall|]. split; [|reflexivity].
  intros history today' patient_id' patient_name' history' Hdays.
  pose proof (Hall today patient_id patient_name history) as H1.
  pose proof (Hall today' patient_id' patient_name' history') as H2.
  revert H1 H2.
  generalize (RefillAgent.predict today patient_id patient_name history).
  generalize (RefillAgent.predict today' patient_id' patient_name' history').
  revert history' Hdays.
  induction history as [|med rest IH]; intros [|med' rest'] Hdays l' l H1 H2;
    try discriminate.
  - inversion H1; inversion H2; reflexivity.
  - cbn [map] in Hdays. injection Hdays as Hd Hrest.
    cbn [List.filter] in H1, H2. rewrite <- Hd in H2.
    destruct (days_of med <=? 14).
    + inversion H1 as [|p ? ps ? Hp Hps]; subst.
      inversion H2 as [|p' ? ps' ? Hp' Hps']; subst.
      cbn [map]. f_equal; [|by eapply IH].
      rewrite (Hgrade _ _ Hp), (Hgrade _ _ Hp'). by rewrite Hd.
    + by eapply IH.
Qed.
(** ** Receipts *)

Lemma half_even_div_nearest a b :
  0 < b -> Z.abs (2 * (a - Float64.half_even_div a b * b)) <= b.
Proof.
  intros Hb. unfold Float64.half_even_div. cbv zeta.
  pose proof (Z.div_mod a b ltac:(lia)) as Hdiv.
  pose proof (Z.mod_pos_bound a b Hb) as Hmod.
  destruct (Z.compare_spec (2 * (a mod b)) b);
    [destruct (Z.even (a / b))| |]; nia.
Qed.

Lemma half_even_div_nonneg a b :
  0 <= a -> 0 < b -> 0 <= Float64.half_even_div a b.
Proof.
  intros Ha Hb. unfold Float64.half_even_div. cbv zeta.
  pose proof (Z.div_pos a b Ha Hb).
  destruct (2 * (a mod b) ?= b); [destruct (Z.even (a / b))| |]; lia.
Qed.

(* [round(x, 2)] of a finite double is a nearest number of hundredths. *)
Lemma round2_rounded x :
  Float64.is_finite x = true -> rounded_to_cents x (Float64.round2 x).
Proof.
  destruct x as [s| | |s m e]; try discriminate; intros _.
  - exists 0. cbn. split; [lia|]. split; [lia|reflexivity].
  - exists (Float64.hundredths m e).
    unfold Float64.round2, Float64.hundredths, magnitude_num, magnitude_den,
      is_negative.
    destruct (Z.leb_spec 0 e) as [He|He].
    + rewrite (Z.max_l e 0), (Z.max_r (- e) 0) by lia.
      pose proof (Z.pow_nonneg 2 e ltac:(lia)).
      split; [nia|]. split; [|reflexivity]. change (2 ^ 0) with 1. nia.
    + rewrite (Z.max_r e 0), (Z.max_l (- e) 0) by lia.
      pose proof (Z.pow_pos_nonneg 2 (- e) ltac:(lia) ltac:(lia)) as Hpow.
      split; [apply half_even_div_nonneg; lia|]. split; [|reflexivity].
      change (2 ^ 0) with 1.
      pose proof (half_even_div_nearest (Z.pos m * 100) (2 ^ (- e)) Hpow).
      replace (100 * (Z.pos m * 1)) with (Z.pos m * 100) by lia. done.
Qed.

Lemma receipt_lines_convert items :
  Forall (fun item => Float64.converts (OrderItem.quantity item) = true) items ->
  exists lines, FulfillmentAgent.receipt_lines items = Returns lines.
Proof.
  induction 1 as [|item rest Hitem _ [lines IH]]; [by eexists|].
  cbn [FulfillmentAgent.receipt_lines].
  unfold FulfillmentAgent.receipt_line, line_amount, int_to_float.
  rewrite Hitem, IH. by eexists.
Qed.

(** C5: the receipt is produced whenever every quantity converts to a
    float.  On a produced receipt the subtotal is the order's total, the
    delivery fee is exactly 2.00, the tax is the product
    [subtotal * 0.05] rounded to two decimals, and the grand total is the
    sum [subtotal + tax + delivery_fee], of the tax already rounded,
    rounded to two decimals; a subtotal of 100.00 gives tax 5.00 and grand
    total 107.00.  All arithmetic is binary64. *)
Theorem receipt_arithmetic order :
  let subtotal := Order.total_amount order in
  let five_percent := Float64.fmul subtotal (Float64.dec 5 100) in
  (Forall (fun item => Float64.converts (OrderItem.quantity item) = true)
          (Order.items order) ->
   exists r, FulfillmentAgent.generate_receipt order = Returns r)
  /\ (forall r,
        FulfillmentAgent.generate_receipt order = Returns r ->
        let total :=
          Float64.fadd (Float64.fadd subtotal (Receipt.tax r))
                       (Receipt.delivery_fee r) in
        Receipt.subtotal r = subtotal
        /\ Receipt.delivery_fee r = Float64.of_Z 2
        /\ (Float64.is_finite five_percent = true ->
            rounded_to_cents five_percent (Receipt.tax r))
        /\ (Float64.is_finite total = true ->
            rounded_to_cents total (Receipt.grand_total r))
        /\ (subtotal = Float64.of_Z 100 ->
            Receipt.tax r = Float64.of_Z 5
            /\ Receipt.grand_total r = Float64.of_Z 107)).
Proof.
  intros subtotal five_percent. split.
  - intros Hconv. unfold FulfillmentAgent.generate_receipt.
    destruct (receipt_lines_convert _ Hconv) as [lines ->]. by eexists.
  - intros r. unfold FulfillmentAgent.generate_receipt.
    destruct (FulfillmentAgent.receipt_lines (Order.items order))
      as [lines|e]; [|discriminate].
    cbv zeta. intros [= <-].
    cbn [Receipt.subtotal Receipt.delivery_fee Receipt.tax
         Receipt.grand_total].
    fold subtotal. fold five_percent.
    split; [reflexivity|]. split; [vm_compute; reflexivity|].
    split; [apply round2_rounded|]. split; [apply round2_rounded|].
    intros Hs. subst five_percent. rewrite Hs.
    split; vm_compute; reflexivity.
Qed.

Lemma forallb_down_from (f : Z -> bool) n c :
  forallb f (down_from n) = true -> 0 <= c <= Z.of_nat n -> f c = true.
Proof.
  induction n as [|n IH]; simpl; intros Hall Hc.
  - apply andb_true_iff in Hall as [H0 _]. by replace c with 0 by lia.
  - apply andb_true_iff in Hall as [Hn Hrest].
    destruct (decide (c = Z.pos (Pos.of_succ_nat n))) as [->|Hne]; [done|].
    apply IH; [done|lia].
Qed.

(** No visible drift: for every subtotal of a whole number of hundredths
    up to 50.00, the receipt is produced, its tax is a whole number of
    hundredths within half a hundredth of 5% of the subtotal, and the
    grand total is exactly subtotal + tax + 2.00. *)
Theorem receipt_whole_cents c :
  0 <= c <= 5000 ->
  exists r t,
    receipt_for (cents c) = Returns r
    /\ Z.abs (100 * t - 5 * c) <= 50
    /\ Float64.feqb (Receipt.tax r) (cents t) = true
    /\ Float64.feqb (Receipt.grand_total r) (cents (c + t + 200)) = true.
Proof.
  intros Hc.
  assert (Hall : forallb whole_cents_at (down_from 5000) = true)
    by (vm_compute; reflexivity).
  pose proof (forallb_down_from whole_cents_at 5000 c Hall) as Hat.
  specialize (Hat ltac:(lia)).
  unfold whole_cents_at in Hat.
  destruct (receipt_for (cents c)) as [r|e]; [|discriminate].
  cbv zeta in Hat.
  apply andb_true_iff in Hat as [Hat Htotal].
  apply andb_true_iff in Hat as [Htax Hnear].
  exists r, (tax_cents c). split; [reflexivity|].
  split; [apply Z.leb_le; exact Hnear|].
  split; [exact Htax | exact Htotal].
Qed.

Lemma receipt_whole_cents_witness :
  exists r t,
    receipt_for (cents 1999) = Returns r
    /\ Z.abs (100 * t - 5 * 1999) <= 50
    /\ Float64.feqb (Receipt.tax r) (cents t) = true
    /\ Float64.feqb (Receipt.grand_total r) (cents (1999 + t + 200)) = true.
Proof. apply (receipt_whole_cents 1999). lia. Defined.
(** ** Stock updates *)

Lemma find_by_id_insert (rows : list Medicine.t) medicine_id i row v :
  list_find (fun r => Medicine.medicine_id r = medicine_id) rows = Some (i, row) ->
  list_find (fun r => Medicine.medicine_id r = medicine_id)
            (<[i := Medicine.with_stock_level v row]> rows)
  = Some (i, Medicine.with_stock_level v row).
Proof.
  intros Hfind. apply list_find_Some in Hfind as (Hi & Hid & Hbefore).
  apply list_find_Some. split; [|split].
  - apply list_lookup_insert_eq. by eapply lookup_lt_Some.
  - exact Hid.
  - intros j y Hj Hlt. rewrite list_lookup_insert_ne in Hj by lia.
    by eapply Hbefore.
Qed.

Lemma wrap_int64_id n : in_int64 n = true -> wrap_int64 n = n.
Proof.
  unfold in_int64, wrap_int64, int64_min, int64_max.
  intros [H1 H2]%andb_true_iff. apply Z.leb_le in H1, H2.
  rewrite Z.mod_small; lia.
Qed.

(* What an update with an int64 quantity does to a known id. *)
Lemma update_stock_known medicine_id quantity_sold ds old :
  stock_of medicine_id ds = Some old ->
  in_int64 quantity_sold = true ->
  exists ds',
    DataService.update_stock medicine_id quantity_sold ds = Returns (true, ds')
    /\ stock_of medicine_id ds'
       = Some (Z.max 0 (wrap_int64 (old - quantity_sold)))
    /\ DataService.orders_df ds' = DataService.orders_df ds.
Proof.
  unfold stock_of, DataService.get_medicine_by_id, DataService.update_stock.
  destruct (DataService.medicines_df ds) as [rows|] eqn:Hdf; [|discriminate].
  destruct (list_find _ rows) as [[i row]|] eqn:Hfind; [|discriminate].
  cbn [fmap option_fmap option_map snd]. intros [= <-] ->. cbv zeta.
  eexists. split; [reflexivity|]. split; [|reflexivity].
  cbn [DataService.medicines_df].
  erewrite find_by_id_insert by exact Hfind.
  cbn [fmap option_fmap option_map snd Medicine.stock_level
       Medicine.with_stock_level].
  f_equal.
  destruct (Z.ltb_spec
              (Z.max 0 (wrap_int64 (Medicine.stock_level row - quantity_sold)))
              0); lia.
Qed.

(* An update with a quantity that is no int64 raises. *)
Lemma update_stock_overflow medicine_id quantity_sold ds old :
  stock_of medicine_id ds = Some old ->
  in_int64 quantity_sold = false ->
  DataService.update_stock medicine_id quantity_sold ds
  = Raises (int64_overflow quantity_sold).
Proof.
  unfold stock_of, DataService.get_medicine_by_id, DataService.update_stock.
  destruct (DataService.medicines_df ds) as [rows|]; [|discriminate].
  destruct (list_find _ rows) as [[i row]|]; [|discriminate].
  intros _ Hq. cbv zeta. by rewrite Hq.
Qed.

Lemma update_stock_returns medicine_id quantity_sold ds :
  in_int64 quantity_sold = true ->
  exists known ds',
    DataService.update_stock medicine_id quantity_sold ds
    = Returns (known, ds').
Proof.
  intros Hq. unfold DataService.update_stock.
  destruct (DataService.medicines_df ds) as [rows|]; [|by eexists _, _].
  destruct (list_find _ rows) as [[i row]|]; [|by eexists _, _].
  cbv zeta. rewrite Hq. by eexists _, _.
Qed.

Lemma update_stock_raises medicine_id quantity_sold ds e :
  DataService.update_stock medicine_id quantity_sold ds = Raises e ->
  in_int64 quantity_sold = false /\ e = int64_overflow quantity_sold.
Proof.
  unfold DataService.update_stock.
  destruct (DataService.medicines_df ds) as [rows|]; [|discriminate].
  destruct (list_find _ rows) as [[i row]|]; [|discriminate].
  cbv zeta. destruct (in_int64 quantity_sold); [discriminate|].
  by intros [= <-].
Qed.

(** C10, as stated, fails: Paracetamol is a known id with stock 100, and
    an update that sells 10^30 units raises [OverflowError], since the
    quantity is no int64; it does not return [True]. *)
Lemma huge_quantity_sold_raises :
  stock_of "MED001" (data_service sample_world) = Some 100
  /\ DataService.update_stock "MED001" (10 ^ 30) (data_service sample_world)
     = Raises (int64_overflow (10 ^ 30))
  /\ (forall ds',
        DataService.update_stock "MED001" (10 ^ 30) (data_service sample_world)
        <> Returns (true, ds')).
Proof.
  assert (DataService.update_stock "MED001" (10 ^ 30)
            (data_service sample_world)
          = Raises (int64_overflow (10 ^ 30))) as Hraises
    by (by apply (update_stock_overflow _ _ _ 100)).
  split; [reflexivity|]. split; [exact Hraises|].
  intros ds'. rewrite Hraises. discriminate.
Qed.

(** C10, amended: for a known medicine id and a quantity sold that is an
    int64, the update returns [True] and the stock recorded for that id
    is not negative afterwards; it is [max(0, old - quantity_sold)]
    whenever that difference is an int64 too.  A quantity sold that is no
    int64 raises [OverflowError], and nothing is written.  For an unknown
    id the update returns [False] and the table is unchanged. *)
Theorem update_stock_never_negative medicine_id quantity_sold ds :
  match stock_of medicine_id ds with
  | Some old =>
      if in_int64 quantity_sold then
        exists ds' new,
          DataService.update_stock medicine_id quantity_sold ds
          = Returns (true, ds')
          /\ stock_of medicine_id ds' = Some new
          /\ 0 <= new
          /\ (in_int64 (old - quantity_sold) = true ->
              new = Z.max 0 (old - quantity_sold))
      else
        DataService.update_stock medicine_id quantity_sold ds
        = Raises (int64_overflow quantity_sold)
  | None =>
      DataService.update_stock medicine_id quantity_sold ds
      = Returns (false, ds)
  end.
Proof.
  destruct (stock_of medicine_id ds) as [old|] eqn:Hold.
  - destruct (in_int64 quantity_sold) eqn:Hq.
    + destruct (update_stock_known _ _ _ _ Hold Hq) as (ds' & Hret & Hnew & _).
      exists ds', (Z.max 0 (wrap_int64 (old - quantity_sold))).
      split; [exact Hret|]. split; [exact Hnew|]. split; [lia|].
      intros Hdiff. by rewrite wrap_int64_id.
    + by eapply update_stock_overflow.
  - revert Hold.
    unfold stock_of, DataService.get_medicine_by_id, DataService.update_stock.
    destruct (DataService.medicines_df ds) as [rows|]; [|done].
    by destruct (list_find _ rows) as [[i row]|].
Qed.

Lemma update_stock_never_negative_witness :
  (exists ds',
     DataService.update_stock "MED002" 30 (data_service sample_world)
     = Returns (true, ds')
     /\ stock_of "MED002" ds' = Some 0)
  /\ DataService.update_stock "MED999" 30 (data_service sample_world)
     = Returns (false, data_service sample_world).
Proof.
  pose proof (update_stock_never_negative "MED002" 30
                (data_service sample_world)) as Hknown.
  pose proof (update_stock_never_negative "MED999" 30
                (data_service sample_world)) as Hunknown.
  change (stock_of "MED002" (data_service sample_world)) with (Some 5) in Hknown.
  change (stock_of "MED999" (data_service sample_world)) with (@None Z)
    in Hunknown.
  change (in_int64 30) with true in Hknown. cbv iota in Hknown, Hunknown.
  destruct Hknown as (ds' & new & Hret & Hstock & _ & Hnew).
  split; [|exact Hunknown].
  exists ds'. split; [exact Hret|]. rewrite Hstock.
  by rewrite (Hnew eq_refl).
Defined.
(** ** The fulfillment notification *)

(** C9: the call always returns.  Unless the endpoint answered 200 the
    agent's state is unchanged.  On 200 the order stored under the id of
    the order gets status PROCESSING, its other fields unchanged, its
    status history grows by that update, and the timeline of the id grows
    by the 'Dispatched' event (the event is appended also when no order is
    stored under the id).  The state changes exactly on 200. *)
Theorem webhook_failure_is_swallowed order post fa :
  let order_id := Order.order_id order in
  exists fa',
    FulfillmentAgent.trigger_warehouse_webhook order post fa = Returns fa'
    /\ (answered_200 post = false -> fa' = fa)
    /\ (answered_200 post = true ->
        (forall stored,
           FulfillmentAgent.get_order order_id fa = Some stored ->
           exists stored',
             FulfillmentAgent.get_order order_id fa' = Some stored'
             /\ Order.status stored' = PROCESSING
             /\ Order.with_status (Order.status stored) stored' = stored
             /\ FulfillmentAgent.get_order_history order_id fa'
                = FulfillmentAgent.get_order_history order_id fa
                  ++ [OrderStatusUpdate.mk order_id PROCESSING
                        "Order sent to warehouse for fulfillment"])
        /\ (FulfillmentAgent.get_order order_id fa = None ->
            FulfillmentAgent.get_order order_id fa' = None
            /\ FulfillmentAgent.get_order_history order_id fa'
               = FulfillmentAgent.get_order_history order_id fa)
        /\ FulfillmentAgent.get_events order_id fa'
           = FulfillmentAgent.get_events order_id fa
             ++ [AgentEvent.mk "System" "Dispatched"
                   "Package dispatched from warehouse" "completed"])
    /\ (fa' = fa <-> answered_200 post = false).
Proof.
  intros order_id.
  unfold FulfillmentAgent.trigger_warehouse_webhook,
    FulfillmentAgent.webhook_body, try_except, answered_200.
  destruct post as [code|e];
    [destruct (code =? 200)|];
    try (exists fa; split; [reflexivity|]; split; [done|];
         split; [discriminate | done]).
  fold order_id. eexists. split; [reflexivity|]. split; [discriminate|].
  assert (FulfillmentAgent.get_events order_id
            (FulfillmentAgent.add_event order_id "System" "Dispatched"
               "Package dispatched from warehouse" "completed"
               (snd (FulfillmentAgent.update_order_status order_id PROCESSING
                       "Order sent to warehouse for fulfillment" fa)))
          = FulfillmentAgent.get_events order_id fa
            ++ [AgentEvent.mk "System" "Dispatched"
                  "Package dispatched from warehouse" "completed"]) as Hev.
  { unfold FulfillmentAgent.update_order_status,
      FulfillmentAgent.add_event, FulfillmentAgent.get_events.
    destruct (FulfillmentAgent.orders fa !! order_id);
      cbn [snd FulfillmentAgent.order_events];
      by rewrite lookup_insert_eq. }
  split; [intros _; split; [|split; [|exact Hev]]|].
  - intros stored Hstored. unfold FulfillmentAgent.get_order in Hstored.
    unfold FulfillmentAgent.update_order_status. rewrite Hstored.
    unfold FulfillmentAgent.add_event, FulfillmentAgent.get_order,
      FulfillmentAgent.get_order_history.
    cbn [snd FulfillmentAgent.orders FulfillmentAgent.order_history].
    rewrite !lookup_insert_eq. eexists. split; [reflexivity|].
    split; [reflexivity|]. split; [by destruct stored | done].
  - intros Hnone. unfold FulfillmentAgent.get_order in Hnone.
    unfold FulfillmentAgent.update_order_status. rewrite Hnone.
    unfold FulfillmentAgent.add_event, FulfillmentAgent.get_order,
      FulfillmentAgent.get_order_history.
    cbn [snd FulfillmentAgent.orders FulfillmentAgent.order_history].
    done.
  - split; [|discriminate]. intros Hsame. rewrite Hsame in Hev.
    apply (f_equal length) in Hev. rewrite length_app in Hev.
    cbn [length] in Hev. lia.
Qed.

Lemma webhook_failure_is_swallowed_witness :
  exists fa' stored',
    FulfillmentAgent.trigger_warehouse_webhook cancelled_order (Response 200)
      (fulfillment_agent world_with_cancelled_order) = Returns fa'
    /\ FulfillmentAgent.get_order "ORD-20240101-ABC123" fa' = Some stored'
    /\ Order.status stored' = PROCESSING.
Proof.
  destruct (webhook_failure_is_swallowed cancelled_order (Response 200)
              (fulfillment_agent world_with_cancelled_order))
    as (fa' & Hret & _ & Hok & _).
  destruct (Hok eq_refl) as (Hstored & _).
  destruct (Hstored cancelled_order (lookup_singleton_eq _ _))
    as (stored' & Hget & Hstatus & _).
  exists fa', stored'. split; [exact Hret|]. split; [exact Hget|exact Hstatus].
Defined.
(** ** The API confirm operation *)

Lemma update_order_status_stored order_id status message fa order :
  FulfillmentAgent.orders fa !! order_id = Some order ->
  FulfillmentAgent.update_order_status order_id status message fa
  = (Some (Order.with_status status order),
     FulfillmentAgent.mk
       (<[order_id := Order.with_status status order]>
          (FulfillmentAgent.orders fa))
       (<[order_id := default [] (FulfillmentAgent.order_history fa !! order_id)
                      ++ [OrderStatusUpdate.mk order_id status message]]>
          (FulfillmentAgent.order_history fa))
       (FulfillmentAgent.order_events fa)).
Proof.
  intros H. unfold FulfillmentAgent.update_order_status. by rewrite H.
Qed.

Lemma decrement_stock_returns items ds :
  Forall (fun item => in_int64 (OrderItem.quantity item) = true) items ->
  fst (Api.decrement_stock items ds) = Returns tt.
Proof.
  intros Hall. revert ds.
  induction Hall as [|item rest Hitem _ IH]; intros ds; [done|].
  cbn [Api.decrement_stock].
  destruct (update_stock_returns (OrderItem.medicine_id item) _ ds Hitem)
    as (known & ds' & ->).
  apply IH.
Qed.

(** C6: confirming a stored order that is not PENDING yields the 400
    error, schedules nothing and leaves the whole state as it was; a
    change of state or a scheduled webhook implies that the order was
    PENDING.  A PENDING order gets status CONFIRMED and its stock updates
    are made; when they all return (they do when every quantity is an
    int64) the order is moved on to PREPARING, one webhook is scheduled
    and the answer is 'confirmed'; when one raises, the exception leaves
    the endpoint with the order CONFIRMED and nothing scheduled. *)
Theorem api_confirm_requires_pending order_id w :
  let out := Api.confirm_order order_id w in
  let stored := FulfillmentAgent.get_order order_id (fulfillment_agent w) in
  (forall order,
     stored = Some order -> Order.status order <> PENDING ->
     out = (Api.HTTPException 400
              ("Order is not pending. Current status: "
               +:+ OrderStatus_value (Order.status order)), [], w))
  /\ (snd (fst out) <> [] \/ snd out <> w ->
      exists order, stored = Some order /\ Order.status order = PENDING)
  /\ (forall order,
        stored = Some order -> Order.status order = PENDING ->
        let stock := Api.decrement_stock (Order.items order) (data_service w) in
        data_service (snd out) = snd stock
        /\ (Forall (fun item => in_int64 (OrderItem.quantity item) = true)
                   (Order.items order) ->
            fst stock = Returns tt)
        /\ match fst stock with
           | Returns _ =>
               fst (fst out) = Api.Json "confirmed" order_id
               /\ snd (fst out) = [Order.order_id order]
               /\ FulfillmentAgent.get_order order_id
                    (fulfillment_agent (snd out))
                  = Some (Order.with_status PREPARING order)
               /\ FulfillmentAgent.get_order_history order_id
                    (fulfillment_agent (snd out))
                  = FulfillmentAgent.get_order_history order_id
                      (fulfillment_agent w)
                    ++ [OrderStatusUpdate.mk order_id CONFIRMED
                          "Order confirmed";
                        OrderStatusUpdate.mk order_id PREPARING
                          "Preparing order"]
           | Raises e =>
               fst (fst out) = Api.Unhandled e
               /\ snd (fst out) = []
               /\ FulfillmentAgent.get_order order_id
                    (fulfillment_agent (snd out))
                  = Some (Order.with_status CONFIRMED order)
               /\ FulfillmentAgent.get_order_history order_id
                    (fulfillment_agent (snd out))
                  = FulfillmentAgent.get_order_history order_id
                      (fulfillment_agent w)
                    ++ [OrderStatusUpdate.mk order_id CONFIRMED
                          "Order confirmed"]
           end).
Proof.
  intros out stored. subst out stored. unfold Api.confirm_order.
  destruct (FulfillmentAgent.get_order order_id (fulfillment_agent w))
    as [order|] eqn:Hget.
  - destruct (decide (Order.status order = PENDING)) as [Hp|Hp].
    + rewrite bool_decide_eq_true_2 by done. cbn [negb].
      split; [intros o [= <-] Hne; done|].
      split; [intros _; eauto|].
      intros o [= <-] _. cbv zeta.
      unfold FulfillmentAgent.get_order in Hget.
      rewrite (update_order_status_stored _ _ _ _ _ Hget). cbn [snd].
      split; [by destruct (Api.decrement_stock _ _) as [[u|e] ds]|].
      split; [apply decrement_stock_returns|].
      destruct (Api.decrement_stock _ _) as [[u|e] ds]; cbn [fst snd].
      * erewrite update_order_status_stored
          by (cbn [FulfillmentAgent.orders]; apply lookup_insert_eq).
        cbn [snd fulfillment_agent data_service].
        unfold FulfillmentAgent.get_order, FulfillmentAgent.get_order_history.
        cbn [FulfillmentAgent.orders FulfillmentAgent.order_history].
        rewrite !lookup_insert_eq. cbn [default].
        repeat split; try done. unfold id. by rewrite <- app_assoc.
      * cbn [fulfillment_agent].
        unfold FulfillmentAgent.get_order, FulfillmentAgent.get_order_history.
        cbn [FulfillmentAgent.orders FulfillmentAgent.order_history].
        rewrite !lookup_insert_eq. done.
    + rewrite bool_decide_eq_false_2 by done. cbn [negb fst snd].
      split; [intros o [= <-] _; done|].
      split; [intros [H|H]; done|].
      intros o [= <-] Hpending. done.
  - cbn [fst snd]. split; [done|]. split; [intros [H|H]; done | done].
Qed.

Lemma api_confirm_requires_pending_witness :
  Api.confirm_order "ORD-20240101-ABC123" world_with_cancelled_order
  = (Api.HTTPException 400 "Order is not pending. Current status: CANCELLED",
     [], world_with_cancelled_order).
Proof.
  refine (proj1 (api_confirm_requires_pending "ORD-20240101-ABC123"
                   world_with_cancelled_order) cancelled_order _ _).
  - apply lookup_singleton_eq.
  - discriminate.
Defined.

(** ** The confirm handler without a pending preview *)

(** C7: when the session has no context entry, or its entry names a
    preview that is not stored, the confirm handler returns the 'nothing to
    confirm' reply and the world it was given: no order, no stock change,
    no timeline event. *)
Theorem confirm_without_preview_changes_nothing request patient order_id post w :
  let o := orchestrator_agent w in
  let session_id := OrchestratorAgent.session_key request in
  (Orchestrator.session_contexts o !! session_id = None
   \/ exists preview_id,
        Orchestrator.session_contexts o !! session_id = Some preview_id
        /\ Orchestrator.pending_previews o !! preview_id = None) ->
  OrchestratorAgent._handle_order_confirmation request patient order_id post w
  = (Returns
       (ChatResponse.text
          "I don't see any pending order to confirm. Would you like to place a new order?"),
     w).
Proof.
  intros o session_id Hnone.
  unfold OrchestratorAgent._handle_order_confirmation,
    OrchestratorAgent.pending_preview.
  fold o session_id.
  destruct Hnone as [-> | (preview_id & -> & Hmissing)]; [done|].
  rewrite Hmissing. by destruct (truthy_str preview_id).
Qed.

Lemma confirm_without_preview_changes_nothing_witness :
  OrchestratorAgent._handle_order_confirmation sample_request sample_patient
    "ORD-20240102-0F0F0F" (Response 200) sample_world
  = (Returns
       (ChatResponse.text
          "I don't see any pending order to confirm. Would you like to place a new order?"),
     sample_world).
Proof.
  apply (confirm_without_preview_changes_nothing sample_request sample_patient
           "ORD-20240102-0F0F0F" (Response 200) sample_world).
  left. apply lookup_empty.
Defined.

(** ** Quantities of the preview's line items *)

Lemma build_items_quantities cap entities matched i :
  map OrderItem.quantity
      (OrchestratorAgent.build_items cap i entities matched)
  = map (OrchestratorAgent.item_quantity cap)
        (take (length matched - i) entities).
Proof.
  revert i; induction entities as [|entity rest IH]; intros i; simpl.
  - by rewrite take_nil.
  - destruct (matched !! i) as [med|] eqn:Hi.
    + apply lookup_lt_Some in Hi.
      replace (length matched - i)%nat with (S (length matched - S i)) by lia.
      simpl. by rewrite IH.
    + apply lookup_ge_None in Hi.
      rewrite IH.
      replace (length matched - S i)%nat with O by lia.
      replace (length matched - i)%nat with O by lia.
      by rewrite !take_0.
Qed.


(* The two ways the order handler ends: without a preview, the world
   unchanged; or with a preview, stored and bound to the session. *)
Lemma handle_order_cases ops request patient extraction_result hex8 w :
  let out := OrchestratorAgent._handle_order ops request patient
               extraction_result hex8 w in
  let entities := ExtractionResult.entities extraction_result in
  (returned_preview (fst out) = None
   /\ snd out = w
   /\ (forall reply,
         fst out = Returns reply ->
         ChatResponse.requires_confirmation reply = false))
  \/ exists reply preview matched subtotal,
       fst out = Returns reply
       /\ ChatResponse.order_preview reply = Some preview
       /\ ChatResponse.requires_confirmation reply = true
       /\ OrchestratorAgent.match_entities ops (data_service w) entities
          = Returns matched
       /\ ChatResponse.safety_result reply
          = Some (SafetyAgent.evaluate entities matched false)
       /\ OrderPreview.preview_id preview
          = OrchestratorAgent._generate_preview_id hex8
       /\ OrderPreview.safety_decision preview
          = SafetyCheckResult.decision
              (SafetyAgent.evaluate entities matched false)
       /\ OrderPreview.safety_decision preview <> REJECT
       /\ OrderPreview.items preview
          = map OrchestratorAgent.set_price
              (OrchestratorAgent.build_items
                 (SafetyCheckResult.allowed_quantity
                    (SafetyAgent.evaluate entities matched false))
                 0 entities matched)
       /\ items_total (OrderPreview.items preview) = Returns subtotal
       /\ OrderPreview.total_amount preview = Float64.round2 subtotal
       /\ snd out
          = with_orchestrator
              (Orchestrator.mk
                 (<[OrchestratorAgent._generate_preview_id hex8 := preview]>
                    (Orchestrator.pending_previews (orchestrator_agent w)))
                 (<[OrchestratorAgent.session_key request
                    := OrchestratorAgent._generate_preview_id hex8]>
                    (Orchestrator.session_contexts (orchestrator_agent w))))
              w.
Proof.
  unfold OrchestratorAgent._handle_order. cbv zeta.
  destruct (ExtractionResult.needs_clarification extraction_result);
    [left; split; [done|]; split; [done|]; by intros reply [= <-]|].
  destruct (negb (truthy_list (ExtractionResult.entities extraction_result)));
    [left; split; [done|]; split; [done|]; by intros reply [= <-]|].
  destruct (OrchestratorAgent.match_entities ops (data_service w)
              (ExtractionResult.entities extraction_result))
    as [matched|e]; [|left; split; [done|]; split; [done|]; by intros reply].
  destruct (negb (truthy_list matched));
    [left; split; [done|]; split; [done|]; by intros reply [= <-]|].
  destruct (SafetyCheckResult.decision
              (SafetyAgent.evaluate
                 (ExtractionResult.entities extraction_result) matched false))
    eqn:Hdecision;
    try (left; split; [done|]; split; [done|]; by intros reply [= <-]);
    (destruct (items_total _) as [subtotal|e] eqn:Htotal;
     [|left; split; [done|]; split; [done|]; by intros reply]);
    right; eexists _, _, matched, subtotal;
    cbn [fst snd ChatResponse.order_preview ChatResponse.requires_confirmation
         ChatResponse.safety_result OrderPreview.preview_id
         OrderPreview.safety_decision OrderPreview.items
         OrderPreview.total_amount];
    (split; [reflexivity|]); (split; [reflexivity|]);
    repeat split; try done.
Qed.




(** ** Steps of the handlers *)

Lemma in_int64_converts n : in_int64 n = true -> Float64.converts n = true.
Proof.
  unfold in_int64, int64_min, int64_max, Float64.converts.
  intros [H1 H2]%andb_true_iff. apply Z.leb_le in H1, H2. apply Z.ltb_lt.
  assert (2 ^ 63 < Float64.float_limit) by (vm_compute; reflexivity).
  lia.
Qed.

Lemma fill_price_quantity item :
  OrderItem.quantity (FulfillmentAgent.fill_price item)
  = OrderItem.quantity item.
Proof.
  unfold FulfillmentAgent.fill_price. by destruct (Float64.feqb _ _).
Qed.

Lemma line_amount_converts item :
  Float64.converts (OrderItem.quantity item) = true ->
  line_amount item
  = Returns (Float64.fmul (OrderItem.unit_price item)
               (Float64.of_Z (OrderItem.quantity item))).
Proof. intros H. unfold line_amount, int_to_float. by rewrite H. Qed.

Lemma line_amount_raises item e :
  line_amount item = Raises e ->
  Float64.converts (OrderItem.quantity item) = false
  /\ e = "OverflowError: int too large to convert to float".
Proof.
  unfold line_amount, int_to_float.
  destruct (Float64.converts _); [discriminate|]. by intros [= <-].
Qed.

(* The sum returns exactly when every quantity converts to a float. *)
Lemma items_total_from_returns acc items :
  Forall (fun item => Float64.converts (OrderItem.quantity item) = true) items
  <-> exists total, items_total_from acc items = Returns total.
Proof.
  revert acc. induction items as [|item rest IH]; intros acc.
  - split; [by eexists | constructor].
  - cbn [items_total_from]. rewrite Forall_cons. split.
    + intros [Hitem Hrest]. rewrite (line_amount_converts _ Hitem).
      by apply IH.
    + intros [total Htotal].
      destruct (line_amount item) as [amount|e] eqn:Hline; [|discriminate].
      split; [|apply (IH (Float64.fadd acc amount)); by eexists].
      unfold line_amount, int_to_float in Hline.
      by destruct (Float64.converts _).
Qed.

Lemma items_total_from_raises acc items e :
  items_total_from acc items = Raises e ->
  Exists (fun item => Float64.converts (OrderItem.quantity item) = false) items
  /\ e = "OverflowError: int too large to convert to float".
Proof.
  revert acc. induction items as [|item rest IH]; intros acc; [discriminate|].
  cbn [items_total_from].
  destruct (line_amount item) as [amount|e'] eqn:Hline.
  - intros H. destruct (IH _ H). split; [by right | done].
  - intros [= <-]. destruct (line_amount_raises _ _ Hline).
    split; [by left | done].
Qed.

Lemma receipt_lines_returns items total :
  items_total items = Returns total ->
  exists lines, FulfillmentAgent.receipt_lines items = Returns lines.
Proof.
  intros Htotal. apply receipt_lines_convert.
  apply (items_total_from_returns (S754_zero false)). by eexists.
Qed.

(** *** The fulfillment agent, one order id at a time *)

Lemma order_view_add_event order_id agent action description status fa :
  order_view order_id
    (FulfillmentAgent.add_event order_id agent action description status fa)
  = (fst (fst (order_view order_id fa)), snd (fst (order_view order_id fa)),
     snd (order_view order_id fa)
     ++ [AgentEvent.mk agent action description status]).
Proof.
  unfold order_view, FulfillmentAgent.add_event, FulfillmentAgent.get_order,
    FulfillmentAgent.get_order_history, FulfillmentAgent.get_events.
  cbn [fst snd FulfillmentAgent.orders FulfillmentAgent.order_history
       FulfillmentAgent.order_events].
  by rewrite lookup_insert_eq.
Qed.

Lemma order_view_add_event_ne other order_id agent action description status
    fa :
  other <> order_id ->
  order_view other
    (FulfillmentAgent.add_event order_id agent action description status fa)
  = order_view other fa.
Proof.
  intros Hne.
  unfold order_view, FulfillmentAgent.add_event, FulfillmentAgent.get_order,
    FulfillmentAgent.get_order_history, FulfillmentAgent.get_events.
  cbn [FulfillmentAgent.orders FulfillmentAgent.order_history
       FulfillmentAgent.order_events].
  by rewrite lookup_insert_ne by congruence.
Qed.

Lemma order_view_update_status order_id status message fa :
  order_view order_id
    (snd (FulfillmentAgent.update_order_status order_id status message fa))
  = match fst (fst (order_view order_id fa)) with
    | Some order =>
        (Some (Order.with_status status order),
         snd (fst (order_view order_id fa))
         ++ [OrderStatusUpdate.mk order_id status message],
         snd (order_view order_id fa))
    | None => order_view order_id fa
    end.
Proof.
  unfold order_view, FulfillmentAgent.get_order,
    FulfillmentAgent.get_order_history, FulfillmentAgent.get_events.
  cbn [fst snd].
  destruct (FulfillmentAgent.orders fa !! order_id) as [order|] eqn:Ho.
  - rewrite (update_order_status_stored _ _ _ _ _ Ho).
    cbn [snd FulfillmentAgent.orders FulfillmentAgent.order_history
         FulfillmentAgent.order_events].
    by rewrite !lookup_insert_eq.
  - unfold FulfillmentAgent.update_order_status. rewrite Ho. cbn [snd].
    by rewrite Ho.
Qed.

Lemma order_view_update_status_ne other order_id status message fa :
  other <> order_id ->
  order_view other
    (snd (FulfillmentAgent.update_order_status order_id status message fa))
  = order_view other fa.
Proof.
  intros Hne. unfold FulfillmentAgent.update_order_status.
  destruct (FulfillmentAgent.orders fa !! order_id); [|done].
  unfold order_view, FulfillmentAgent.get_order,
    FulfillmentAgent.get_order_history, FulfillmentAgent.get_events.
  cbn [snd FulfillmentAgent.orders FulfillmentAgent.order_history
       FulfillmentAgent.order_events].
  by rewrite !lookup_insert_ne by congruence.
Qed.

Lemma update_order_status_fst order_id status message fa :
  fst (FulfillmentAgent.update_order_status order_id status message fa)
  = Order.with_status status <$> FulfillmentAgent.get_order order_id fa.
Proof.
  unfold FulfillmentAgent.update_order_status, FulfillmentAgent.get_order.
  by destruct (FulfillmentAgent.orders fa !! order_id).
Qed.

Lemma record_safety_validation_event order_id decision reasons fa :
  FulfillmentAgent.record_safety_validation order_id decision reasons fa
  = FulfillmentAgent.add_event order_id
      (AgentEvent.agent_name (validation_event decision reasons))
      (AgentEvent.action (validation_event decision reasons))
      (AgentEvent.description (validation_event decision reasons))
      (AgentEvent.status (validation_event decision reasons)) fa.
Proof. by destruct decision. Qed.

Lemma validation_event_action decision reasons :
  AgentEvent.action (validation_event decision reasons)
  = validation_action decision.
Proof. by destruct decision. Qed.

Lemma agent_event_eta e :
  AgentEvent.mk (AgentEvent.agent_name e) (AgentEvent.action e)
    (AgentEvent.description e) (AgentEvent.status e) = e.
Proof. by destruct e. Qed.

Lemma webhook_returns order post fa :
  FulfillmentAgent.trigger_warehouse_webhook order post fa
  = Returns (after_webhook order post fa).
Proof.
  unfold after_webhook, FulfillmentAgent.trigger_warehouse_webhook,
    FulfillmentAgent.webhook_body, try_except.
  destruct post as [code|e]; [|done]. by destruct (code =? 200).
Qed.

Lemma order_view_after_webhook order post fa :
  order_view (Order.order_id order) (after_webhook order post fa)
  = if answered_200 post then
      match fst (fst (order_view (Order.order_id order) fa)) with
      | Some stored =>
          (Some (Order.with_status PROCESSING stored),
           snd (fst (order_view (Order.order_id order) fa))
           ++ [OrderStatusUpdate.mk (Order.order_id order) PROCESSING
                 "Order sent to warehouse for fulfillment"],
           snd (order_view (Order.order_id order) fa)
           ++ [AgentEvent.mk "System" "Dispatched"
                 "Package dispatched from warehouse" "completed"])
      | None =>
          (None, snd (fst (order_view (Order.order_id order) fa)),
           snd (order_view (Order.order_id order) fa)
           ++ [AgentEvent.mk "System" "Dispatched"
                 "Package dispatched from warehouse" "completed"])
      end
    else order_view (Order.order_id order) fa.
Proof.
  unfold after_webhook, FulfillmentAgent.trigger_warehouse_webhook,
    FulfillmentAgent.webhook_body, try_except, answered_200.
  destruct post as [code|e]; [|done].
  destruct (code =? 200); [|done].
  rewrite order_view_add_event, order_view_update_status.
  destruct (fst (fst (order_view (Order.order_id order) fa))) eqn:Hstored;
    cbn [fst snd]; by rewrite ?Hstored.
Qed.

Lemma order_view_after_webhook_ne other order post fa :
  other <> Order.order_id order ->
  order_view other (after_webhook order post fa) = order_view other fa.
Proof.
  intros Hne.
  unfold after_webhook, FulfillmentAgent.trigger_warehouse_webhook,
    FulfillmentAgent.webhook_body, try_except.
  destruct post as [code|e]; [|done]. destruct (code =? 200); [|done].
  by rewrite order_view_add_event_ne, order_view_update_status_ne.
Qed.

(* [create_order]: what it returns and stores, or that it raises and
   stores nothing. *)
Lemma create_order_cases order_id patient items fa :
  let filled := map FulfillmentAgent.fill_price items in
  let out :=
    FulfillmentAgent.create_order order_id (Patient.patient_id patient)
      (Patient.patient_name patient) (Patient.patient_email patient)
      (Patient.patient_phone patient) items fa in
  match items_total filled with
  | Returns total =>
      fst out = Returns (order_at PENDING order_id patient filled total)
      /\ order_view order_id (snd out)
         = (Some (order_at PENDING order_id patient filled total),
            [OrderStatusUpdate.mk order_id PENDING
               ("Order created for " +:+ Patient.patient_name patient)],
            FulfillmentAgent.get_events order_id fa
            ++ [AgentEvent.mk "Conversational Ordering Agent"
                  "Order Requested" "Order initiated via conversation"
                  "completed"])
      /\ (forall other, other <> order_id ->
            order_view other (snd out) = order_view other fa)
  | Raises e => out = (Raises e, fa)
  end.
Proof.
  intros filled out. subst out. unfold FulfillmentAgent.create_order.
  cbv zeta. fold filled.
  destruct (items_total filled) as [total|e]; [|done].
  cbn [fst snd]. split; [done|]. split.
  - rewrite order_view_add_event.
    unfold order_view, FulfillmentAgent.get_order,
      FulfillmentAgent.get_order_history, FulfillmentAgent.get_events.
    cbn [fst snd FulfillmentAgent.orders FulfillmentAgent.order_history
         FulfillmentAgent.order_events].
    by rewrite !lookup_insert_eq.
  - intros other Hne. rewrite order_view_add_event_ne by done.
    unfold order_view, FulfillmentAgent.get_order,
      FulfillmentAgent.get_order_history, FulfillmentAgent.get_events.
    cbn [FulfillmentAgent.orders FulfillmentAgent.order_history
         FulfillmentAgent.order_events].
    by rewrite !lookup_insert_ne by congruence.
Qed.

(* The handler's order is the stored one: a status update gives both the
   new status. *)
Lemma set_status_held status message order fa h ev :
  order_view (Order.order_id order) fa = (Some order, h, ev) ->
  fst (OrchestratorAgent.set_status status message order fa)
  = Order.with_status status order
  /\ order_view (Order.order_id order)
       (snd (OrchestratorAgent.set_status status message order fa))
     = (Some (Order.with_status status order),
        h ++ [OrderStatusUpdate.mk (Order.order_id order) status message],
        ev).
Proof.
  intros V. unfold OrchestratorAgent.set_status. cbn [fst snd].
  rewrite update_order_status_fst, order_view_update_status, V. cbn [fst snd].
  split; [|done].
  change (FulfillmentAgent.get_order (Order.order_id order) fa)
    with (fst (fst (order_view (Order.order_id order) fa))).
  by rewrite V.
Qed.

Lemma set_status_ne other status message order fa :
  other <> Order.order_id order ->
  order_view other (snd (OrchestratorAgent.set_status status message order fa))
  = order_view other fa.
Proof.
  intros Hne. unfold OrchestratorAgent.set_status. cbn [snd].
  by apply order_view_update_status_ne.
Qed.

(* A confirmation that finds its preview ends in one of three ways:
   [create_order] raises; a stock update raises; or it returns. *)
Lemma handle_confirmation_cases request patient order_id post w preview_id
    preview :
  OrchestratorAgent.pending_preview request (orchestrator_agent w)
  = Some (preview_id, preview) ->
  let out :=
    OrchestratorAgent._handle_order_confirmation request patient order_id
      post w in
  let o := orchestrator_agent w in
  let items :=
    map FulfillmentAgent.fill_price (OrderPreview.items preview) in
  let kept :=
    Orchestrator.mk
      (<[preview_id := OrderPreview.with_items items preview]>
         (Orchestrator.pending_previews o))
      (Orchestrator.session_contexts o) in
  let cleared :=
    Orchestrator.mk
      (delete preview_id (Orchestrator.pending_previews o))
      (delete (OrchestratorAgent.session_key request)
         (Orchestrator.session_contexts o)) in
  let history0 :=
    [OrderStatusUpdate.mk order_id PENDING
       ("Order created for " +:+ Patient.patient_name patient);
     OrderStatusUpdate.mk order_id VALIDATED "Safety validation completed";
     OrderStatusUpdate.mk order_id CONFIRMED "Order confirmed by patient"] in
  let events0 :=
    FulfillmentAgent.get_events order_id (fulfillment_agent w)
    ++ [AgentEvent.mk "Conversational Ordering Agent" "Order Requested"
          "Order initiated via conversation" "completed";
        validation_event (OrderPreview.safety_decision preview)
          (OrderPreview.safety_reasons preview);
        AgentEvent.mk "Safety & Policy Agent" "AI Order Confirmed"
          "AI validated and confirmed order" "completed"] in
  (exists e,
     items_total items = Raises e
     /\ out = (Raises e, mkWorld kept (fulfillment_agent w) (data_service w)))
  \/ (exists total e ds,
        items_total items = Returns total
        /\ OrchestratorAgent.update_inventory items 0 (data_service w)
           = (Raises e, ds)
        /\ fst out = Raises e
        /\ orchestrator_agent (snd out) = kept
        /\ data_service (snd out) = ds
        /\ order_view order_id (fulfillment_agent (snd out))
           = (Some (order_at CONFIRMED order_id patient items total),
              history0, events0)
        /\ (forall other,
              other <> order_id ->
              order_view other (fulfillment_agent (snd out))
              = order_view other (fulfillment_agent w)))
  \/ (exists total quantity ds receipt,
        items_total items = Returns total
        /\ OrchestratorAgent.update_inventory items 0 (data_service w)
           = (Returns quantity, ds)
        /\ FulfillmentAgent.generate_receipt
             (order_at PROCESSING order_id patient items total)
           = Returns receipt
        /\ fst out
           = Returns
               (ChatResponse.mk
                  (OrchestratorAgent.confirmation_message
                     (order_at PROCESSING order_id patient items total)
                     receipt)
                  None None None
                  (Some (order_at PROCESSING order_id patient items total))
                  [] false)
        /\ orchestrator_agent (snd out) = cleared
        /\ data_service (snd out)
           = OrchestratorAgent.add_history
               (order_at PROCESSING order_id patient items total) patient ds
        /\ order_view order_id (fulfillment_agent (snd out))
           = (Some (order_at PROCESSING order_id patient items total),
              history0
              ++ [OrderStatusUpdate.mk order_id PROCESSING
                    "Order is being processed for delivery"]
              ++ (if answered_200 post
                  then [OrderStatusUpdate.mk order_id PROCESSING
                          "Order sent to warehouse for fulfillment"]
                  else []),
              events0
              ++ [AgentEvent.mk "Inventory & Fulfillment Agent"
                    "Inventory Updated"
                    ("Stock reduced by " +:+ pretty quantity +:+ " units")
                    "completed";
                  AgentEvent.mk "Inventory & Fulfillment Agent"
                    "Fulfillment Initiated"
                    "Warehouse notified for fulfillment" "completed"]
              ++ (if answered_200 post
                  then [AgentEvent.mk "System" "Dispatched"
                          "Package dispatched from warehouse" "completed"]
                  else [])
              ++ [AgentEvent.mk "System" "Notifications Sent"
                    ("Receipt sent to " +:+ Patient.patient_email patient
                     +:+ " and " +:+ Patient.patient_phone patient)
                    "completed"])
        /\ (forall other,
              other <> order_id ->
              order_view other (fulfillment_agent (snd out))
              = order_view other (fulfillment_agent w))).
Proof.
  intros Hpending out o items kept cleared history0 events0.
  assert (Hout : out
                 = OrchestratorAgent._handle_order_confirmation request patient
                     order_id post w) by reflexivity.
  clearbody out.
  unfold OrchestratorAgent._handle_order_confirmation in Hout.
  rewrite Hpending in Hout. cbv zeta in Hout. fold o items kept in Hout.
  pose proof (create_order_cases order_id patient (OrderPreview.items preview)
                (fulfillment_agent w)) as Hc.
  cbv zeta in Hc. fold items in Hc.
  destruct (items_total items) as [total|e] eqn:Htotal.
  2: { left. exists e. split; [done|]. by rewrite Hc in Hout. }
  right. destruct Hc as (Hcreated & V0 & F0).
  destruct (FulfillmentAgent.create_order _ _ _ _ _ _ _) as [created fa0].
  cbn [fst snd] in Hcreated, V0, F0. subst created.
  set (order0 := order_at PENDING order_id patient items total) in *.
  change (Order.order_id order0) with order_id in Hout.
  (* the safety validation and the first status update *)
  match type of Hout with
  | context [OrchestratorAgent.set_status VALIDATED ?m order0 ?fa] =>
      pose proof (set_status_held VALIDATED m order0 fa
                    [OrderStatusUpdate.mk order_id PENDING
                       ("Order created for " +:+ Patient.patient_name patient)]
                    (FulfillmentAgent.get_events order_id (fulfillment_agent w)
                     ++ [AgentEvent.mk "Conversational Ordering Agent"
                           "Order Requested" "Order initiated via conversation"
                           "completed";
                         validation_event (OrderPreview.safety_decision preview)
                           (OrderPreview.safety_reasons preview)])) as H1;
      assert (forall other,
                other <> order_id ->
                order_view other
                  (snd (OrchestratorAgent.set_status VALIDATED m order0 fa))
                = order_view other (fulfillment_agent w)) as F1
        by (intros other Hne; rewrite set_status_ne by done;
            rewrite record_safety_validation_event,
              order_view_add_event_ne by done;
            by apply F0);
      destruct (OrchestratorAgent.set_status VALIDATED m order0 fa)
        as [order1 fa1]
  end.
  cbn [snd] in F1.
  destruct H1 as [Ho1 V1].
  { change (Order.order_id order0) with order_id.
    rewrite record_safety_validation_event, order_view_add_event, V0.
    cbn [fst snd]. by rewrite agent_event_eta, <- app_assoc. }
  cbn [fst snd] in Ho1, V1. subst order1.
  change (Order.order_id order0) with order_id in V1.
  change (Order.with_status VALIDATED order0)
    with (order_at VALIDATED order_id patient items total) in *.
  set (order1 := order_at VALIDATED order_id patient items total) in *.
  change (Order.order_id order1) with order_id in Hout.
  (* the confirmation event and the second status update *)
  match type of Hout with
  | context [OrchestratorAgent.set_status CONFIRMED ?m order1 ?fa] =>
      pose proof (set_status_held CONFIRMED m order1 fa
                    ([OrderStatusUpdate.mk order_id PENDING
                        ("Order created for "
                         +:+ Patient.patient_name patient)]
                     ++ [OrderStatusUpdate.mk order_id VALIDATED
                           "Safety validation completed"])
                    events0) as H2;
      assert (forall other,
                other <> order_id ->
                order_view other
                  (snd (OrchestratorAgent.set_status CONFIRMED m order1 fa))
                = order_view other (fulfillment_agent w)) as F2
        by (intros other Hne; rewrite set_status_ne by done;
            unfold FulfillmentAgent.record_order_confirmed;
            rewrite order_view_add_event_ne by done;
            by apply F1);
      destruct (OrchestratorAgent.set_status CONFIRMED m order1 fa)
        as [order2 fa2]
  end.
  cbn [snd] in F2.
  destruct H2 as [Ho2 V2].
  { change (Order.order_id order1) with order_id.
    unfold FulfillmentAgent.record_order_confirmed.
    rewrite order_view_add_event, V1. cbn [fst snd].
    unfold events0. by rewrite <- app_assoc. }
  cbn [fst snd] in Ho2, V2. subst order2.
  change (Order.order_id order1) with order_id in V2.
  change (Order.with_status CONFIRMED order1)
    with (order_at CONFIRMED order_id patient items total) in *.
  set (order2 := order_at CONFIRMED order_id patient items total) in *.
  change (Order.order_id order2) with order_id in Hout.
  change (Order.items order2) with items in Hout.
  cbn [app] in V2. fold history0 in V2.
  (* the stock updates *)
  destruct (OrchestratorAgent.update_inventory items 0 (data_service w))
    as [[quantity|e] ds] eqn:Hstock.
  2: { left. exists total, e, ds. subst out. cbn [fst snd].
       cbn [orchestrator_agent data_service fulfillment_agent].
       repeat split; try done. }
  right. exists total, quantity, ds.
  (* the two events and the third status update *)
  match type of Hout with
  | context [OrchestratorAgent.set_status PROCESSING ?m order2 ?fa] =>
      pose proof (set_status_held PROCESSING m order2 fa history0
                    (events0
                     ++ [AgentEvent.mk "Inventory & Fulfillment Agent"
                           "Inventory Updated"
                           ("Stock reduced by " +:+ pretty quantity
                            +:+ " units") "completed";
                         AgentEvent.mk "Inventory & Fulfillment Agent"
                           "Fulfillment Initiated"
                           "Warehouse notified for fulfillment" "completed"]))
        as H3;
      assert (forall other,
                other <> order_id ->
                order_view other
                  (snd (OrchestratorAgent.set_status PROCESSING m order2 fa))
                = order_view other (fulfillment_agent w)) as F3
        by (intros other Hne; rewrite set_status_ne by done;
            unfold FulfillmentAgent.record_fulfillment_initiated,
              FulfillmentAgent.record_inventory_updated;
            rewrite !order_view_add_event_ne by done;
            by apply F2);
      destruct (OrchestratorAgent.set_status PROCESSING m order2 fa)
        as [order3 fa3]
  end.
  cbn [snd] in F3.
  destruct H3 as [Ho3 V3].
  { change (Order.order_id order2) with order_id.
    unfold FulfillmentAgent.record_fulfillment_initiated,
      FulfillmentAgent.record_inventory_updated.
    rewrite !order_view_add_event, V2. cbn [fst snd].
    by rewrite <- app_assoc. }
  cbn [fst snd] in Ho3, V3. subst order3.
  change (Order.order_id order2) with order_id in V3.
  change (Order.with_status PROCESSING order2)
    with (order_at PROCESSING order_id patient items total) in *.
  set (order3 := order_at PROCESSING order_id patient items total) in *.
  (* the notification of the warehouse *)
  rewrite webhook_returns in Hout.
  pose proof (order_view_after_webhook order3 post fa3) as V4.
  change (Order.order_id order3) with order_id in V4, Hout.
  rewrite V3 in V4. cbn [fst snd] in V4.
  change (Order.with_status PROCESSING order3) with order3 in V4.
  set (fa4 := after_webhook order3 post fa3) in *.
  assert (FulfillmentAgent.get_order order_id fa4 = Some order3) as Hstored.
  { change (FulfillmentAgent.get_order order_id fa4)
      with (fst (fst (order_view order_id fa4))).
    rewrite V4. by destruct (answered_200 post). }
  rewrite Hstored in Hout. cbn [default] in Hout. unfold id in Hout.
  (* the receipt *)
  destruct (receipt_lines_returns items total Htotal) as [lines Hlines].
  assert (exists receipt,
            FulfillmentAgent.generate_receipt order3 = Returns receipt
            /\ Receipt.order_id receipt = order_id
            /\ Receipt.patient_email receipt = Patient.patient_email patient
            /\ Receipt.patient_phone receipt = Patient.patient_phone patient)
    as (receipt & Hreceipt & Hrid & Hremail & Hrphone).
  { unfold FulfillmentAgent.generate_receipt.
    change (Order.items order3) with items. rewrite Hlines.
    eexists. split; [reflexivity|]. done. }
  rewrite Hreceipt in Hout. exists receipt.
  split; [done|]. split; [done|]. split; [done|].
  subst out. cbn [fst snd orchestrator_agent data_service fulfillment_agent].
  split; [done|].
  split; [unfold cleared, kept;
          cbn [Orchestrator.pending_previews Orchestrator.session_contexts];
          by rewrite delete_insert_eq|].
  split; [done|].
  unfold FulfillmentAgent.send_receipt_notification.
  rewrite Hrid, Hremail, Hrphone. split.
  - rewrite order_view_add_event, V4.
    destruct (answered_200 post); cbn [fst snd]; by rewrite <- ?app_assoc.
  - intros other Hne. rewrite order_view_add_event_ne by done.
    unfold fa4. rewrite order_view_after_webhook_ne by done. by apply F3.
Qed.

(* Only a stock update with a quantity outside int64 raises. *)
Lemma update_inventory_raises items total_quantity ds e ds' :
  OrchestratorAgent.update_inventory items total_quantity ds = (Raises e, ds') ->
  Exists (fun item => in_int64 (OrderItem.quantity item) = false) items.
Proof.
  revert total_quantity ds.
  induction items as [|item rest IH]; intros total_quantity ds; [discriminate|].
  cbn [OrchestratorAgent.update_inventory].
  destruct (DataService.update_stock _ _ ds) as [[known ds1]|e1] eqn:Hstock.
  - intros H. right. by eapply IH.
  - intros _. left. by destruct (update_stock_raises _ _ _ _ Hstock).
Qed.

Lemma Forall_fill_price (P : Z -> Prop) items :
  Forall (fun item => P (OrderItem.quantity item)) items ->
  Forall (fun item => P (OrderItem.quantity item))
         (map FulfillmentAgent.fill_price items).
Proof.
  intros Hall. apply Forall_map. eapply Forall_impl; [exact Hall|].
  intros item Hitem. cbn. by rewrite fill_price_quantity.
Qed.

(* With a pending preview whose quantities are all int64, the
   confirmation returns. *)
Lemma handle_confirmation_returns request patient order_id post w preview_id
    preview :
  OrchestratorAgent.pending_preview request (orchestrator_agent w)
  = Some (preview_id, preview) ->
  Forall (fun item => in_int64 (OrderItem.quantity item) = true)
         (OrderPreview.items preview) ->
  exists reply order,
    fst (OrchestratorAgent._handle_order_confirmation request patient order_id
           post w) = Returns reply
    /\ ChatResponse.order reply = Some order.
Proof.
  intros Hpending Hall.
  pose proof (Forall_fill_price (fun q => in_int64 q = true) _ Hall) as Hfilled.
  destruct (handle_confirmation_cases request patient order_id post w _ _
              Hpending)
    as [(e & Htotal & _)
       | [(total & e & ds & _ & Hstock & _)
         | (total & quantity & ds & receipt & _ & _ & _ & Hreply & _)]].
  - exfalso.
    destruct (proj1 (items_total_from_returns (S754_zero false)
                       (map FulfillmentAgent.fill_price
                          (OrderPreview.items preview))))
      as [total Hreturns]; [|unfold items_total in Htotal; congruence].
    eapply Forall_impl; [exact Hfilled|].
    intros item. apply in_int64_converts.
  - exfalso. apply update_inventory_raises in Hstock.
    apply Exists_exists in Hstock as (item & Hin & Hitem).
    rewrite Forall_forall in Hfilled. specialize (Hfilled _ Hin).
    cbn in Hfilled. congruence.
  - eexists _, _. split; [exact Hreply | reflexivity].
Qed.

(* What a confirmation does to the previews and the session bindings. *)
Lemma handle_confirmation_world request patient order_id post w :
  let out :=
    OrchestratorAgent._handle_order_confirmation request patient order_id
      post w in
  let o := orchestrator_agent w in
  (OrchestratorAgent.pending_preview request o = None
   /\ out = (Returns (ChatResponse.text OrchestratorAgent.nothing_to_confirm),
             w))
  \/ exists preview_id preview,
       OrchestratorAgent.pending_preview request o
       = Some (preview_id, preview)
       /\ ((exists e,
              fst out = Raises e
              /\ orchestrator_agent (snd out)
                 = Orchestrator.mk
                     (<[preview_id
                        := OrderPreview.with_items
                             (map FulfillmentAgent.fill_price
                                (OrderPreview.items preview)) preview]>
                        (Orchestrator.pending_previews o))
                     (Orchestrator.session_contexts o))
           \/ (exists reply order,
                 fst out = Returns reply
                 /\ ChatResponse.order reply = Some order
                 /\ orchestrator_agent (snd out)
                    = Orchestrator.mk
                        (delete preview_id (Orchestrator.pending_previews o))
                        (delete (OrchestratorAgent.session_key request)
                           (Orchestrator.session_contexts o)))).
Proof.
  intros out o.
  destruct (OrchestratorAgent.pending_preview request o)
    as [[preview_id preview]|] eqn:Hpending.
  - right. exists preview_id, preview. split; [done|].
    destruct (handle_confirmation_cases request patient order_id post w _ _
                Hpending)
      as [(e & _ & Hout)
         | [(total & e & ds & _ & _ & Hfst & Ho & _)
           | (total & quantity & ds & receipt & _ & _ & _ & Hreply & Ho & _)]].
    + left. exists e. subst out. by rewrite Hout.
    + left. exists e. done.
    + right. eexists _, _. split; [exact Hreply|]. done.
  - left. split; [done|]. subst out.
    unfold OrchestratorAgent._handle_order_confirmation.
    fold o. by rewrite Hpending.
Qed.
(** ** One live preview per session *)

Lemma live_previews_unbound session_id o :
  Orchestrator.session_contexts o !! session_id = None ->
  live_previews session_id o = [].
Proof.
  intros Hnone. apply elem_of_nil_inv. intros preview_id Hin.
  apply list_elem_of_filter in Hin as [Hbound _]. congruence.
Qed.

Lemma live_previews_missing session_id preview_id o :
  Orchestrator.session_contexts o !! session_id = Some preview_id ->
  Orchestrator.pending_previews o !! preview_id = None ->
  live_previews session_id o = [].
Proof.
  intros Hbound Hmissing. apply elem_of_nil_inv. intros p Hin.
  apply list_elem_of_filter in Hin as [Hp Hdom].
  apply elem_of_elements, elem_of_dom in Hdom as [v Hv].
  congruence.
Qed.

Lemma NoDup_all_equal {A} (a : A) (l : list A) :
  NoDup l -> (forall x, x ∈ l -> x = a) -> (length l <= 1)%nat.
Proof.
  intros Hnodup Hall. destruct l as [|x [|y l]]; simpl; try lia.
  exfalso. apply NoDup_cons in Hnodup as [Hx _]. apply Hx.
  rewrite (Hall x), <- (Hall y); [left | right; left | left].
Qed.

(** The session context is a mapping, so it designates at most one of
    the stored previews. *)
Lemma live_previews_at_most_one session_id o :
  (length (live_previews session_id o) <= 1)%nat.
Proof.
  destruct (Orchestrator.session_contexts o !! session_id) as [pid|] eqn:Hb.
  - apply (NoDup_all_equal pid).
    + apply NoDup_filter, NoDup_elements.
    + intros x Hin. apply list_elem_of_filter in Hin as [Hx _]. congruence.
  - rewrite live_previews_unbound by done. simpl. lia.
Qed.

(** A session bound to a stored preview has exactly that preview live. *)
Lemma live_previews_bound session_id preview_id o :
  Orchestrator.session_contexts o !! session_id = Some preview_id ->
  is_Some (Orchestrator.pending_previews o !! preview_id) ->
  live_previews session_id o = [preview_id].
Proof.
  intros Hbound Hstored.
  assert (preview_id ∈ live_previews session_id o) as Hin.
  { apply list_elem_of_filter. split; [done|].
    by apply elem_of_elements, elem_of_dom. }
  pose proof (live_previews_at_most_one session_id o) as Hlen.
  destruct (live_previews session_id o) as [|p [|q l]];
    [by apply elem_of_nil in Hin | | simpl in Hlen; lia].
  by apply list_elem_of_singleton in Hin as ->.
Qed.

(** The order handler either leaves the world alone and returns no
    preview, or stores one preview under a fresh [PRV-] id, binds the
    session to it and returns it. *)
Lemma handle_order_world ops request patient extraction_result hex8 w :
  let out := OrchestratorAgent._handle_order ops request patient
               extraction_result hex8 w in
  (returned_preview (fst out) = None /\ snd out = w)
  \/ exists preview,
       returned_preview (fst out) = Some preview
       /\ OrderPreview.preview_id preview
          = OrchestratorAgent._generate_preview_id hex8
       /\ snd out
          = with_orchestrator
              (Orchestrator.mk
                 (<[OrchestratorAgent._generate_preview_id hex8 := preview]>
                    (Orchestrator.pending_previews (orchestrator_agent w)))
                 (<[OrchestratorAgent.session_key request
                    := OrchestratorAgent._generate_preview_id hex8]>
                    (Orchestrator.session_contexts (orchestrator_agent w))))
              w.
Proof.
  intros out.
  destruct (handle_order_cases ops request patient extraction_result hex8 w)
    as [(Hnone & Hw & _)
       | (reply & preview & matched & subtotal & Hreply & Hpreview & _ & _ & _
          & Hid & _ & _ & _ & _ & _ & Hw)].
  - by left.
  - right. exists preview. subst out. rewrite Hreply. done.
Qed.

Lemma pending_preview_Some request o preview_id preview :
  OrchestratorAgent.pending_preview request o = Some (preview_id, preview) ->
  Orchestrator.session_contexts o !! OrchestratorAgent.session_key request
  = Some preview_id
  /\ Orchestrator.pending_previews o !! preview_id = Some preview.
Proof.
  unfold OrchestratorAgent.pending_preview.
  destruct (Orchestrator.session_contexts o !! _) as [p|]; [|discriminate].
  destruct (truthy_str p); [|discriminate].
  destruct (Orchestrator.pending_previews o !! p) eqn:Hp; [|discriminate].
  intros [= <- <-]. done.
Qed.

Lemma pending_preview_None request o :
  bound_ids_nonempty o ->
  OrchestratorAgent.pending_preview request o = None ->
  live_previews (OrchestratorAgent.session_key request) o = [].
Proof.
  unfold OrchestratorAgent.pending_preview. intros Hinv.
  destruct (Orchestrator.session_contexts o !! _) as [p|] eqn:Hb;
    [|intros _; by apply live_previews_unbound].
  rewrite (Hinv _ _ Hb).
  destruct (Orchestrator.pending_previews o !! p) eqn:Hp; [discriminate|].
  intros _. by eapply live_previews_missing.
Qed.

Lemma generated_id_nonempty hex8 :
  truthy_str (OrchestratorAgent._generate_preview_id hex8) = true.
Proof. reflexivity. Qed.

(** Every reachable world binds sessions to non-empty ids only. *)
Lemma reachable_bound_ids_nonempty w :
  Reachable w -> bound_ids_nonempty (orchestrator_agent w).
Proof.
  induction 1 as [w Hstart | w w' _ IH Hstep].
  - rewrite Hstart. intros sid pid Hb. cbn in Hb. by rewrite lookup_empty in Hb.
  - destruct Hstep as [ops request patient er hex8 w
                      | request patient oid post w
                      | request w].
    + destruct (handle_order_world ops request patient er hex8 w)
        as [[_ ->] | (preview & _ & _ & ->)]; [done|].
      intros sid pid. cbn [orchestrator_agent with_orchestrator
                            Orchestrator.session_contexts].
      rewrite lookup_insert. case_decide.
      * intros [= <-]. apply generated_id_nonempty.
      * apply IH.
    + destruct (handle_confirmation_world request patient oid post w)
        as [(_ & ->)
           | (pid0 & preview & _
              & [(e & _ & ->) | (reply & order & _ & _ & ->)])]; [done| |].
      * intros sid pid. cbn [Orchestrator.session_contexts]. apply IH.
      * intros sid pid. cbn [Orchestrator.session_contexts].
        rewrite lookup_delete. case_decide; [discriminate|]. apply IH.
    + intros sid pid. unfold OrchestratorAgent._handle_order_cancellation.
      cbn [snd orchestrator_agent with_orchestrator
           Orchestrator.session_contexts].
      rewrite lookup_delete. case_decide; [discriminate|]. apply IH.
Qed.

(** C3: in every world reached by order, confirm and cancel handler
    invocations, every session has at most one live preview, and the
    session of a request has none exactly when the confirm handler finds
    no pending preview for it.  An order handler that returns a preview
    leaves exactly that preview live.  A confirm with a pending preview
    whose quantities are all int64 succeeds (the reply carries the
    order); a confirm that succeeded has removed the binding it found and
    the preview record it named; a confirm that returns leaves the session
    without a live preview, and one that raises leaves its live preview
    in place.  Cancel removes the binding and, whenever there was one,
    the preview record it named, and leaves the session without a live
    preview. *)
Theorem at_most_one_live_preview w request :
  Reachable w ->
  let session_id := OrchestratorAgent.session_key request in
  let o := orchestrator_agent w in
  (forall session, (length (live_previews session o) <= 1)%nat)
  /\ (live_previews session_id o = []
      <-> OrchestratorAgent.pending_preview request o = None)
  /\ (forall ops patient extraction_result hex8 preview,
        let out := OrchestratorAgent._handle_order ops request patient
                     extraction_result hex8 w in
        returned_preview (fst out) = Some preview ->
        live_previews session_id (orchestrator_agent (snd out))
        = [OrderPreview.preview_id preview])
  /\ (forall patient order_id post,
        let out := OrchestratorAgent._handle_order_confirmation request
                     patient order_id post w in
        let o' := orchestrator_agent (snd out) in
        (forall preview_id preview,
           OrchestratorAgent.pending_preview request o
           = Some (preview_id, preview) ->
           Forall (fun item => in_int64 (OrderItem.quantity item) = true)
                  (OrderPreview.items preview) ->
           is_Some (returned_order (fst out)))
        /\ (is_Some (returned_order (fst out)) ->
            exists preview_id,
              Orchestrator.session_contexts o !! session_id = Some preview_id
              /\ is_Some (Orchestrator.pending_previews o !! preview_id)
              /\ Orchestrator.session_contexts o' !! session_id = None
              /\ Orchestrator.pending_previews o' !! preview_id = None)
        /\ (forall reply,
              fst out = Returns reply -> live_previews session_id o' = [])
        /\ (forall e,
              fst out = Raises e ->
              live_previews session_id o' = live_previews session_id o
              /\ live_previews session_id o <> []))
  /\ (let o' :=
        orchestrator_agent
          (snd (OrchestratorAgent._handle_order_cancellation request w)) in
      live_previews session_id o' = []
      /\ Orchestrator.session_contexts o' !! session_id = None
      /\ (forall preview_id,
            Orchestrator.session_contexts o !! session_id = Some preview_id ->
            Orchestrator.pending_previews o' !! preview_id = None)).
Proof.
  intros Hreach session_id o.
  pose proof (reachable_bound_ids_nonempty w Hreach) as Hinv.
  subst session_id o.
  split; [intros session; apply live_previews_at_most_one|].
  split; [|split; [|split]].
  - split; [|by apply pending_preview_None].
    intros Hnone.
    destruct (OrchestratorAgent.pending_preview request (orchestrator_agent w))
      as [[pid preview]|] eqn:Hpending; [|done].
    apply pending_preview_Some in Hpending as [Hb Hp].
    rewrite (live_previews_bound _ pid) in Hnone by eauto. discriminate.
  - intros ops patient er hex8 preview out Hreturned.
    destruct (handle_order_world ops request patient er hex8 w)
      as [[Hnone _] | (preview' & Hsome & Hid & Hw)];
      fold out in Hnone || fold out in Hsome, Hw; [congruence|].
    assert (preview' = preview) as -> by congruence.
    rewrite Hw, Hid. apply live_previews_bound.
    + cbn [orchestrator_agent with_orchestrator Orchestrator.session_contexts].
      apply lookup_insert_eq.
    + cbn [orchestrator_agent with_orchestrator Orchestrator.pending_previews].
      rewrite lookup_insert_eq. eauto.
  - intros patient order_id post out o'.
    split.
    { intros pid preview Hpending Hall.
      destruct (handle_confirmation_returns request patient order_id post w
                  _ _ Hpending Hall) as (reply & order & Hreply & Horder).
      subst out. rewrite Hreply. cbn [returned_order]. rewrite Horder. eauto. }
    destruct (handle_confirmation_world request patient order_id post w)
      as [(Hnone & Hout)
         | (pid & preview & Hsome
            & [(e & Hraises & Ho') | (reply & order & Hreply & _ & Ho')])];
      fold out in Hout || (fold out in Hraises, Ho') || fold out in Hreply, Ho'.
    + rewrite Hout. cbn [fst snd returned_order ChatResponse.text
                         ChatResponse.order].
      split; [by intros [? ?]|]. split; [|done].
      intros _ _. subst o'. rewrite Hout. by apply pending_preview_None.
    + apply pending_preview_Some in Hsome as [Hb Hp].
      rewrite Hraises. cbn [returned_order].
      split; [by intros [? ?]|]. split; [done|].
      intros _ _. rewrite (live_previews_bound _ pid _ Hb) by eauto.
      split; [|done]. subst o'. rewrite Ho'. apply live_previews_bound.
      * exact Hb.
      * cbn [Orchestrator.pending_previews]. rewrite lookup_insert_eq. eauto.
    + apply pending_preview_Some in Hsome as [Hb Hp].
      assert (live_previews (OrchestratorAgent.session_key request) o' = [])
        as Hlive.
      { subst o'. rewrite Ho'. apply live_previews_unbound.
        cbn [Orchestrator.session_contexts]. apply lookup_delete_eq. }
      split; [|split; [done | by rewrite Hreply]].
      intros _. exists pid. subst o'. rewrite Ho'.
      cbn [Orchestrator.session_contexts Orchestrator.pending_previews].
      rewrite Hb, Hp, !lookup_delete_eq. eauto.
  - unfold OrchestratorAgent._handle_order_cancellation.
    cbn [snd orchestrator_agent with_orchestrator].
    split; [|split].
    + apply live_previews_unbound.
      cbn [Orchestrator.session_contexts]. apply lookup_delete_eq.
    + cbn [Orchestrator.session_contexts]. apply lookup_delete_eq.
    + intros pid Hb. cbn [Orchestrator.pending_previews].
      rewrite Hb, (Hinv _ _ Hb). cbn [andb].
      destruct (Orchestrator.pending_previews (orchestrator_agent w) !! pid)
        as [v|] eqn:Hp.
      * rewrite bool_decide_eq_true_2 by eauto. apply lookup_delete_eq.
      * rewrite bool_decide_eq_false_2 by (intros [? ?]; done). exact Hp.
Qed.

Lemma at_most_one_live_preview_witness :
  live_previews "session-1" (orchestrator_agent world_with_preview)
  = ["PRV-1A2B3C4D"]
  /\ is_Some
       (returned_order
          (fst (OrchestratorAgent._handle_order_confirmation sample_request
                  sample_patient "ORD-20240101-ABC123" (Response 200)
                  world_with_preview)))
  /\ live_previews "session-1"
       (orchestrator_agent
          (snd (OrchestratorAgent._handle_order_confirmation sample_request
                  sample_patient "ORD-20240101-ABC123" (Response 200)
                  world_with_preview))) = []
  /\ live_previews "session-1"
       (orchestrator_agent
          (snd (OrchestratorAgent._handle_order_cancellation sample_request
                  world_with_preview))) = [].
Proof.
  assert (Reachable world_with_preview) as Hreach.
  { eapply reach_step.
    - apply (reach_start sample_world). reflexivity.
    - apply step_order. }
  destruct (at_most_one_live_preview world_with_preview sample_request Hreach)
    as (_ & _ & _ & Hconfirm & Hcancel).
  destruct (Hconfirm sample_patient "ORD-20240101-ABC123" (Response 200))
    as (Hsucceeds & _ & Hreturns & _).
  assert (is_Some
            (returned_order
               (fst (OrchestratorAgent._handle_order_confirmation
                       sample_request sample_patient "ORD-20240101-ABC123"
                       (Response 200) world_with_preview)))) as Horder.
  { destruct (OrchestratorAgent.pending_preview sample_request
                (orchestrator_agent world_with_preview))
      as [[pid preview]|] eqn:Hpending; [|vm_compute in Hpending; discriminate].
    apply (Hsucceeds pid preview); [reflexivity|].
    vm_compute in Hpending. injection Hpending as <- <-.
    repeat constructor. }
  split; [vm_compute; reflexivity|]. split; [exact Horder|].
  split; [|exact (proj1 Hcancel)].
  destruct (fst (OrchestratorAgent._handle_order_confirmation sample_request
                   sample_patient "ORD-20240101-ABC123" (Response 200)
                   world_with_preview)) as [reply|e] eqn:Hfst.
  - exact (Hreturns reply eq_refl).
  - destruct Horder as [order Horder]. discriminate.
Defined.
(** * Further properties of the code *)

(** ** The safety evaluator: prescription flag and the origin of a cap *)

Lemma check_all_cap_independent entities meds i acc acc' :
  SafetyAgent.allowed_quantity acc = SafetyAgent.allowed_quantity acc' ->
  SafetyAgent.allowed_quantity (SafetyAgent.check_all true entities i meds acc)
  = SafetyAgent.allowed_quantity
      (SafetyAgent.check_all false entities i meds acc').
Proof.
  revert i acc acc'; induction meds as [|m meds IH]; intros i acc acc' Hq;
    simpl; [done|].
  apply IH.
  destruct (check_medicine_fields true (entities !! i) m acc)
    as (_ & _ & _ & ->).
  destruct (check_medicine_fields false (entities !! i) m acc')
    as (_ & _ & _ & ->).
  by rewrite Hq.
Qed.

(** Holding a prescription changes nothing but the decision, and never
    makes the decision stricter: the blocked items, the cap and the two
    requirement flags are the same with and without it, and the only
    decision that changes is a CONDITIONAL that becomes APPROVE, which
    needs a prescription-only item among the matched ones. *)
Theorem prescription_never_hurts entities meds :
  let held := SafetyAgent.evaluate entities meds true in
  let absent := SafetyAgent.evaluate entities meds false in
  SafetyCheckResult.blocked_items held = SafetyCheckResult.blocked_items absent
  /\ SafetyCheckResult.allowed_quantity held
     = SafetyCheckResult.allowed_quantity absent
  /\ SafetyCheckResult.requires_followup held
     = SafetyCheckResult.requires_followup absent
  /\ SafetyCheckResult.requires_prescription held
     = SafetyCheckResult.requires_prescription absent
  /\ (strictness (SafetyCheckResult.decision held)
      <= strictness (SafetyCheckResult.decision absent))%nat
  /\ (SafetyCheckResult.decision held <> SafetyCheckResult.decision absent ->
      SafetyCheckResult.decision absent = CONDITIONAL
      /\ SafetyCheckResult.decision held = APPROVE
      /\ SafetyCheckResult.requires_prescription absent = true).
Proof.
  intros held absent.
  assert (Hb : SafetyCheckResult.blocked_items held
               = SafetyCheckResult.blocked_items absent).
  { unfold held, absent. by rewrite !evaluate_blocked_items. }
  assert (Hq : SafetyCheckResult.allowed_quantity held
               = SafetyCheckResult.allowed_quantity absent).
  { unfold held, absent. rewrite !evaluate_allowed_quantity.
    by apply check_all_cap_independent. }
  assert (Hf : SafetyCheckResult.requires_followup held
               = SafetyCheckResult.requires_followup absent).
  { unfold held, absent, SafetyAgent.evaluate.
    cbn [SafetyCheckResult.requires_followup].
    by rewrite !check_all_requires_followup. }
  assert (Hp : SafetyCheckResult.requires_prescription held
               = SafetyCheckResult.requires_prescription absent).
  { unfold held, absent, SafetyAgent.evaluate.
    cbn [SafetyCheckResult.requires_prescription].
    by rewrite !check_all_requires_prescription. }
  do 4 (split; [done|]).
  destruct meds as [|m0 meds'].
  { split; [vm_compute; lia | intros H; by vm_compute in H]. }
  pose proof (evaluate_decision entities (m0 :: meds') true ltac:(done)) as Hd1.
  pose proof (evaluate_decision entities (m0 :: meds') false ltac:(done)) as Hd2.
  cbv zeta in Hd1, Hd2. fold held in Hd1. fold absent in Hd2.
  rewrite Hb, Hq, Hf, Hp in Hd1. rewrite Hd1, Hd2.
  destruct (_ =? _)%nat; [split; [lia|done]|].
  destruct (negb _); cbn [orb negb andb]; [split; [lia|done]|].
  rewrite andb_false_r, andb_true_r. cbn [orb].
  destruct (SafetyCheckResult.requires_prescription absent),
    (SafetyCheckResult.requires_followup absent),
    (truthy_opt_int (SafetyCheckResult.allowed_quantity absent));
    cbn; split; try lia; try done.
Qed.

Lemma check_all_cap_origin hp entities meds i acc q :
  SafetyAgent.allowed_quantity (SafetyAgent.check_all hp entities i meds acc)
  = Some q ->
  SafetyAgent.allowed_quantity acc = Some q
  \/ exists j m,
       meds !! j = Some m /\ is_blocked m = false
       /\ ((stock_shortfall (entities !! (i + j)%nat) m = true
            /\ q = Z.min (Medicine.stock_level m)
                         (Medicine.max_quantity_per_order m))
           \/ (over_max (entities !! (i + j)%nat) m = true
               /\ q = Medicine.max_quantity_per_order m)).
Proof.
  revert i acc; induction meds as [|m meds IH]; intros i acc Hq; simpl in Hq.
  - by left.
  - destruct (IH _ _ Hq) as [Hstep | (j & m' & Hj & Hnb & Hor)].
    + destruct (check_medicine_fields hp (entities !! i) m acc)
        as (_ & _ & _ & Hcap).
      rewrite Hcap in Hstep. clear Hcap.
      destruct (is_blocked m) eqn:Hblocked; [by left|].
      assert (Hhere : forall P : Prop,
                (stock_shortfall (entities !! i) m = true
                 /\ q = Z.min (Medicine.stock_level m)
                              (Medicine.max_quantity_per_order m))
                \/ (over_max (entities !! i) m = true
                    /\ q = Medicine.max_quantity_per_order m) ->
                P \/ exists j m0,
                       (m :: meds) !! j = Some m0 /\ is_blocked m0 = false
                       /\ ((stock_shortfall (entities !! (i + j)%nat) m0 = true
                            /\ q = Z.min (Medicine.stock_level m0)
                                         (Medicine.max_quantity_per_order m0))
                           \/ (over_max (entities !! (i + j)%nat) m0 = true
                               /\ q = Medicine.max_quantity_per_order m0))).
      { intros P Hor. right. exists O, m. rewrite Nat.add_0_r. done. }
      unfold stock_shortfall, over_max in Hhere. rewrite Hblocked in Hhere.
      cbn [negb andb] in Hhere.
      destruct (Medicine.max_quantity_per_order m
                <? SafetyAgent.requested_qty (entities !! i)) eqn:Hmax;
        destruct (Medicine.stock_level m
                  <? SafetyAgent.requested_qty (entities !! i)) eqn:Hstock.
      * destruct (truthy_opt_int _); injection Hstep as <-;
          apply Hhere; eauto.
      * destruct (truthy_opt_int (SafetyAgent.allowed_quantity acc)) eqn:Ht;
          [by left|].
        injection Hstep as <-. apply Hhere; eauto.
      * injection Hstep as <-. apply Hhere; eauto.
      * by left.
    + right. exists (S j), m'.
      replace (i + S j)%nat with (S i + j)%nat by lia. eauto.
Qed.

(** A returned cap always comes from one matched item that is not
    blocked: it is that item's [min(stock, max)] (its stock being below
    the requested quantity) or its per-order maximum (the request being
    above it), and in both cases it does not exceed that item's per-order
    maximum. *)
Theorem cap_comes_from_an_item entities meds hp q :
  SafetyCheckResult.allowed_quantity (SafetyAgent.evaluate entities meds hp)
  = Some q ->
  exists i m,
    meds !! i = Some m /\ is_blocked m = false
    /\ ((stock_shortfall (entities !! i) m = true
         /\ q = Z.min (Medicine.stock_level m)
                      (Medicine.max_quantity_per_order m))
        \/ (over_max (entities !! i) m = true
            /\ q = Medicine.max_quantity_per_order m))
    /\ q <= Medicine.max_quantity_per_order m.
Proof.
  rewrite evaluate_allowed_quantity. unfold pass. intros Hq.
  destruct (check_all_cap_origin _ _ _ _ _ _ Hq)
    as [Hinit | (j & m & Hj & Hnb & Hor)]; [discriminate|].
  exists j, m. simpl in Hor. repeat split; try done.
  destruct Hor as [[_ ->] | [_ ->]]; lia.
Qed.

Lemma cap_comes_from_an_item_witness :
  exists i m,
    sample_catalog !! i = Some m /\ is_blocked m = false
    /\ 5 <= Medicine.max_quantity_per_order m.
Proof.
  destruct (cap_comes_from_an_item
              [sample_entity "Paracetamol" 10; sample_entity "Ibuprofen" 0]
              sample_catalog false 5 eq_refl)
    as (i & m & Hi & Hnb & _ & Hle).
  exists i, m. done.
Defined.

(** ** Orders as the fulfillment agent creates them *)

Lemma price_of_nonzero name :
  Float64.feqb (price_of name) (Float64.of_Z 0) = false.
Proof.
  unfold price_of, price_map.
  repeat match goal with
         | |- context [if ?b then _ else _] => destruct b; [reflexivity|]
         end.
  reflexivity.
Qed.

Lemma fill_price_nonzero item :
  Float64.feqb (OrderItem.unit_price (FulfillmentAgent.fill_price item))
               (Float64.of_Z 0) = false.
Proof.
  unfold FulfillmentAgent.fill_price.
  destruct (Float64.feqb (OrderItem.unit_price item) (Float64.of_Z 0)) eqn:H.
  - apply price_of_nonzero.
  - exact H.
Qed.

(* What create_order returns and stores, and when it raises. *)
Lemma create_order_effects order_id patient_id patient_name email phone
    items fa :
  let out :=
    FulfillmentAgent.create_order order_id patient_id patient_name email phone
      items fa in
  (Forall (fun item => Float64.converts (OrderItem.quantity item) = true) items
   <-> exists order, fst out = Returns order)
  /\ (forall order,
        fst out = Returns order ->
        Order.status order = PENDING
        /\ Order.order_id order = order_id
        /\ FulfillmentAgent.get_order order_id (snd out) = Some order
        /\ FulfillmentAgent.get_order_history order_id (snd out)
           = [OrderStatusUpdate.mk order_id PENDING
                ("Order created for " +:+ patient_name)]
        /\ FulfillmentAgent.get_events order_id (snd out)
           = FulfillmentAgent.get_events order_id fa
             ++ [AgentEvent.mk "Conversational Ordering Agent"
                   "Order Requested" "Order initiated via conversation"
                   "completed"]
        /\ map OrderItem.quantity (Order.items order)
           = map OrderItem.quantity items
        /\ Forall (fun item =>
                     Float64.feqb (OrderItem.unit_price item) (Float64.of_Z 0)
                     = false)
                  (Order.items order)
        /\ Forall2 (fun given stored =>
                      Float64.feqb (OrderItem.unit_price given)
                                   (Float64.of_Z 0)
                      = false -> stored = given)
                   items (Order.items order)
        /\ exists total,
             items_total (Order.items order) = Returns total
             /\ Order.total_amount order = Float64.round2 total)
  /\ (forall e,
        fst out = Raises e ->
        e = "OverflowError: int too large to convert to float"
        /\ snd out = fa
        /\ Exists (fun item =>
                     Float64.converts (OrderItem.quantity item) = false)
                  items).
Proof.
  intros out. subst out. unfold FulfillmentAgent.create_order. cbv zeta.
  pose proof (items_total_from_returns (S754_zero false)
                (map FulfillmentAgent.fill_price items)) as Hreturns.
  fold (items_total (map FulfillmentAgent.fill_price items)) in Hreturns.
  assert (Forall (fun item =>
                    Float64.converts (OrderItem.quantity item) = true)
                 (map FulfillmentAgent.fill_price items)
          <-> Forall (fun item =>
                        Float64.converts (OrderItem.quantity item) = true)
                     items) as Hfilled.
  { rewrite Forall_map. apply Forall_proper; [|done].
    intros item. cbn. by rewrite fill_price_quantity. }
  destruct (items_total (map FulfillmentAgent.fill_price items))
    as [total|e] eqn:Htotal; cbn [fst snd].
  - split; [|split; [|by intros e]].
    { split; [by eexists|]. intros _. apply Hfilled, Hreturns. by eexists. }
    intros order [= <-].
    unfold FulfillmentAgent.add_event, FulfillmentAgent.get_order,
      FulfillmentAgent.get_order_history, FulfillmentAgent.get_events.
    cbn [fst snd Order.status Order.order_id Order.items Order.total_amount
         FulfillmentAgent.orders FulfillmentAgent.order_history
         FulfillmentAgent.order_events].
    rewrite !lookup_insert_eq. cbn [default].
    split; [done|]. split; [done|]. split; [done|]. split; [done|].
    split; [done|]. split; [|split; [|split]].
    + rewrite map_map. apply map_ext. intros item.
      apply fill_price_quantity.
    + apply Forall_map, Forall_forall. intros item _. apply fill_price_nonzero.
    + apply Forall2_fmap_r, Forall2_same_length_lookup. split; [done|].
      intros i x y Hx Hy Hnz. rewrite Hx in Hy. injection Hy as <-.
      unfold FulfillmentAgent.fill_price. by rewrite Hnz.
    + by exists total.
  - split; [|split; [by intros order|]].
    { split; [|by intros [order ?]].
      intros Hall. apply Hfilled, Hreturns in Hall as [total ?]. congruence. }
    intros e' [= <-].
    destruct (items_total_from_raises _ _ _ Htotal) as [Hex ->].
    split; [done|]. split; [done|].
    apply Exists_exists in Hex as (filled & Hin & Hq).
    apply list_elem_of_fmap in Hin as (item & -> & Hin).
    rewrite fill_price_quantity in Hq.
    apply Exists_exists. eauto.
Qed.

(** [create_order] returns exactly when every quantity converts to a
    float.  When it returns, it has stored a PENDING order under its id,
    restarted the status history of that id with the PENDING entry and
    appended the 'Order Requested' event to the timeline of that id; the
    order keeps the quantities it was given, no item of it has a unit price
    equal to 0, an item that came with a non-zero price keeps it, and the
    total is the rounded sum over the stored items.  When it raises, the
    error is the [OverflowError] of the int-to-float conversion of a
    quantity, and nothing was stored. *)
Theorem create_order_stores_pending order_id patient_id patient_name email phone
    items fa :
  let out :=
    FulfillmentAgent.create_order order_id patient_id patient_name email phone
      items fa in
  (Forall (fun item => Float64.converts (OrderItem.quantity item) = true) items
   <-> exists order, fst out = Returns order)
  /\ (forall order,
        fst out = Returns order ->
        Order.status order = PENDING
        /\ Order.order_id order = order_id
        /\ FulfillmentAgent.get_order order_id (snd out) = Some order
        /\ FulfillmentAgent.get_order_history order_id (snd out)
           = [OrderStatusUpdate.mk order_id PENDING
                ("Order created for " +:+ patient_name)]
        /\ FulfillmentAgent.get_events order_id (snd out)
           = FulfillmentAgent.get_events order_id fa
             ++ [AgentEvent.mk "Conversational Ordering Agent"
                   "Order Requested" "Order initiated via conversation"
                   "completed"]
        /\ map OrderItem.quantity (Order.items order)
           = map OrderItem.quantity items
        /\ Forall (fun item =>
                     Float64.feqb (OrderItem.unit_price item) (Float64.of_Z 0)
                     = false)
                  (Order.items order)
        /\ Forall2 (fun given stored =>
                      Float64.feqb (OrderItem.unit_price given)
                                   (Float64.of_Z 0)
                      = false -> stored = given)
                   items (Order.items order)
        /\ exists total,
             items_total (Order.items order) = Returns total
             /\ Order.total_amount order = Float64.round2 total)
  /\ (forall e,
        fst out = Raises e ->
        e = "OverflowError: int too large to convert to float"
        /\ snd out = fa
        /\ Exists (fun item =>
                     Float64.converts (OrderItem.quantity item) = false)
                  items).
Proof.
  exact (create_order_effects order_id patient_id patient_name email phone
           items fa).
Qed.

Lemma string_length_app (a b : string) :
  String.length (a +:+ b) = (String.length a + String.length b)%nat.
Proof. induction a as [|c a IH]; simpl; [done|]. by rewrite IH. Qed.

Lemma string_app_assoc (a b c : string) :
  (a +:+ b) +:+ c = a +:+ (b +:+ c).
Proof.
  induction a as [|x a IH]; [done|].
  change ((String x a +:+ b) +:+ c) with (String x ((a +:+ b) +:+ c)).
  change (String x a +:+ (b +:+ c)) with (String x (a +:+ (b +:+ c))).
  by rewrite IH.
Qed.

Lemma substring_whole (s : string) :
  String.substring 0 (String.length s) s = s.
Proof. induction s as [|c s IH]; simpl; [done|]. by rewrite IH. Qed.

Lemma substring_skip (a b : string) n :
  String.substring (String.length a) n (a +:+ b) = String.substring 0 n b.
Proof. induction a as [|c a IH]; simpl; [done|]. exact IH. Qed.

Lemma last_chars_app (a b : string) :
  last_chars (String.length b) (a +:+ b) = b.
Proof.
  unfold last_chars. rewrite string_length_app.
  replace (String.length a + String.length b - String.length b)%nat
    with (String.length a) by lia.
  by rewrite substring_skip, substring_whole.
Qed.

(** The receipt of an order whose id was generated by [create_order] is
    produced whenever every quantity converts to a float, and the number
    of a produced receipt is [RCP-] followed by the six hex digits of
    that id. *)
Theorem receipt_number_of_generated_id order date hex6 :
  Order.order_id order = generated_order_id date hex6 ->
  String.length hex6 = 6%nat ->
  (Forall (fun item => Float64.converts (OrderItem.quantity item) = true)
          (Order.items order) ->
   exists receipt, FulfillmentAgent.generate_receipt order = Returns receipt)
  /\ (forall receipt,
        FulfillmentAgent.generate_receipt order = Returns receipt ->
        Receipt.receipt_number receipt = "RCP-" +:+ hex6).
Proof.
  intros Hid Hlen. unfold FulfillmentAgent.generate_receipt. cbv zeta. split.
  - intros Hall. destruct (receipt_lines_convert _ Hall) as [lines ->].
    by eexists.
  - intros receipt.
    destruct (FulfillmentAgent.receipt_lines _) as [lines|e]; [|discriminate].
    intros [= <-]. cbn [Receipt.receipt_number].
    rewrite Hid. unfold generated_order_id. f_equal.
    replace ("ORD-" +:+ date +:+ "-" +:+ hex6)
      with (("ORD-" +:+ date +:+ "-") +:+ hex6)
      by (by rewrite !string_app_assoc).
    rewrite <- Hlen. apply last_chars_app.
Qed.

Lemma receipt_number_of_generated_id_witness :
  exists receipt,
    FulfillmentAgent.generate_receipt cancelled_order = Returns receipt
    /\ Receipt.receipt_number receipt = "RCP-ABC123".
Proof.
  destruct (receipt_number_of_generated_id cancelled_order "20240101" "ABC123")
    as [Hproduced Hnumber]; [reflexivity | reflexivity |].
  destruct Hproduced as [receipt Hreceipt]; [repeat constructor|].
  exists receipt. split; [exact Hreceipt | exact (Hnumber receipt Hreceipt)].
Defined.
(** ** The confirmation pipeline *)

Lemma find_by_id_insert_ne (rows : list Medicine.t) medicine_id other i row v :
  list_find (fun r => Medicine.medicine_id r = other) rows = Some (i, row) ->
  medicine_id <> other ->
  list_find (fun r => Medicine.medicine_id r = medicine_id)
            (<[i := Medicine.with_stock_level v row]> rows)
  = list_find (fun r => Medicine.medicine_id r = medicine_id) rows.
Proof.
  intros Hfind Hne. revert i Hfind.
  induction rows as [|r rest IH]; intros i Hfind; [done|].
  cbn [list_find] in Hfind.
  destruct (decide (Medicine.medicine_id r = other)) as [Hr|Hr].
  - injection Hfind as <- <-. simpl.
    destruct r; simpl in *.
    rewrite !decide_False by congruence. done.
  - destruct (list_find _ rest) as [[j row']|] eqn:Hrest; [|done].
    simpl in Hfind. injection Hfind as <- <-.
    simpl. by rewrite (IH j eq_refl).
Qed.

(* An update of one id leaves the stock of every other id alone. *)
Lemma update_stock_other medicine_id other quantity_sold ds known ds' :
  DataService.update_stock other quantity_sold ds = Returns (known, ds') ->
  medicine_id <> other ->
  stock_of medicine_id ds' = stock_of medicine_id ds.
Proof.
  unfold DataService.update_stock, stock_of, DataService.get_medicine_by_id.
  destruct (DataService.medicines_df ds) as [rows|] eqn:Hdf;
    [|intros [= <- <-] _; by rewrite Hdf].
  destruct (list_find _ rows) as [[i row]|] eqn:Hfind;
    [|intros [= <- <-] _; by rewrite Hdf].
  cbv zeta. destruct (in_int64 quantity_sold); [|discriminate].
  intros [= <- <-] Hne. cbn [DataService.medicines_df].
  by rewrite (find_by_id_insert_ne _ _ _ _ _ _ Hfind Hne).
Qed.

Lemma update_stock_orders medicine_id quantity_sold ds known ds' :
  DataService.update_stock medicine_id quantity_sold ds = Returns (known, ds') ->
  DataService.orders_df ds' = DataService.orders_df ds.
Proof.
  unfold DataService.update_stock.
  destruct (DataService.medicines_df ds) as [rows|]; [|by intros [= <- <-]].
  destruct (list_find _ rows) as [[i row]|]; [|by intros [= <- <-]].
  cbv zeta. destruct (in_int64 quantity_sold); [|discriminate].
  by intros [= <- <-].
Qed.

Lemma update_stock_returned medicine_id quantity_sold ds old known ds' :
  stock_of medicine_id ds = Some old ->
  DataService.update_stock medicine_id quantity_sold ds = Returns (known, ds') ->
  known = true
  /\ stock_of medicine_id ds'
     = Some (Z.max 0 (wrap_int64 (old - quantity_sold))).
Proof.
  intros Hold Hstock. destruct (in_int64 quantity_sold) eqn:Hq.
  - destruct (update_stock_known _ _ _ _ Hold Hq) as (ds2 & H1 & H2 & _).
    rewrite H1 in Hstock. by injection Hstock as <- <-.
  - by rewrite (update_stock_overflow _ _ _ _ Hold Hq) in Hstock.
Qed.

Lemma update_inventory_orders items total_quantity ds :
  DataService.orders_df
    (snd (OrchestratorAgent.update_inventory items total_quantity ds))
  = DataService.orders_df ds.
Proof.
  revert total_quantity ds.
  induction items as [|item rest IH]; intros total_quantity ds; [done|].
  cbn [OrchestratorAgent.update_inventory].
  destruct (DataService.update_stock _ _ ds) as [[known ds1]|e] eqn:Hstock;
    [|done].
  rewrite IH. by eapply update_stock_orders.
Qed.

(* The stock updates of an order leave the ids that it does not sell
   alone, whether they all return or one raises. *)
Lemma update_inventory_other medicine_id items total_quantity ds :
  medicine_id ∉ map OrderItem.medicine_id items ->
  stock_of medicine_id
    (snd (OrchestratorAgent.update_inventory items total_quantity ds))
  = stock_of medicine_id ds.
Proof.
  revert total_quantity ds.
  induction items as [|item rest IH]; intros total_quantity ds Hnotin; [done|].
  cbn [map] in Hnotin. apply not_elem_of_cons in Hnotin as [Hne Hrest].
  cbn [OrchestratorAgent.update_inventory].
  destruct (DataService.update_stock _ _ ds) as [[known ds1]|e] eqn:Hstock;
    [|done].
  rewrite IH by done. by eapply update_stock_other.
Qed.

(* An id that the order sells once ends at the clamped difference. *)
Lemma update_inventory_sold_once item items total_quantity ds old quantity ds' :
  filter (fun i => OrderItem.medicine_id i = OrderItem.medicine_id item) items
  = [item] ->
  stock_of (OrderItem.medicine_id item) ds = Some old ->
  OrchestratorAgent.update_inventory items total_quantity ds
  = (Returns quantity, ds') ->
  stock_of (OrderItem.medicine_id item) ds'
  = Some (Z.max 0 (wrap_int64 (old - OrderItem.quantity item))).
Proof.
  revert total_quantity ds.
  induction items as [|first rest IH]; intros total_quantity ds Hfilter Hold;
    [discriminate|].
  cbn [OrchestratorAgent.update_inventory].
  destruct (DataService.update_stock _ _ ds) as [[known ds1]|e] eqn:Hstock;
    [|discriminate].
  intros Hrest.
  destruct (decide (OrderItem.medicine_id first = OrderItem.medicine_id item))
    as [Hid|Hid];
    [rewrite filter_cons_True in Hfilter by done
    |rewrite filter_cons_False in Hfilter by done].
  - injection Hfilter as -> Hnone.
    assert (OrderItem.medicine_id item ∉ map OrderItem.medicine_id rest)
      as Hnotin.
    { intros (i & Hi & Hin)%list_elem_of_fmap.
      assert (i ∈ filter (fun i => OrderItem.medicine_id i
                                   = OrderItem.medicine_id item) rest)
        as Hi' by (by apply list_elem_of_filter).
      rewrite Hnone in Hi'. by apply elem_of_nil in Hi'. }
    pose proof (update_inventory_other _ rest
                  (total_quantity + OrderItem.quantity item) ds1 Hnotin) as H.
    rewrite Hrest in H. cbn [snd] in H. rewrite H.
    by destruct (update_stock_returned _ _ _ _ _ _ Hold Hstock) as [_ ->].
  - eapply IH; [exact Hfilter | | exact Hrest].
    rewrite <- Hold. eapply update_stock_other; [exact Hstock | congruence].
Qed.

Lemma add_history_medicines order patient ds :
  DataService.medicines_df (OrchestratorAgent.add_history order patient ds)
  = DataService.medicines_df ds.
Proof.
  unfold OrchestratorAgent.add_history.
  generalize (Order.items order). intros items.
  revert ds; induction items as [|item items IH]; intros ds; simpl; [done|].
  by rewrite IH.
Qed.

Lemma add_history_stock medicine_id order patient ds :
  stock_of medicine_id (OrchestratorAgent.add_history order patient ds)
  = stock_of medicine_id ds.
Proof.
  unfold stock_of, DataService.get_medicine_by_id.
  by rewrite add_history_medicines.
Qed.

(* One row per item is appended to the order history. *)
Lemma add_history_orders order patient ds :
  default [] (DataService.orders_df
                (OrchestratorAgent.add_history order patient ds))
  = default [] (DataService.orders_df ds)
    ++ map (OrchestratorAgent.history_row order patient) (Order.items order).
Proof.
  unfold OrchestratorAgent.add_history.
  generalize (Order.items order). intros items.
  revert ds; induction items as [|item items IH]; intros ds;
    [by rewrite app_nil_r|].
  cbn [fold_left map]. rewrite IH. simpl.
  by rewrite <- app_assoc.
Qed.

(* What a confirmation that finds its preview does: it returns when every
   quantity is an int64; what it leaves when it returns, and when it
   raises. *)
Lemma handle_confirmation_effects request patient order_id post w preview_id
    preview :
  OrchestratorAgent.pending_preview request (orchestrator_agent w)
  = Some (preview_id, preview) ->
  let out :=
    OrchestratorAgent._handle_order_confirmation request patient order_id
      post w in
  let w' := snd out in
  let items :=
    map FulfillmentAgent.fill_price (OrderPreview.items preview) in
  (Forall (fun item => in_int64 (OrderItem.quantity item) = true)
          (OrderPreview.items preview) ->
   exists reply, fst out = Returns reply)
  /\ (forall reply,
        fst out = Returns reply ->
        exists order total,
          ChatResponse.order reply = Some order
          /\ FulfillmentAgent.get_order order_id (fulfillment_agent w')
             = Some order
          /\ Order.order_id order = order_id
          /\ Order.status order = PROCESSING
          /\ Order.items order = items
          /\ items_total items = Returns total
          /\ Order.total_amount order = Float64.round2 total
          /\ map OrderStatusUpdate.status
                 (FulfillmentAgent.get_order_history order_id
                    (fulfillment_agent w'))
             = [PENDING; VALIDATED; CONFIRMED; PROCESSING]
               ++ (if answered_200 post then [PROCESSING] else [])
          /\ map AgentEvent.action
                 (FulfillmentAgent.get_events order_id (fulfillment_agent w'))
             = map AgentEvent.action
                   (FulfillmentAgent.get_events order_id (fulfillment_agent w))
               ++ ["Order Requested";
                   validation_action (OrderPreview.safety_decision preview);
                   "AI Order Confirmed"; "Inventory Updated";
                   "Fulfillment Initiated"]
               ++ (if answered_200 post then ["Dispatched"] else [])
               ++ ["Notifications Sent"]
          /\ OrchestratorAgent.pending_preview request (orchestrator_agent w')
             = None
          /\ default [] (DataService.orders_df (data_service w'))
             = default [] (DataService.orders_df (data_service w))
               ++ map (OrchestratorAgent.history_row order patient) items
          /\ (forall medicine_id,
                medicine_id ∉ map OrderItem.medicine_id items ->
                stock_of medicine_id (data_service w')
                = stock_of medicine_id (data_service w))
          /\ (forall item old,
                filter (fun i => OrderItem.medicine_id i
                                 = OrderItem.medicine_id item) items
                = [item] ->
                stock_of (OrderItem.medicine_id item) (data_service w)
                = Some old ->
                stock_of (OrderItem.medicine_id item) (data_service w')
                = Some (Z.max 0 (wrap_int64 (old - OrderItem.quantity item)))))
  /\ (forall e,
        fst out = Raises e ->
        Exists (fun item => in_int64 (OrderItem.quantity item) = false)
               (OrderPreview.items preview)
        /\ OrchestratorAgent.pending_preview request (orchestrator_agent w')
           = Some (preview_id, OrderPreview.with_items items preview)
        /\ match items_total items with
           | Raises e' =>
               e = e'
               /\ fulfillment_agent w' = fulfillment_agent w
               /\ data_service w' = data_service w
           | Returns total =>
               FulfillmentAgent.get_order order_id (fulfillment_agent w')
               = Some (order_at CONFIRMED order_id patient items total)
               /\ map OrderStatusUpdate.status
                      (FulfillmentAgent.get_order_history order_id
                         (fulfillment_agent w'))
                  = [PENDING; VALIDATED; CONFIRMED]
           end).
Proof.
  intros Hpending out w' items.
  split.
  { intros Hall.
    destruct (handle_confirmation_returns request patient order_id post w _ _
                Hpending Hall) as (reply & order & Hreply & _).
    by exists reply. }
  pose proof (pending_preview_Some _ _ _ _ Hpending) as [Hbound Hstored].
  assert (forall o,
            Orchestrator.session_contexts o
            = Orchestrator.session_contexts (orchestrator_agent w) ->
            Orchestrator.pending_previews o
            = <[preview_id := OrderPreview.with_items items preview]>
                (Orchestrator.pending_previews (orchestrator_agent w)) ->
            OrchestratorAgent.pending_preview request o
            = Some (preview_id, OrderPreview.with_items items preview))
    as Hkept.
  { intros o Hs Hp. revert Hpending.
    unfold OrchestratorAgent.pending_preview. rewrite Hs, Hbound, Hp.
    destruct (truthy_str preview_id); [|discriminate].
    by rewrite lookup_insert_eq. }
  assert (forall item,
            Float64.converts (OrderItem.quantity item) = false ->
            in_int64 (OrderItem.quantity item) = false) as Hconv.
  { intros item Hitem.
    destruct (in_int64 (OrderItem.quantity item)) eqn:Hq; [|done].
    apply in_int64_converts in Hq. congruence. }
  assert (forall P : Z -> Prop,
            Exists (fun item => P (OrderItem.quantity item)) items ->
            Exists (fun item => P (OrderItem.quantity item))
                   (OrderPreview.items preview)) as Hback.
  { intros P (filled & Hin & Hq)%Exists_exists.
    apply list_elem_of_fmap in Hin as (item & -> & Hin).
    rewrite fill_price_quantity in Hq. apply Exists_exists. eauto. }
  destruct (handle_confirmation_cases request patient order_id post w _ _
              Hpending)
    as [(e & Htotal & Hout)
       | [(total & e & ds & Htotal & Hstock & Hfst & Ho & Hds & V & _)
         | (total & quantity & ds & receipt & Htotal & Hstock & _ & Hreply
            & Ho & Hds & V & _)]];
    fold out items in Hout || (fold out items in Hfst, Ho, Hds, V)
    || fold out items in Hreply, Ho, Hds, V;
    fold items in Htotal; try fold items in Hstock.
  - rewrite Hout. cbn [fst]. split; [by intros reply|].
    intros e' [= <-]. rewrite Htotal.
    split.
    { apply (Hback (fun q => in_int64 q = false)).
      destruct (items_total_from_raises _ _ _ Htotal) as [Hex _].
      eapply Exists_impl; [exact Hex | exact Hconv]. }
    subst w'. rewrite Hout. cbn [snd orchestrator_agent fulfillment_agent
                                  data_service].
    split; [by apply Hkept | done].
  - rewrite Hfst. split; [by intros reply|].
    intros e' [= <-]. rewrite Htotal.
    split.
    { apply (Hback (fun q => in_int64 q = false)).
      by eapply update_inventory_raises. }
    subst w'. split; [apply Hkept; by rewrite Ho|].
    unfold order_view in V. injection V as -> -> _. done.
  - rewrite Hreply. split; [|by intros e].
    intros reply [= <-].
    exists (order_at PROCESSING order_id patient items total), total.
    cbn [ChatResponse.order]. subst w'.
    unfold order_view in V. injection V as -> -> ->.
    split; [done|]. split; [done|]. split; [done|]. split; [done|].
    split; [done|]. split; [done|]. split; [done|].
    split; [by destruct (answered_200 post)|].
    split.
    { rewrite !map_app. cbn [map]. rewrite validation_event_action.
      destruct (answered_200 post); cbn [map app];
        by rewrite <- ?app_assoc. }
    split.
    { unfold OrchestratorAgent.pending_preview. rewrite Ho.
      cbn [Orchestrator.session_contexts]. by rewrite lookup_delete_eq. }
    rewrite Hds.
    pose proof (update_inventory_orders items 0 (data_service w)) as Horders.
    rewrite Hstock in Horders. cbn [snd] in Horders.
    split; [by rewrite add_history_orders, Horders|].
    split.
    + intros medicine_id Hnotin. rewrite add_history_stock.
      pose proof (update_inventory_other _ _ 0 (data_service w) Hnotin) as H.
      by rewrite Hstock in H.
    + intros item old Hfilter Hold. rewrite add_history_stock.
      by eapply update_inventory_sold_once.
Qed.

(** A confirmation that finds a pending preview returns whenever every
    quantity of the preview is an int64.  When it returns, it has run the
    whole pipeline: the reply carries the created order, stored under its
    id with status PROCESSING and the preview's items (a price still equal
    to 0 filled in) and their rounded total; the status history of that id
    reads PENDING, VALIDATED, CONFIRMED, PROCESSING, with one more
    PROCESSING when the warehouse answered 200; the timeline of that id
    grows, in this order, by the request, the safety validation, the
    confirmation, the inventory update, the fulfillment start, the
    dispatch (on 200 only) and the notification; the session has no
    pending preview left; one history row per item is appended; the stock
    of an id that the order does not sell is unchanged, and the stock of
    an id that it sells once is the old level minus the quantity, as an
    int64, and not below 0.  When it raises, some quantity is no int64
    and the preview stays pending, with the prices filled in: either the
    total could not be computed and nothing else changed, or the order is
    left stored as CONFIRMED. *)
Theorem confirmation_pipeline request patient order_id post w preview_id
    preview :
  OrchestratorAgent.pending_preview request (orchestrator_agent w)
  = Some (preview_id, preview) ->
  let out :=
    OrchestratorAgent._handle_order_confirmation request patient order_id
      post w in
  let w' := snd out in
  let items :=
    map FulfillmentAgent.fill_price (OrderPreview.items preview) in
  (Forall (fun item => in_int64 (OrderItem.quantity item) = true)
          (OrderPreview.items preview) ->
   exists reply, fst out = Returns reply)
  /\ (forall reply,
        fst out = Returns reply ->
        exists order total,
          ChatResponse.order reply = Some order
          /\ FulfillmentAgent.get_order order_id (fulfillment_agent w')
             = Some order
          /\ Order.order_id order = order_id
          /\ Order.status order = PROCESSING
          /\ Order.items order = items
          /\ items_total items = Returns total
          /\ Order.total_amount order = Float64.round2 total
          /\ map OrderStatusUpdate.status
                 (FulfillmentAgent.get_order_history order_id
                    (fulfillment_agent w'))
             = [PENDING; VALIDATED; CONFIRMED; PROCESSING]
               ++ (if answered_200 post then [PROCESSING] else [])
          /\ map AgentEvent.action
                 (FulfillmentAgent.get_events order_id (fulfillment_agent w'))
             = map AgentEvent.action
                   (FulfillmentAgent.get_events order_id (fulfillment_agent w))
               ++ ["Order Requested";
                   validation_action (OrderPreview.safety_decision preview);
                   "AI Order Confirmed"; "Inventory Updated";
                   "Fulfillment Initiated"]
               ++ (if answered_200 post then ["Dispatched"] else [])
               ++ ["Notifications Sent"]
          /\ OrchestratorAgent.pending_preview request (orchestrator_agent w')
             = None
          /\ default [] (DataService.orders_df (data_service w'))
             = default [] (DataService.orders_df (data_service w))
               ++ map (OrchestratorAgent.history_row order patient) items
          /\ (forall medicine_id,
                medicine_id ∉ map OrderItem.medicine_id items ->
                stock_of medicine_id (data_service w')
                = stock_of medicine_id (data_service w))
          /\ (forall item old,
                filter (fun i => OrderItem.medicine_id i
                                 = OrderItem.medicine_id item) items
                = [item] ->
                stock_of (OrderItem.medicine_id item) (data_service w)
                = Some old ->
                stock_of (OrderItem.medicine_id item) (data_service w')
                = Some (Z.max 0 (wrap_int64 (old - OrderItem.quantity item)))))
  /\ (forall e,
        fst out = Raises e ->
        Exists (fun item => in_int64 (OrderItem.quantity item) = false)
               (OrderPreview.items preview)
        /\ OrchestratorAgent.pending_preview request (orchestrator_agent w')
           = Some (preview_id, OrderPreview.with_items items preview)
        /\ match items_total items with
           | Raises e' =>
               e = e'
               /\ fulfillment_agent w' = fulfillment_agent w
               /\ data_service w' = data_service w
           | Returns total =>
               FulfillmentAgent.get_order order_id (fulfillment_agent w')
               = Some (order_at CONFIRMED order_id patient items total)
               /\ map OrderStatusUpdate.status
                      (FulfillmentAgent.get_order_history order_id
                         (fulfillment_agent w'))
                  = [PENDING; VALIDATED; CONFIRMED]
           end).
Proof.
  exact (handle_confirmation_effects request patient order_id post w
           preview_id preview).
Qed.

Lemma confirmation_pipeline_witness :
  exists reply order,
    fst (OrchestratorAgent._handle_order_confirmation sample_request
           sample_patient "ORD-20240102-0F0F0F" (Response 200)
           world_with_preview)
    = Returns reply
    /\ ChatResponse.order reply = Some order
    /\ Order.status order = PROCESSING
    /\ map OrderStatusUpdate.status
           (FulfillmentAgent.get_order_history "ORD-20240102-0F0F0F"
              (fulfillment_agent
                 (snd (OrchestratorAgent._handle_order_confirmation
                         sample_request sample_patient "ORD-20240102-0F0F0F"
                         (Response 200) world_with_preview))))
       = [PENDING; VALIDATED; CONFIRMED; PROCESSING; PROCESSING]
    /\ stock_of "MED002"
         (data_service
            (snd (OrchestratorAgent._handle_order_confirmation
                    sample_request sample_patient "ORD-20240102-0F0F0F"
                    (Response 200) world_with_preview)))
       = Some 0.
Proof.
  destruct (OrchestratorAgent.pending_preview sample_request
              (orchestrator_agent world_with_preview))
    as [[preview_id preview]|] eqn:Hpending;
    [|vm_compute in Hpending; discriminate].
  destruct (confirmation_pipeline sample_request sample_patient
              "ORD-20240102-0F0F0F" (Response 200) world_with_preview
              preview_id preview Hpending) as (Hreturns & Heffects & _).
  vm_compute in Hpending. injection Hpending as <- <-.
  destruct Hreturns as [reply Hreply]; [repeat constructor|].
  destruct (Heffects reply Hreply)
    as (order & total & Horder & _ & _ & Hstatus & _ & _ & _ & Hhistory & _
        & _ & _ & _ & Hsold).
  exists reply, order. split; [exact Hreply|]. split; [exact Horder|].
  split; [exact Hstatus|]. split; [exact Hhistory|].
  refine (Hsold (OrderItem.mk "MED002" "Ibuprofen" "200mg" 5
                   (Float64.dec 20 100) false) 5 _ _);
    vm_compute; reflexivity.
Defined.
(** ** What the order handler does to the world *)

(* The world and the reply of the order handler. *)
Lemma handle_order_effects ops request patient extraction_result hex8 w :
  let out := OrchestratorAgent._handle_order ops request patient
               extraction_result hex8 w in
  let o := orchestrator_agent w in
  let o' := orchestrator_agent (snd out) in
  fulfillment_agent (snd out) = fulfillment_agent w
  /\ data_service (snd out) = data_service w
  /\ match returned_preview (fst out) with
     | None =>
         snd out = w
         /\ (forall reply,
               fst out = Returns reply ->
               ChatResponse.requires_confirmation reply = false)
     | Some preview =>
         (exists reply,
            fst out = Returns reply
            /\ ChatResponse.requires_confirmation reply = true)
         /\ OrderPreview.preview_id preview = "PRV-" +:+ hex8
         /\ OrderPreview.safety_decision preview <> REJECT
         /\ OrchestratorAgent.pending_preview request o'
            = Some (OrderPreview.preview_id preview, preview)
         /\ (forall session_id,
               session_id <> OrchestratorAgent.session_key request ->
               Orchestrator.session_contexts o' !! session_id
               = Orchestrator.session_contexts o !! session_id)
         /\ (forall preview_id,
               preview_id <> OrderPreview.preview_id preview ->
               Orchestrator.pending_previews o' !! preview_id
               = Orchestrator.pending_previews o !! preview_id)
     end.
Proof.
  intros out o o'. subst o o'.
  destruct (handle_order_cases ops request patient extraction_result hex8 w)
    as [(Hnone & Hw & Hrc)
       | (reply & preview & matched & subtotal & Hreply & Hsome & Hrc & _ & _
          & Hpid & _ & Hdec & _ & _ & _ & Hw)];
    fold out in Hnone, Hw, Hrc || fold out in Hreply, Hw.
  - rewrite Hnone, Hw. done.
  - rewrite Hreply, Hw. cbn [returned_preview]. rewrite Hsome.
    cbn [fulfillment_agent data_service with_orchestrator orchestrator_agent].
    do 2 (split; [done|]). split; [by exists reply|].
    split; [done|]. split; [done|].
    split; [|split].
    + unfold OrchestratorAgent.pending_preview.
      cbn [Orchestrator.session_contexts Orchestrator.pending_previews].
      rewrite lookup_insert_eq, generated_id_nonempty, lookup_insert_eq.
      by rewrite Hpid.
    + intros sid Hne. cbn [Orchestrator.session_contexts].
      by rewrite lookup_insert_ne.
    + intros pid Hne. cbn [Orchestrator.pending_previews].
      rewrite lookup_insert_ne; [done|]. by rewrite <- Hpid.
Qed.

(** The order handler touches nothing but the orchestrator's two tables.
    When it returns no preview (its reply carries none, or it raised) the
    world is unchanged and no confirmation is asked for; when it returns
    one, a confirmation is asked for, the preview has the generated [PRV-]
    id and a decision other than REJECT, it is stored under that id, the
    session is bound to it and a later confirmation will find it, while
    every other session keeps its binding and every preview stored under
    another id stays stored: the preview that the session was bound to
    before is not removed. *)
Theorem order_handler_effects ops request patient extraction_result hex8 w :
  let out := OrchestratorAgent._handle_order ops request patient
               extraction_result hex8 w in
  let o := orchestrator_agent w in
  let o' := orchestrator_agent (snd out) in
  fulfillment_agent (snd out) = fulfillment_agent w
  /\ data_service (snd out) = data_service w
  /\ match returned_preview (fst out) with
     | None =>
         snd out = w
         /\ (forall reply,
               fst out = Returns reply ->
               ChatResponse.requires_confirmation reply = false)
     | Some preview =>
         (exists reply,
            fst out = Returns reply
            /\ ChatResponse.requires_confirmation reply = true)
         /\ OrderPreview.preview_id preview = "PRV-" +:+ hex8
         /\ OrderPreview.safety_decision preview <> REJECT
         /\ OrchestratorAgent.pending_preview request o'
            = Some (OrderPreview.preview_id preview, preview)
         /\ (forall session_id,
               session_id <> OrchestratorAgent.session_key request ->
               Orchestrator.session_contexts o' !! session_id
               = Orchestrator.session_contexts o !! session_id)
         /\ (forall preview_id,
               preview_id <> OrderPreview.preview_id preview ->
               Orchestrator.pending_previews o' !! preview_id
               = Orchestrator.pending_previews o !! preview_id)
     end.
Proof.
  exact (handle_order_effects ops request patient extraction_result hex8 w).
Qed.


Lemma fill_price_set_price item :
  FulfillmentAgent.fill_price (OrchestratorAgent.set_price item)
  = OrchestratorAgent.set_price item.
Proof.
  unfold FulfillmentAgent.fill_price, OrchestratorAgent.set_price.
  cbn [OrderItem.unit_price OrderItem.with_unit_price].
  by rewrite price_of_nonzero.
Qed.

Lemma with_items_same preview :
  OrderPreview.with_items (OrderPreview.items preview) preview = preview.
Proof. by destruct preview. Qed.

(** What is previewed is what is ordered.  When the order handler returns
    a preview, a confirmation by the same session returns whenever every
    quantity of the preview is an int64, and when it returns it has
    created an order with exactly the preview's line items (quantities and
    unit prices) and the preview's total, in status PROCESSING, and has
    cleared the session's pending preview.  When it raises, some quantity
    of the preview is no int64, the order is left stored with the
    preview's items and total in status CONFIRMED, and the preview is still
    the session's live preview. *)
Theorem confirmed_order_matches_preview ops request patient extraction_result
    hex8 w preview patient' order_id post :
  let out := OrchestratorAgent._handle_order ops request patient
               extraction_result hex8 w in
  returned_preview (fst out) = Some preview ->
  let confirmed :=
    OrchestratorAgent._handle_order_confirmation request patient' order_id
      post (snd out) in
  let session_id := OrchestratorAgent.session_key request in
  (Forall (fun item => in_int64 (OrderItem.quantity item) = true)
          (OrderPreview.items preview) ->
   exists reply, fst confirmed = Returns reply)
  /\ (forall reply,
        fst confirmed = Returns reply ->
        exists order,
          ChatResponse.order reply = Some order
          /\ Order.items order = OrderPreview.items preview
          /\ Order.total_amount order = OrderPreview.total_amount preview
          /\ Order.status order = PROCESSING
          /\ FulfillmentAgent.get_order order_id
               (fulfillment_agent (snd confirmed)) = Some order
          /\ live_previews session_id (orchestrator_agent (snd confirmed))
             = [])
  /\ (forall e,
        fst confirmed = Raises e ->
        Exists (fun item => in_int64 (OrderItem.quantity item) = false)
               (OrderPreview.items preview)
        /\ (exists order,
              FulfillmentAgent.get_order order_id
                (fulfillment_agent (snd confirmed)) = Some order
              /\ Order.items order = OrderPreview.items preview
              /\ Order.total_amount order = OrderPreview.total_amount preview
              /\ Order.status order = CONFIRMED)
        /\ OrchestratorAgent.pending_preview request
             (orchestrator_agent (snd confirmed))
           = Some (OrderPreview.preview_id preview, preview)
        /\ live_previews session_id (orchestrator_agent (snd confirmed))
           = [OrderPreview.preview_id preview]).
Proof.
  intros out Hpreview confirmed session_id.
  pose proof (handle_order_effects ops request patient extraction_result
                hex8 w) as He.
  cbv zeta in He. fold out in He. rewrite Hpreview in He.
  destruct He as (_ & _ & _ & _ & _ & Hpending & _).
  destruct (handle_order_cases ops request patient extraction_result hex8 w)
    as [(Hnone & _)
       | (reply0 & p & matched & subtotal & Hreply0 & Hsome & _ & _ & _ & _
          & _ & _ & Hitems & Htotal & Hamount & _)];
    fold out in Hnone || fold out in Hreply0; [congruence|].
  rewrite Hreply0 in Hpreview. cbn [returned_preview] in Hpreview.
  assert (p = preview) as -> by congruence.
  assert (map FulfillmentAgent.fill_price (OrderPreview.items preview)
          = OrderPreview.items preview) as Hfilled.
  { rewrite Hitems, map_map. apply map_ext. intros item.
    apply fill_price_set_price. }
  destruct (handle_confirmation_effects request patient' order_id post
              (snd out) _ _ Hpending) as (Hreturns & Heffects & Hraises).
  fold confirmed in Hreturns, Heffects, Hraises.
  rewrite Hfilled in Heffects, Hraises. rewrite with_items_same in Hraises.
  split; [exact Hreturns|]. split.
  - intros reply Hreply.
    destruct (Heffects reply Hreply)
      as (order & total & Horder & Hget & _ & Hstatus & Hoi & Ht & Hot & _ & _
          & Hcleared & _).
    exists order. split; [done|]. split; [done|].
    split; [by rewrite Hot, Hamount; congruence|].
    split; [done|]. split; [done|].
    revert Hcleared. unfold OrchestratorAgent.pending_preview.
    destruct (handle_confirmation_world request patient' order_id post
                (snd out))
      as [(Hnone & _)
         | (pid & pv & _
            & [(e & Hfst & _) | (reply' & order' & _ & _ & Ho')])];
      fold confirmed in Hfst || fold confirmed in Ho' || idtac;
      [congruence | congruence |].
    intros _. apply live_previews_unbound. rewrite Ho'.
    cbn [Orchestrator.session_contexts]. apply lookup_delete_eq.
  - intros e He. destruct (Hraises e He) as (Hex & Hkept & Hstored).
    rewrite Htotal in Hstored. destruct Hstored as [Hget _].
    split; [done|]. split.
    { eexists. split; [exact Hget|]. cbn [Order.items Order.total_amount
        Order.status order_at]. by rewrite Hamount. }
    split; [done|].
    apply pending_preview_Some in Hkept as [Hb Hp].
    apply live_previews_bound; [exact Hb | by rewrite Hp].
Qed.

Lemma confirmed_order_matches_preview_witness :
  exists reply order,
    fst (OrchestratorAgent._handle_order_confirmation sample_request
           sample_patient "ORD-20240102-0F0F0F" (Raised "timeout")
           world_with_preview)
    = Returns reply
    /\ ChatResponse.order reply = Some order
    /\ map OrderItem.quantity (Order.items order) = [5].
Proof.
  destruct (returned_preview
              (fst (OrchestratorAgent._handle_order plain_ops sample_request
                      sample_patient
                      (ExtractionResult.mk [sample_entity "Ibuprofen" 0] false "")
                      "1A2B3C4D" sample_world))) as [preview|] eqn:Hpreview;
    [|vm_compute in Hpreview; discriminate].
  destruct (confirmed_order_matches_preview plain_ops sample_request
              sample_patient
              (ExtractionResult.mk [sample_entity "Ibuprofen" 0] false "")
              "1A2B3C4D" sample_world preview sample_patient
              "ORD-20240102-0F0F0F" (Raised "timeout") Hpreview)
    as (Hreturns & Hmatches & _).
  vm_compute in Hpreview. injection Hpreview as <-.
  destruct Hreturns as [reply Hreply]; [repeat constructor|].
  destruct (Hmatches reply Hreply) as (order & Horder & Hitems & _).
  exists reply, order. split; [exact Hreply|]. split; [exact Horder|].
  rewrite Hitems. reflexivity.
Defined.

(** ** Stock never goes negative *)

Lemma update_stock_nonneg medicine_id quantity_sold ds known ds' :
  DataService.update_stock medicine_id quantity_sold ds = Returns (known, ds') ->
  stock_nonneg ds -> stock_nonneg ds'.
Proof.
  unfold DataService.update_stock.
  destruct (DataService.medicines_df ds) as [rows|] eqn:Hdf;
    [|by intros [= <- <-]].
  destruct (list_find _ rows) as [[i row]|]; [|by intros [= <- <-]].
  cbv zeta. destruct (in_int64 quantity_sold); [|discriminate].
  intros [= <- <-] Hds rows' Hrows'. cbn [DataService.medicines_df] in Hrows'.
  injection Hrows' as <-.
  apply Forall_insert; [by apply Hds|].
  cbn [Medicine.stock_level Medicine.with_stock_level].
  destruct (Z.ltb_spec
              (Z.max 0 (wrap_int64 (Medicine.stock_level row - quantity_sold)))
              0); lia.
Qed.

Lemma update_inventory_nonneg items total ds :
  stock_nonneg ds ->
  stock_nonneg (snd (OrchestratorAgent.update_inventory items total ds)).
Proof.
  revert total ds; induction items as [|item items IH]; intros total ds Hds;
    [done|].
  cbn [OrchestratorAgent.update_inventory].
  destruct (DataService.update_stock _ _ ds) as [[known ds1]|e] eqn:Hstock;
    [|done].
  apply IH. by eapply update_stock_nonneg.
Qed.

Lemma decrement_stock_nonneg items ds :
  stock_nonneg ds -> stock_nonneg (snd (Api.decrement_stock items ds)).
Proof.
  revert ds; induction items as [|item items IH]; intros ds Hds; [done|].
  cbn [Api.decrement_stock].
  destruct (DataService.update_stock _ _ ds) as [[known ds1]|e] eqn:Hstock;
    [|done].
  apply IH. by eapply update_stock_nonneg.
Qed.

(** If no stock level is negative, none is after any invocation of the
    order, confirm or cancel handler, whether it returns or raises, nor
    after the API confirm operation. *)
Theorem stock_stays_nonnegative w :
  stock_nonneg (data_service w) ->
  (forall w', Step w w' -> stock_nonneg (data_service w'))
  /\ (forall order_id,
        stock_nonneg (data_service (snd (Api.confirm_order order_id w)))).
Proof.
  intros Hw. split.
  - intros w' Hstep.
    destruct Hstep as [ops request patient er hex8 w
                      | request patient oid post w
                      | request w].
    + destruct (handle_order_effects ops request patient er hex8 w)
        as (_ & -> & _). exact Hw.
    + destruct (OrchestratorAgent.pending_preview request (orchestrator_agent w))
        as [[pid preview]|] eqn:Hpending.
      * destruct (handle_confirmation_cases request patient oid post w _ _
                    Hpending)
          as [(e & _ & ->)
             | [(total & e & ds & _ & Hstock & _ & _ & -> & _)
               | (total & quantity & ds & receipt & _ & Hstock & _ & _ & _
                  & -> & _)]].
        -- exact Hw.
        -- pose proof (update_inventory_nonneg
                         (map FulfillmentAgent.fill_price
                            (OrderPreview.items preview)) 0 _ Hw) as H.
           by rewrite Hstock in H.
        -- intros rows Hrows. rewrite add_history_medicines in Hrows.
           pose proof (update_inventory_nonneg
                         (map FulfillmentAgent.fill_price
                            (OrderPreview.items preview)) 0 _ Hw) as H.
           rewrite Hstock in H. by apply H.
      * unfold OrchestratorAgent._handle_order_confirmation.
        by rewrite Hpending.
    + exact Hw.
  - intros order_id. unfold Api.confirm_order.
    destruct (FulfillmentAgent.get_order _ _) as [order|]; [|exact Hw].
    destruct (negb _); [exact Hw|].
    pose proof (decrement_stock_nonneg (Order.items order) _ Hw) as H.
    by destruct (Api.decrement_stock _ _) as [[[]|e] ds].
Qed.

Lemma stock_stays_nonnegative_witness :
  stock_nonneg
    (data_service
       (snd (Api.confirm_order "ORD-20240101-ABC123" world_with_cancelled_order))).
Proof.
  apply (stock_stays_nonnegative world_with_cancelled_order).
  intros rows [= <-]. repeat constructor; vm_compute; discriminate.
Defined.
(** ** Cancelling through the API *)

(* The cancel endpoint followed by the confirm endpoint. *)
Lemma cancelled_order_stays_cancelled order_id w order :
  FulfillmentAgent.get_order order_id (fulfillment_agent w) = Some order ->
  Order.status order <> COMPLETED ->
  Order.status order <> CANCELLED ->
  let out := Api.cancel_order order_id w in
  fst out = Api.Json "cancelled" order_id
  /\ FulfillmentAgent.get_order order_id (fulfillment_agent (snd out))
     = Some (Order.with_status CANCELLED order)
  /\ data_service (snd out) = data_service w
  /\ orchestrator_agent (snd out) = orchestrator_agent w
  /\ Api.confirm_order order_id (snd out)
     = (Api.HTTPException 400 "Order is not pending. Current status: CANCELLED",
        [], snd out)
  /\ Api.cancel_order order_id (snd out)
     = (Api.HTTPException 400 "Cannot cancel order. Current status: CANCELLED",
        snd out).
Proof.
  intros Hget Hc1 Hc2 out.
  assert (Hout : out
                 = (Api.Json "cancelled" order_id,
                    with_fulfillment
                      (snd (FulfillmentAgent.update_order_status order_id
                              CANCELLED "Order cancelled by user"
                              (fulfillment_agent w))) w)).
  { unfold out, Api.cancel_order. rewrite Hget.
    rewrite !bool_decide_eq_false_2 by done. reflexivity. }
  assert (Hstored : FulfillmentAgent.get_order order_id
                      (fulfillment_agent (snd out))
                    = Some (Order.with_status CANCELLED order)).
  { rewrite Hout. cbn [snd fulfillment_agent with_fulfillment].
    unfold FulfillmentAgent.get_order in Hget |- *.
    rewrite (update_order_status_stored _ _ _ _ _ Hget).
    cbn [snd FulfillmentAgent.orders]. apply lookup_insert_eq. }
  split; [by rewrite Hout|]. split; [exact Hstored|].
  split; [by rewrite Hout|]. split; [by rewrite Hout|]. split.
  - unfold Api.confirm_order. rewrite Hstored.
    cbn [Order.status Order.with_status].
    rewrite bool_decide_eq_false_2 by done. reflexivity.
  - unfold Api.cancel_order. rewrite Hstored.
    cbn [Order.status Order.with_status].
    rewrite bool_decide_eq_false_2 by done.
    rewrite bool_decide_eq_true_2 by done. reflexivity.
Qed.

(** Cancelling a stored order that is neither COMPLETED nor CANCELLED
    marks it CANCELLED and touches nothing else: the stock that a previous
    confirmation took is not given back.  After that, confirming the same
    order is refused with 400 and changes nothing, and so is cancelling it
    again. *)
Theorem cancel_then_confirm_is_refused order_id w order :
  FulfillmentAgent.get_order order_id (fulfillment_agent w) = Some order ->
  Order.status order <> COMPLETED ->
  Order.status order <> CANCELLED ->
  let out := Api.cancel_order order_id w in
  fst out = Api.Json "cancelled" order_id
  /\ FulfillmentAgent.get_order order_id (fulfillment_agent (snd out))
     = Some (Order.with_status CANCELLED order)
  /\ data_service (snd out) = data_service w
  /\ orchestrator_agent (snd out) = orchestrator_agent w
  /\ Api.confirm_order order_id (snd out)
     = (Api.HTTPException 400 "Order is not pending. Current status: CANCELLED",
        [], snd out)
  /\ Api.cancel_order order_id (snd out)
     = (Api.HTTPException 400 "Cannot cancel order. Current status: CANCELLED",
        snd out).
Proof. exact (cancelled_order_stays_cancelled order_id w order). Qed.

Lemma cancel_then_confirm_is_refused_witness :
  exists detail,
    fst (fst (Api.confirm_order "ORD-20240101-ABC123"
                (snd (Api.cancel_order "ORD-20240101-ABC123"
                        (mkWorld Orchestrator.empty
                           (FulfillmentAgent.mk
                              {[ "ORD-20240101-ABC123"
                                 := Order.with_status CONFIRMED cancelled_order ]}
                              ∅ ∅)
                           (DataService.mk (Some sample_catalog) None))))))
    = Api.HTTPException 400 detail.
Proof.
  destruct (cancel_then_confirm_is_refused "ORD-20240101-ABC123"
              (mkWorld Orchestrator.empty
                 (FulfillmentAgent.mk
                    {[ "ORD-20240101-ABC123"
                       := Order.with_status CONFIRMED cancelled_order ]}
                    ∅ ∅)
                 (DataService.mk (Some sample_catalog) None))
              (Order.with_status CONFIRMED cancelled_order))
    as (_ & _ & _ & _ & Hconfirm & _).
  - apply lookup_singleton_eq.
  - discriminate.
  - discriminate.
  - eexists. by rewrite Hconfirm.
Defined.

(** ** The warehouse acknowledgement *)

(** No transition table guards the warehouse paths.  The inbound
    acknowledgement sets a stored order to PROCESSING whatever its status
    was; in particular, an order cancelled through the API is PROCESSING
    again after the acknowledgement, and also after the background
    notification that an earlier confirmation scheduled, when the
    warehouse answers it with 200. *)
Theorem warehouse_acknowledgement_overrides_status order_id w order :
  FulfillmentAgent.get_order order_id (fulfillment_agent w) = Some order ->
  Order.order_id order = order_id ->
  FulfillmentAgent.get_order order_id
    (fulfillment_agent (Endpoints.warehouse_webhook order_id w))
  = Some (Order.with_status PROCESSING order)
  /\ (Order.status order <> COMPLETED -> Order.status order <> CANCELLED ->
      let cancelled := snd (Api.cancel_order order_id w) in
      FulfillmentAgent.get_order order_id
        (fulfillment_agent (Endpoints.warehouse_webhook order_id cancelled))
      = Some (Order.with_status PROCESSING order)
      /\ exists w',
           Endpoints.run_scheduled order_id (Response 200) cancelled
           = Returns w'
           /\ FulfillmentAgent.get_order order_id (fulfillment_agent w')
              = Some (Order.with_status PROCESSING order)).
Proof.
  intros Hget Hid.
  assert (Hack : forall w0 o,
            FulfillmentAgent.get_order order_id (fulfillment_agent w0) = Some o ->
            FulfillmentAgent.get_order order_id
              (fulfillment_agent (Endpoints.warehouse_webhook order_id w0))
            = Some (Order.with_status PROCESSING o)).
  { intros w0 o Ho. unfold Endpoints.warehouse_webhook. rewrite Ho.
    cbn [fulfillment_agent with_fulfillment].
    unfold FulfillmentAgent.get_order in Ho |- *.
    rewrite (update_order_status_stored _ _ _ _ _ Ho).
    cbn [snd FulfillmentAgent.orders]. apply lookup_insert_eq. }
  split; [by apply Hack|].
  intros Hc1 Hc2 cancelled.
  destruct (cancelled_order_stays_cancelled order_id w order Hget Hc1 Hc2)
    as (_ & Hstored & _).
  fold cancelled in Hstored. split; [by rewrite (Hack _ _ Hstored)|].
  unfold Endpoints.run_scheduled. rewrite Hstored.
  pose proof (order_view_after_webhook (Order.with_status CANCELLED order)
                (Response 200) (fulfillment_agent cancelled)) as Hview.
  rewrite webhook_returns. eexists. split; [reflexivity|].
  cbn [fulfillment_agent with_fulfillment].
  cbn [Order.order_id Order.with_status answered_200 Z.eqb Pos.eqb] in Hview.
  rewrite Hid in Hview.
  unfold order_view in Hview at 2 3 4. cbn [fst snd] in Hview.
  rewrite Hstored in Hview. unfold order_view in Hview.
  by injection Hview as -> _ _.
Qed.

Lemma warehouse_acknowledgement_overrides_status_witness :
  FulfillmentAgent.get_order "ORD-20240101-ABC123"
    (fulfillment_agent
       (Endpoints.warehouse_webhook "ORD-20240101-ABC123"
          world_with_cancelled_order))
  = Some (Order.with_status PROCESSING cancelled_order).
Proof.
  refine (proj1 (warehouse_acknowledgement_overrides_status
                   "ORD-20240101-ABC123" world_with_cancelled_order
                   cancelled_order _ _)).
  - apply lookup_singleton_eq.
  - reflexivity.
Defined.

(** ** Refill predictions for all patients *)

Lemma insert_by_key_perm p l :
  Permutation (RefillBatch.insert_by_key p l) (p :: l).
Proof.
  induction l as [|q l IH]; simpl; [done|].
  destruct (RefillBatch.sort_key p <=? RefillBatch.sort_key q)%nat; [done|].
  rewrite IH. apply perm_swap.
Qed.

Lemma sort_by_urgency_perm l :
  Permutation (RefillBatch.sort_by_urgency l) l.
Proof.
  unfold RefillBatch.sort_by_urgency.
  induction l as [|p l IH]; simpl; [done|].
  rewrite insert_by_key_perm. by constructor.
Qed.

Lemma insert_by_key_sorted p l :
  StronglySorted (fun a b => (RefillBatch.sort_key a <= RefillBatch.sort_key b)%nat) l ->
  StronglySorted (fun a b => (RefillBatch.sort_key a <= RefillBatch.sort_key b)%nat)
                 (RefillBatch.insert_by_key p l).
Proof.
  induction 1 as [|q l Hl IH Hq]; simpl; [by repeat constructor|].
  destruct (Nat.leb_spec (RefillBatch.sort_key p) (RefillBatch.sort_key q)).
  - constructor; [by constructor|].
    constructor; [done|]. eapply Forall_impl; [exact Hq|].
    intros r Hr. simpl in Hr. lia.
  - constructor; [exact IH|].
    rewrite insert_by_key_perm. constructor; [lia | exact Hq].
Qed.

Lemma sort_by_urgency_sorted l :
  StronglySorted (fun a b => (RefillBatch.sort_key a <= RefillBatch.sort_key b)%nat)
                 (RefillBatch.sort_by_urgency l).
Proof.
  unfold RefillBatch.sort_by_urgency.
  induction l as [|p l IH]; simpl; [constructor|].
  by apply insert_by_key_sorted.
Qed.

Lemma urgency_order_inj u v :
  RefillBatch.urgency_order u = RefillBatch.urgency_order v -> u = v.
Proof. by destruct u, v. Qed.

Lemma insert_by_key_filter u p l :
  filter (fun q => RefillPrediction.urgency q = u)
         (RefillBatch.insert_by_key p l)
  = filter (fun q => RefillPrediction.urgency q = u) (p :: l).
Proof.
  induction l as [|q l IH]; simpl; [done|].
  destruct (Nat.leb_spec (RefillBatch.sort_key p) (RefillBatch.sort_key q))
    as [Hle|Hlt]; [done|].
  rewrite filter_cons, IH, !filter_cons.
  destruct (decide (RefillPrediction.urgency q = u)) as [Hq|Hq];
    destruct (decide (RefillPrediction.urgency p = u)) as [Hp|Hp]; try done.
  exfalso. unfold RefillBatch.sort_key in Hlt. rewrite Hq, Hp in Hlt. lia.
Qed.

Lemma sort_by_urgency_filter u l :
  filter (fun q => RefillPrediction.urgency q = u)
         (RefillBatch.sort_by_urgency l)
  = filter (fun q => RefillPrediction.urgency q = u) l.
Proof.
  unfold RefillBatch.sort_by_urgency.
  induction l as [|p l IH]; simpl; [done|].
  by rewrite insert_by_key_filter, !filter_cons, IH.
Qed.

Lemma predict_within_two_weeks today patient_id patient_name history :
  Forall (fun p => RefillPrediction.days_remaining p <= 14)
         (RefillAgent.predict today patient_id patient_name history).
Proof.
  induction history as [|med rest IH]; simpl; [constructor|].
  unfold RefillAgent.predict_one, RefillAgent.classify.
  set (d := default 0 (RefillAgent.rec_days_remaining med)).
  repeat match goal with
         | |- context [?x <=? ?y] => destruct (Z.leb_spec x y)
         end; try exact IH; constructor; try exact IH; simpl; lia.
Qed.

Lemma collect_within_two_weeks today needing_refill patients :
  Forall (fun p => RefillPrediction.days_remaining p <= 14)
         (RefillBatch.collect today needing_refill patients).
Proof.
  induction patients as [|patient rest IH]; simpl; [constructor|].
  apply Forall_app. split; [|exact IH].
  destruct (truthy_list _); [apply predict_within_two_weeks | constructor].
Qed.

(** The batch over all patients returns the predictions of the
    individual patients, each exactly once, ordered by urgency (CRITICAL,
    HIGH, MEDIUM, LOW); predictions of equal urgency keep the order in
    which they were collected; and none of them has more than 14 days
    remaining. *)
Theorem all_patient_refills_sorted today needing_refill ds :
  let collected :=
    RefillBatch.collect today needing_refill (DataQueries.get_all_patients ds) in
  let out := RefillBatch.get_all_patient_refills today needing_refill ds in
  Permutation out collected
  /\ StronglySorted
       (fun a b =>
          (RefillBatch.urgency_order (RefillPrediction.urgency a)
           <= RefillBatch.urgency_order (RefillPrediction.urgency b))%nat) out
  /\ (forall u,
        filter (fun p => RefillPrediction.urgency p = u) out
        = filter (fun p => RefillPrediction.urgency p = u) collected)
  /\ Forall (fun p => RefillPrediction.days_remaining p <= 14) out.
Proof.
  intros collected out. subst out. unfold RefillBatch.get_all_patient_refills.
  fold collected.
  split; [apply sort_by_urgency_perm|].
  split; [apply sort_by_urgency_sorted|].
  split; [intros u; apply sort_by_urgency_filter|].
  rewrite sort_by_urgency_perm. apply collect_within_two_weeks.
Qed.

(** ** Patients read from the order history *)

Lemma existsb_eqb_elem_of id seen :
  existsb (String.eqb id) seen = true <-> id ∈ seen.
Proof.
  rewrite existsb_exists. split.
  - intros (x & Hin & Heq). apply String.eqb_eq in Heq. subst x.
    by apply list_elem_of_In.
  - intros Hin. exists id. split; [by apply list_elem_of_In|].
    apply String.eqb_refl.
Qed.

Lemma drop_duplicates_spec seen rows p :
  p ∈ map DataQueries.patient_of_row (DataQueries.drop_duplicates seen rows)
  <-> (Patient.patient_id p ∉ seen)
      /\ (DataQueries.patient_of_row
            <$> head (List.filter
                        (fun row => String.eqb (DataService.row_patient_id row)
                                      (Patient.patient_id p)) rows))
         = Some p.
Proof.
  revert seen. induction rows as [|row rest IH]; intros seen.
  - simpl. split; [by intros ?%elem_of_nil | by intros [_ ?]].
  - cbn [DataQueries.drop_duplicates List.filter].
    destruct (existsb _ seen) eqn:Hseen.
    + apply existsb_eqb_elem_of in Hseen. rewrite IH.
      destruct (String.eqb_spec (DataService.row_patient_id row)
                                (Patient.patient_id p)) as [Heq|Hne].
      * split; [intros [Hp _]|intros [Hp _]]; exfalso; apply Hp; by rewrite <- Heq.
      * done.
    + assert (DataService.row_patient_id row ∉ seen) as Hnew.
      { intros Hin. apply existsb_eqb_elem_of in Hin. congruence. }
      cbn [map]. rewrite elem_of_cons, IH, not_elem_of_cons.
      destruct (String.eqb_spec (DataService.row_patient_id row)
                                (Patient.patient_id p)) as [Heq|Hne].
      * cbn [head fmap option_fmap option_map]. split.
        -- intros [->|[[Hp _] _]]; [|by rewrite Heq in Hp].
           split; [exact Hnew | done].
        -- intros [_ Hp]. left. congruence.
      * split.
        -- intros [->|[[_ Hp] Hhead]]; [by destruct Hne|]. by split.
        -- intros [Hp Hhead]. right. repeat split; try done; congruence.
Qed.

Lemma drop_duplicates_ids seen rows :
  NoDup (map DataService.row_patient_id (DataQueries.drop_duplicates seen rows))
  /\ forall id,
       id ∈ map DataService.row_patient_id (DataQueries.drop_duplicates seen rows)
       -> id ∉ seen.
Proof.
  revert seen. induction rows as [|row rest IH]; intros seen.
  - simpl. split; [constructor | by intros id ?%elem_of_nil].
  - cbn [DataQueries.drop_duplicates].
    destruct (existsb _ seen) eqn:Hseen; [apply IH|].
    assert (DataService.row_patient_id row ∉ seen) as Hnew.
    { intros Hin. apply existsb_eqb_elem_of in Hin. congruence. }
    destruct (IH (DataService.row_patient_id row :: seen)) as [Hnodup Hfresh].
    cbn [map]. split.
    + apply NoDup_cons. split; [|exact Hnodup].
      intros Hin. apply Hfresh in Hin. apply Hin. by left.
    + intros id [->|Hin]%elem_of_cons; [exact Hnew|].
      apply Hfresh in Hin. intros Hid. apply Hin. by right.
Qed.

(** The patient list holds each patient id once, and a patient is on it
    exactly when looking that id up returns this very patient: both
    queries take the details of the first history row with the id. *)
Theorem patient_queries_agree ds :
  NoDup (map Patient.patient_id (DataQueries.get_all_patients ds))
  /\ forall p,
       p ∈ DataQueries.get_all_patients ds
       <-> DataQueries.get_patient_by_id (Patient.patient_id p) ds = Some p.
Proof.
  unfold DataQueries.get_all_patients, DataQueries.get_patient_by_id.
  destruct (DataService.orders_df ds) as [rows|].
  - split.
    + rewrite map_map. apply (drop_duplicates_ids [] rows).
    + intros p. rewrite drop_duplicates_spec. split; [by intros [_ ?]|].
      intros Hp. split; [by intros ?%elem_of_nil | exact Hp].
  - split; [constructor|]. intros p. split; [by intros ?%elem_of_nil | done].
Qed.

Lemma head_app_singleton {A} (l : list A) (x : A) :
  head (l ++ [x]) = Some (default x (head l)).
Proof. by destruct l. Qed.

(** Appending an order row makes its patient known, with the details of
    the patient's first row: a patient already in the history keeps the
    earlier name, e-mail address and phone number, whatever the new row
    says.  Other patients and the medicine table are untouched, and the
    patient's history grows by the row at its end. *)
Theorem add_order_keeps_first_details row ds :
  let ds' := snd (DataService.add_order row ds) in
  let patient_id := DataService.row_patient_id row in
  fst (DataService.add_order row ds) = true
  /\ DataQueries.get_patient_by_id patient_id ds'
     = Some (default (DataQueries.patient_of_row row)
                     (DataQueries.get_patient_by_id patient_id ds))
  /\ (forall other, other <> patient_id ->
        DataQueries.get_patient_by_id other ds'
        = DataQueries.get_patient_by_id other ds)
  /\ DataQueries.get_patient_order_history patient_id ds'
     = DataQueries.get_patient_order_history patient_id ds ++ [row]
  /\ DataService.medicines_df ds' = DataService.medicines_df ds.
Proof.
  intros ds' patient_id. subst ds' patient_id.
  unfold DataService.add_order, DataQueries.get_patient_by_id,
    DataQueries.get_patient_order_history.
  cbn [fst snd DataService.orders_df DataService.medicines_df].
  split; [done|].
  rewrite !List.filter_app. cbn [List.filter]. rewrite String.eqb_refl.
  split; [|split; [|split; [|done]]].
  - rewrite head_app_singleton.
    destruct (DataService.orders_df ds) as [rows|]; cbn [default];
      [|done].
    by destruct (head _).
  - intros other Hother. rewrite List.filter_app. cbn [List.filter].
    destruct (String.eqb_spec (DataService.row_patient_id row) other)
      as [Heq|_]; [by destruct Hother|].
    rewrite app_nil_r. by destruct (DataService.orders_df ds).
  - by destruct (DataService.orders_df ds).
Qed.

(** ** Routing of a chat turn *)

Lemma handle_order_keeps_stores ops request patient extraction_result hex8 w :
  data_service (snd (OrchestratorAgent._handle_order ops request patient
                       extraction_result hex8 w)) = data_service w
  /\ fulfillment_agent (snd (OrchestratorAgent._handle_order ops request patient
                               extraction_result hex8 w))
     = fulfillment_agent w.
Proof.
  by destruct (handle_order_effects ops request patient extraction_result
                 hex8 w) as (? & ? & _).
Qed.

(** One chat turn.  An unknown patient gets the fixed reply; a failure
    of the intent classifier is answered with the apology that quotes the
    error; a classifier answer without an intent raises; a failure of the
    extractor on an order turn is answered with the request to rephrase.
    In all four cases the world is unchanged.  Whether the turn returns or
    raises, the world is unchanged or was changed by one run of the order,
    confirm or cancel handler, so it stays reachable; and unless the
    classifier answered CONFIRM_ORDER, neither the data service nor the
    fulfillment agent changed. *)
Theorem process_message_effects ops request turn w :
  let lookup :=
    DataQueries.get_patient_by_id (ChatRequest.patient_id request)
      (data_service w) in
  let out := Routing.process_message ops request turn w in
  let w' := snd out in
  (lookup = None ->
   out = (Returns
            (ChatResponse.text
               "I couldn't find your patient record. Please select a valid patient."),
          w))
  /\ (forall e,
        is_Some lookup -> Routing.classifier_answer turn = Raises e ->
        out = (Returns
                 (ChatResponse.text
                    ("I apologize, I encountered an issue. How can I help you today? (Error: "
                     +:+ e +:+ ")")),
               w))
  /\ (forall r,
        is_Some lookup -> Routing.classifier_answer turn = Returns r ->
        Routing.intent r = None ->
        out = (Raises "KeyError: 'intent'", w))
  /\ (forall r e,
        is_Some lookup -> Routing.classifier_answer turn = Returns r ->
        Routing.intent r = Some "ORDER" ->
        Routing.extraction_answer turn = Raises e ->
        exists reply,
          out = (Returns reply, w)
          /\ ChatResponse.message reply
             = "I had trouble understanding your request. Could you please rephrase it? Error: "
               +:+ e
          /\ ChatResponse.order_preview reply = None)
  /\ (w' = w \/ Step w w')
  /\ (Reachable w -> Reachable w')
  /\ ((exists r,
         Routing.classifier_answer turn = Returns r
         /\ Routing.intent r = Some "CONFIRM_ORDER")
      \/ (data_service w' = data_service w
          /\ fulfillment_agent w' = fulfillment_agent w)).
Proof.
  intros lookup out w'. subst lookup w' out. unfold Routing.process_message.
  destruct (DataQueries.get_patient_by_id _ _) as [patient|].
  2: { split; [done|]. split; [by intros e [? ?]|]. split; [by intros r [? ?]|].
       split; [by intros r e [? ?]|].
       split; [by left|]. split; [done|]. by right. }
  split; [done|]. split; [|split; [|split]].
  - intros e _ ->. reflexivity.
  - intros r _ -> Hr. unfold Routing._determine_intent, try_except.
    by rewrite Hr.
  - intros r e _ -> Hr ->. unfold Routing._determine_intent, try_except.
    rewrite Hr. eexists. split; reflexivity || (split; reflexivity).
  - assert (forall x : Call ChatResponse.t * World,
              snd x = w
              -> (snd x = w \/ Step w (snd x))
                 /\ (Reachable w -> Reachable (snd x))
                 /\ ((exists r,
                        Routing.classifier_answer turn = Returns r
                        /\ Routing.intent r = Some "CONFIRM_ORDER")
                     \/ (data_service (snd x) = data_service w
                         /\ fulfillment_agent (snd x) = fulfillment_agent w)))
      as Hsame.
    { intros x ->. split; [by left|]. split; [done|]. by right. }
    unfold Routing._determine_intent, try_except.
    destruct (Routing.classifier_answer turn) as [r|e]; [|by apply Hsame].
    destruct (Routing.intent r) as [name|] eqn:Hintent; [|by apply Hsame].
    destruct (String.eqb name "ORDER").
    { destruct (ExtractionAgent.extract (Routing.extraction_answer turn))
        as [extraction_result|e]; [|by apply Hsame].
      split; [right; apply step_order|].
      split; [intros Hr; eapply reach_step; [exact Hr | apply step_order]|].
      right; apply handle_order_keeps_stores. }
    destruct (String.eqb name "REFILL_CHECK"); [by apply Hsame|].
    destruct (String.eqb_spec name "CONFIRM_ORDER") as [->|_].
    { split; [right; apply step_confirm|].
      split; [intros Hr; eapply reach_step; [exact Hr | apply step_confirm]|].
      left. by exists r. }
    destruct (String.eqb name "CANCEL_ORDER").
    { cbn [snd].
      split; [right; apply step_cancel|].
      split; [intros Hr; eapply reach_step; [exact Hr | apply step_cancel]|].
      by right. }
    destruct (String.eqb name "STATUS_CHECK"); by apply Hsame.
Qed.
(** ** Entities and matched medicines are paired by position *)

Lemma build_items_length cap i entities matched :
  (length (OrchestratorAgent.build_items cap i entities matched)
   <= length matched - i)%nat.
Proof.
  revert i. induction entities as [|entity rest IH]; intros i; simpl; [lia|].
  destruct (matched !! i) eqn:Hi.
  - apply lookup_lt_Some in Hi. simpl. specialize (IH (S i)). lia.
  - specialize (IH (S i)). lia.
Qed.

Lemma match_entities_length ops ds entities matched :
  OrchestratorAgent.match_entities ops ds entities = Returns matched ->
  (length matched <= length entities)%nat.
Proof.
  revert matched. induction entities as [|entity rest IH]; intros matched.
  - by intros [= <-].
  - cbn [OrchestratorAgent.match_entities].
    destruct (OrchestratorAgent.match_entity ops ds entity) as [found|e];
      [|discriminate].
    destruct (OrchestratorAgent.match_entities ops ds rest) as [others|e];
      [|discriminate].
    specialize (IH others eq_refl).
    intros [= <-]. destruct found; cbn [length]; lia.
Qed.

(** When the first entity of a request matches no medicine and the second
    one does, the matched list is shorter than the entity list and the two
    are still paired by position: the first line item of the preview is
    the second entity's medicine with the quantity of the first entity,
    and the preview has fewer items than the request has entities. *)
Theorem unmatched_entity_shifts_pairing ops request patient e1 e2 rest msg m
    hex8 w preview :
  let entities := e1 :: e2 :: rest in
  OrchestratorAgent.match_entity ops (data_service w) e1 = Returns None ->
  OrchestratorAgent.match_entity ops (data_service w) e2 = Returns (Some m) ->
  returned_preview
    (fst (OrchestratorAgent._handle_order ops request patient
            (ExtractionResult.mk entities false msg) hex8 w))
  = Some preview ->
  exists item items others,
    OrchestratorAgent.match_entities ops (data_service w) rest
    = Returns others
    /\ OrderPreview.items preview = item :: items
    /\ OrderItem.medicine_id item = Medicine.medicine_id m
    /\ OrderItem.medicine_name item = Medicine.medicine_name m
    /\ OrderItem.quantity item
       = OrchestratorAgent.item_quantity
           (SafetyCheckResult.allowed_quantity
              (SafetyAgent.evaluate entities (m :: others) false)) e1
    /\ (length (OrderPreview.items preview) < length entities)%nat.
Proof.
  intros entities H1 H2 Hpreview.
  destruct (handle_order_cases ops request patient
              (ExtractionResult.mk entities false msg) hex8 w)
    as [(Hnone & _)
       | (reply & p & matched & subtotal & Hreply & Hsome & _ & Hmatched & _
          & _ & _ & _ & Hitems & _)]; [congruence|].
  rewrite Hreply in Hpreview. cbn [returned_preview] in Hpreview.
  assert (p = preview) as -> by congruence.
  cbn [ExtractionResult.entities] in Hmatched, Hitems.
  unfold entities in Hmatched.
  cbn [OrchestratorAgent.match_entities] in Hmatched.
  rewrite H1, H2 in Hmatched.
  destruct (OrchestratorAgent.match_entities ops (data_service w) rest)
    as [others|e] eqn:Hrest; [|discriminate].
  injection Hmatched as <-.
  set (cap := SafetyCheckResult.allowed_quantity
                (SafetyAgent.evaluate entities (m :: others) false)) in *.
  exists (OrchestratorAgent.set_price
            (OrderItem.mk (Medicine.medicine_id m) (Medicine.medicine_name m)
               (Medicine.strength m) (OrchestratorAgent.item_quantity cap e1)
               (Float64.of_Z 0) (Medicine.prescription_required m))),
    (map OrchestratorAgent.set_price
       (OrchestratorAgent.build_items cap 1 (e2 :: rest) (m :: others))),
    others.
  split; [done|]. split; [exact Hitems|].
  split; [done|]. split; [done|]. split; [done|].
  rewrite Hitems, length_map.
  pose proof (build_items_length cap 0 entities (m :: others)) as Hlen.
  pose proof (match_entities_length _ _ _ _ Hrest).
  unfold entities in *. cbn [length] in *. lia.
Qed.

Lemma unmatched_entity_shifts_pairing_witness :
  exists preview item items,
    returned_preview
      (fst (OrchestratorAgent._handle_order plain_ops sample_request
              sample_patient
              (ExtractionResult.mk
                 [sample_entity "Aspirin" 10; sample_entity "Paracetamol" 20]
                 false "")
              "1A2B3C4D" sample_world))
    = Some preview
    /\ OrderPreview.items preview = item :: items
    /\ OrderItem.medicine_name item = "Paracetamol"
    /\ OrderItem.quantity item = 10
    /\ items = [].
Proof.
  destruct (returned_preview
              (fst (OrchestratorAgent._handle_order plain_ops sample_request
                      sample_patient
                      (ExtractionResult.mk
                         [sample_entity "Aspirin" 10;
                          sample_entity "Paracetamol" 20] false "")
                      "1A2B3C4D" sample_world))) as [preview|] eqn:Hpreview;
    [|vm_compute in Hpreview; discriminate].
  destruct (unmatched_entity_shifts_pairing plain_ops sample_request
              sample_patient (sample_entity "Aspirin" 10)
              (sample_entity "Paracetamol" 20) [] ""
              (Medicine.mk "MED001" "Paracetamol" "500mg" "Tablet" 100 false
                 "Analgesic" false 30 false)
              "1A2B3C4D" sample_world preview eq_refl eq_refl Hpreview)
    as (item & items & others & Hothers & Hitems & _ & Hname & Hqty & Hlen).
  cbn [OrchestratorAgent.match_entities] in Hothers.
  injection Hothers as <-.
  exists preview, item, items. split; [reflexivity|].
  split; [exact Hitems|]. split; [exact Hname|].
  split; [rewrite Hqty; vm_compute; reflexivity|].
  rewrite Hitems in Hlen. cbn [length] in Hlen.
  destruct items; [reflexivity | cbn [length] in Hlen; lia].
Defined.

(** ** The extractor never raises *)



(** ** The refill check of the chat and of the API *)

Lemma predict_nil_iff today patient_id patient_name history :
  RefillAgent.predict today patient_id patient_name history = []
  <-> Forall (fun med => 14 < default 0 (RefillAgent.rec_days_remaining med))
             history.
Proof.
  induction history as [|med rest IH]; simpl; [by split; [constructor|]|].
  rewrite Forall_cons. unfold RefillAgent.predict_one, RefillAgent.classify.
  set (d := default 0 (RefillAgent.rec_days_remaining med)).
  repeat match goal with
         | |- context [?x <=? ?y] => destruct (Z.leb_spec x y)
         end;
    try (split; [discriminate | intros [? _]; lia]).
  rewrite IH. split; [intros ?; split; [lia | done] | by intros [_ ?]].
Qed.

Lemma get_patient_by_id_id patient_id ds patient :
  DataQueries.get_patient_by_id patient_id ds = Some patient ->
  Patient.patient_id patient = patient_id.
Proof.
  unfold DataQueries.get_patient_by_id.
  destruct (DataService.orders_df ds) as [rows|]; [|discriminate].
  destruct (List.filter _ rows) as [|row found] eqn:Hfilter; [discriminate|].
  intros [= <-].
  assert (In row (List.filter
                    (fun row => String.eqb (DataService.row_patient_id row)
                                  patient_id) rows)) as Hin
    by (rewrite Hfilter; by left).
  apply filter_In in Hin. destruct Hin as [_ Heq].
  by apply String.eqb_eq in Heq.
Qed.

(** The refill reply of the chat carries exactly the predictor's output
    for the patient's records, also on its two early exits; the list is
    empty exactly when every record has more than 14 days remaining; the
    reply never asks for a confirmation and carries no preview or order.
    The refill endpoint of the API, for a patient id that is found,
    returns the same list. *)
Theorem refill_check_suggestions today patient history :
  let reply := Routing._handle_refill_check today patient history in
  ChatResponse.refill_suggestions reply
  = RefillAgent.predict today (Patient.patient_id patient)
      (Patient.patient_name patient) history
  /\ (ChatResponse.refill_suggestions reply = []
      <-> Forall (fun med =>
                    14 < default 0 (RefillAgent.rec_days_remaining med))
                 history)
  /\ ChatResponse.requires_confirmation reply = false
  /\ ChatResponse.order_preview reply = None
  /\ ChatResponse.order reply = None
  /\ (forall patient_id w,
        DataQueries.get_patient_by_id patient_id (data_service w)
        = Some patient ->
        Endpoints.get_patient_refills today patient_id history w
        = inr (ChatResponse.refill_suggestions reply)).
Proof.
  intros reply.
  assert (ChatResponse.refill_suggestions reply
          = RefillAgent.predict today (Patient.patient_id patient)
              (Patient.patient_name patient) history) as Hs.
  { subst reply. unfold Routing._handle_refill_check.
    destruct history as [|med rest]; [done|].
    cbn [truthy_list negb]. cbv zeta.
    by destruct (RefillAgent.predict _ _ _ _). }
  split; [exact Hs|]. split; [rewrite Hs; apply predict_nil_iff|].
  assert (ChatResponse.requires_confirmation reply = false
          /\ ChatResponse.order_preview reply = None
          /\ ChatResponse.order reply = None) as (? & ? & ?).
  { subst reply. unfold Routing._handle_refill_check.
    destruct (negb (truthy_list history)); [done|]. cbv zeta.
    by destruct (negb (truthy_list _)). }
  do 3 (split; [done|]).
  intros patient_id w Hfound. unfold Endpoints.get_patient_refills.
  rewrite Hfound, Hs. apply get_patient_by_id_id in Hfound. subst patient_id.
  by destruct history.
Qed.

(** ** Blocked items *)

Lemma filter_length_all {A} (f : A -> bool) (l : list A) :
  length (List.filter f l) = length l <-> Forall (fun x => f x = true) l.
Proof.
  assert (forall l', (length (List.filter f l') <= length l')%nat) as Hle.
  { induction l' as [|x l' IH]; simpl; [lia|]. destruct (f x); simpl; lia. }
  induction l as [|x l IH]; simpl; [by split; [constructor|]|].
  rewrite Forall_cons. destruct (f x) eqn:Hx; simpl.
  - rewrite <- IH. split; [intros [= H]; by split | intros [_ H]; by rewrite H].
  - pose proof (Hle l). split; [lia | by intros [? _]].
Qed.

Lemma filter_nil_none {A} (f : A -> bool) (l : list A) :
  List.filter f l = [] -> Forall (fun x => f x = false) l.
Proof.
  induction l as [|x l IH]; simpl; [constructor|].
  destruct (f x) eqn:Hx; [discriminate|]. intros H. constructor; auto.
Qed.

(* The blocked list and what it means for the decision. *)
Lemma evaluate_blocking entities meds hp :
  let r := SafetyAgent.evaluate entities meds hp in
  SafetyCheckResult.blocked_items r
  = map Medicine.medicine_name (List.filter is_blocked meds)
  /\ (SafetyCheckResult.decision r = REJECT
      <-> meds <> [] /\ Forall (fun m => is_blocked m = true) meds)
  /\ (SafetyCheckResult.decision r = APPROVE
      -> Forall (fun m => is_blocked m = false) meds).
Proof.
  intros r. pose proof (evaluate_blocked_items entities meds hp) as Hb.
  split; [exact Hb|]. subst r.
  unfold SafetyAgent.evaluate in *. cbv zeta in *.
  cbn [SafetyCheckResult.decision SafetyCheckResult.blocked_items] in *.
  unfold SafetyAgent.decide_result. rewrite Hb, length_map.
  destruct (List.filter is_blocked meds) as [|b bs] eqn:Hf.
  - cbn [map truthy_list andb orb]. split.
    + split.
      * repeat match goal with
               | |- context [if ?c then _ else _] => destruct c
               end; discriminate.
      * intros [Hne Hall]. apply filter_length_all in Hall.
        rewrite Hf in Hall. destruct meds; [done | discriminate].
    + intros _. by apply filter_nil_none.
  - cbn [map truthy_list andb orb].
    destruct (Nat.eqb_spec (length (b :: bs)) (length meds)) as [Heq|Hne];
      cbn [fst].
    + split; [|discriminate]. split; [|done]. intros _.
      rewrite <- Hf in Heq. apply filter_length_all in Heq.
      split; [|exact Heq]. intros ->. discriminate.
    + split; [|discriminate]. split; [discriminate|].
      intros [_ Hall]. apply filter_length_all in Hall.
      rewrite Hf in Hall. done.
Qed.

(** The result lists as blocked exactly the matched medicines that are
    discontinued or out of stock, in order.  The decision is REJECT exactly
    when there is a matched medicine and every one is blocked, and APPROVE
    only when none is: an order with a blocked and an unblocked item is not
    rejected. *)
Theorem reject_exactly_when_all_blocked entities meds hp :
  let r := SafetyAgent.evaluate entities meds hp in
  SafetyCheckResult.blocked_items r
  = map Medicine.medicine_name (List.filter is_blocked meds)
  /\ (SafetyCheckResult.decision r = REJECT
      <-> meds <> [] /\ Forall (fun m => is_blocked m = true) meds)
  /\ (SafetyCheckResult.decision r = APPROVE
      -> Forall (fun m => is_blocked m = false) meds).
Proof. exact (evaluate_blocking entities meds hp). Qed.

Lemma match_entities_all ops ds entities meds :
  Forall2 (fun entity m =>
             OrchestratorAgent.match_entity ops ds entity = Returns (Some m))
          entities meds ->
  OrchestratorAgent.match_entities ops ds entities = Returns meds.
Proof.
  induction 1 as [|entity m entities meds Hm _ IH]; [done|].
  cbn [OrchestratorAgent.match_entities]. by rewrite Hm, IH.
Qed.

Lemma build_items_ids cap i entities matched :
  length entities = (length matched - i)%nat ->
  map OrderItem.medicine_id
      (OrchestratorAgent.build_items cap i entities matched)
  = map Medicine.medicine_id (drop i matched).
Proof.
  revert i. induction entities as [|entity rest IH]; intros i Hlen;
    cbn [OrchestratorAgent.build_items length] in *.
  - rewrite drop_ge by lia. done.
  - destruct (lookup_lt_is_Some_2 matched i) as [med Hmed]; [lia|].
    rewrite Hmed. cbn [map OrderItem.medicine_id].
    rewrite (drop_S _ _ _ Hmed). cbn [map]. f_equal. apply IH. lia.
Qed.

(** When every entity of a request has its match and at least one match
    is neither discontinued nor out of stock, the order handler returns a
    preview whenever the quantity of every line converts to a float, with
    one line per matched medicine, in order, at the requested quantity
    (30 by default), capped when the decision carries a non-zero cap: the
    blocked medicines are on it too, and the preview is then CONDITIONAL.
    When the quantity of some line does not convert to a float, the
    handler raises the [OverflowError] of the subtotal and returns no
    preview. *)
Theorem partly_blocked_order_is_previewed ops request patient entities msg
    meds hex8 w :
  Forall2 (fun entity m =>
             OrchestratorAgent.match_entity ops (data_service w) entity
             = Returns (Some m)) entities meds ->
  Exists (fun m => is_blocked m = false) meds ->
  let out :=
    fst (OrchestratorAgent._handle_order ops request patient
           (ExtractionResult.mk entities false msg) hex8 w) in
  let cap :=
    SafetyCheckResult.allowed_quantity
      (SafetyAgent.evaluate entities meds false) in
  (Forall (fun entity =>
             Float64.converts (OrchestratorAgent.item_quantity cap entity)
             = true) entities ->
   exists preview,
     returned_preview out = Some preview
     /\ map OrderItem.medicine_id (OrderPreview.items preview)
        = map Medicine.medicine_id meds
     /\ map OrderItem.quantity (OrderPreview.items preview)
        = map (OrchestratorAgent.item_quantity cap) entities
     /\ (Exists (fun m => is_blocked m = true) meds ->
         OrderPreview.safety_decision preview = CONDITIONAL))
  /\ (Exists (fun entity =>
                Float64.converts (OrchestratorAgent.item_quantity cap entity)
                = false) entities ->
      out = Raises "OverflowError: int too large to convert to float").
Proof.
  intros Hmatch Hok out cap.
  pose proof (match_entities_all _ _ _ _ Hmatch) as Hm.
  pose proof (Forall2_length _ _ _ Hmatch) as Hlen.
  destruct (evaluate_blocking entities meds false) as (_ & Hrej & Happ).
  assert (SafetyCheckResult.decision
            (SafetyAgent.evaluate entities meds false) <> REJECT) as Hnot.
  { intros Hd. destruct Hrej as [Hrej _]. destruct (Hrej Hd) as [_ Hall].
    apply Exists_exists in Hok as (m & Hin & Hb).
    rewrite Forall_forall in Hall. specialize (Hall m Hin). congruence. }
  set (items := map OrchestratorAgent.set_price
                  (OrchestratorAgent.build_items cap 0 entities meds)).
  assert (map OrderItem.medicine_id items = map Medicine.medicine_id meds)
    as Hids.
  { unfold items. rewrite map_map.
    change (fun x => OrderItem.medicine_id (OrchestratorAgent.set_price x))
      with OrderItem.medicine_id.
    rewrite build_items_ids by lia. done. }
  assert (map OrderItem.quantity items
          = map (OrchestratorAgent.item_quantity cap) entities) as Hqs.
  { unfold items. rewrite map_map.
    change (fun x => OrderItem.quantity (OrchestratorAgent.set_price x))
      with OrderItem.quantity.
    rewrite build_items_quantities.
    replace (length meds - 0)%nat with (length entities) by lia.
    by rewrite firstn_all. }
  assert (forall P : Z -> Prop,
            Forall (fun item => P (OrderItem.quantity item)) items
            <-> Forall (fun entity =>
                          P (OrchestratorAgent.item_quantity cap entity))
                       entities) as Hall.
  { intros P.
    rewrite <- (List.Forall_map OrderItem.quantity P items),
      <- (List.Forall_map (OrchestratorAgent.item_quantity cap) P entities).
    by rewrite Hqs. }
  subst out. unfold OrchestratorAgent._handle_order. cbv zeta.
  cbn [ExtractionResult.needs_clarification ExtractionResult.entities].
  rewrite Hm.
  destruct meds as [|m0 meds']; [by apply Exists_nil in Hok|].
  destruct entities as [|e0 entities']; [discriminate|].
  cbn [truthy_list negb]. fold cap items.
  split.
  - intros Hconv.
    destruct (proj1 (items_total_from_returns (S754_zero false) items))
      as [subtotal Htotal]; [by apply (Hall (fun q => Float64.converts q = true))|].
    fold (items_total items) in Htotal. rewrite Htotal.
    destruct (SafetyCheckResult.decision _) eqn:Hd; [|done|].
    + eexists. split; [reflexivity|]. cbn [OrderPreview.items].
      split; [exact Hids|]. split; [exact Hqs|].
      intros Hbad. specialize (Happ eq_refl).
      apply Exists_exists in Hbad as (m & Hin & Hb).
      rewrite Forall_forall in Happ. specialize (Happ m Hin). congruence.
    + eexists. split; [reflexivity|]. cbn [OrderPreview.items].
      split; [exact Hids|]. split; [exact Hqs|]. done.
  - intros Hex.
    destruct (items_total items) as [subtotal|e] eqn:Htotal.
    + exfalso.
      assert (Forall (fun item =>
                        Float64.converts (OrderItem.quantity item) = true)
                     items) as Hconv
        by (apply (items_total_from_returns (S754_zero false)); by eexists).
      apply (Hall (fun q => Float64.converts q = true)) in Hconv.
      apply Exists_exists in Hex as (entity & Hin & Hno).
      rewrite Forall_forall in Hconv. specialize (Hconv _ Hin). congruence.
    + destruct (items_total_from_raises _ _ _ Htotal) as [_ ->].
      by destruct (SafetyCheckResult.decision _).
Qed.

Lemma partly_blocked_order_is_previewed_witness :
  exists preview,
    returned_preview
      (fst (OrchestratorAgent._handle_order plain_ops sample_request
              sample_patient
              (ExtractionResult.mk
                 [sample_entity "Paracetamol" 10; sample_entity "Rofecoxib" 10]
                 false "")
              "1A2B3C4D" world_with_discontinued))
    = Some preview
    /\ map OrderItem.medicine_id (OrderPreview.items preview)
       = ["MED001"; "MED004"]
    /\ map OrderItem.quantity (OrderPreview.items preview) = [10; 10]
    /\ OrderPreview.safety_decision preview = CONDITIONAL.
Proof.
  destruct (partly_blocked_order_is_previewed plain_ops sample_request
              sample_patient
              [sample_entity "Paracetamol" 10; sample_entity "Rofecoxib" 10]
              ""
              [Medicine.mk "MED001" "Paracetamol" "500mg" "Tablet" 100 false
                 "Analgesic" false 30 false;
               Medicine.mk "MED004" "Rofecoxib" "25mg" "Tablet" 50 false
                 "Analgesic" true 30 false]
              "1A2B3C4D" world_with_discontinued)
    as [Hpreviewed _].
  - repeat constructor.
  - left. reflexivity.
  - destruct Hpreviewed as (preview & Hpreview & Hids & Hqs & Hdecision).
    + repeat constructor.
    + exists preview. split; [exact Hpreview|]. split; [exact Hids|].
      split; [exact Hqs|].
      apply Hdecision. right. left. reflexivity.
Defined.
(** ** Cancelling in the chat *)

(** The cancel handler always answers that the order has been cancelled,
    whether the session had a pending preview or not.  It leaves the data
    service and the fulfillment agent alone; afterwards a confirmation of
    the same session finds nothing to confirm; the bindings of the other
    sessions are kept, and so is every preview other than the one the
    session was bound to. *)
Theorem chat_cancel_effects request w :
  let out := OrchestratorAgent._handle_order_cancellation request w in
  let o := orchestrator_agent w in
  let o' := orchestrator_agent (snd out) in
  fst out
  = ChatResponse.text
      "Your order has been cancelled. Is there anything else I can help you with?"
  /\ data_service (snd out) = data_service w
  /\ fulfillment_agent (snd out) = fulfillment_agent w
  /\ (forall patient order_id post,
        OrchestratorAgent._handle_order_confirmation request patient order_id
          post (snd out)
        = (Returns (ChatResponse.text OrchestratorAgent.nothing_to_confirm),
           snd out))
  /\ (forall session_id,
        session_id <> OrchestratorAgent.session_key request ->
        Orchestrator.session_contexts o' !! session_id
        = Orchestrator.session_contexts o !! session_id)
  /\ (forall preview_id,
        Orchestrator.session_contexts o !! OrchestratorAgent.session_key request
        <> Some preview_id ->
        Orchestrator.pending_previews o' !! preview_id
        = Orchestrator.pending_previews o !! preview_id).
Proof.
  intros out o o'. subst out o o'.
  unfold OrchestratorAgent._handle_order_cancellation. cbv zeta.
  cbn [fst snd data_service fulfillment_agent orchestrator_agent
       with_orchestrator Orchestrator.session_contexts
       Orchestrator.pending_previews].
  do 3 (split; [done|]). split; [|split].
  - intros patient order_id post.
    unfold OrchestratorAgent._handle_order_confirmation,
      OrchestratorAgent.pending_preview.
    cbn [orchestrator_agent with_orchestrator Orchestrator.session_contexts].
    by rewrite lookup_delete_eq.
  - intros session_id Hne. by rewrite lookup_delete_ne.
  - intros preview_id Hne.
    destruct (Orchestrator.session_contexts (orchestrator_agent w)
                !! OrchestratorAgent.session_key request) as [bound|]; [|done].
    destruct (truthy_str bound && _); [|done].
    rewrite lookup_delete_ne; [done|]. congruence.
Qed.

(** ** Operations on one order leave the other orders alone *)

Lemma same_order_of_view other w w' :
  order_view other (fulfillment_agent w')
  = order_view other (fulfillment_agent w) ->
  same_order other w w'.
Proof.
  intros H. split; [exact H|]. unfold Endpoints.get_order.
  assert (FulfillmentAgent.get_order other (fulfillment_agent w')
          = FulfillmentAgent.get_order other (fulfillment_agent w)) as ->
    by exact (f_equal (fun v => fst (fst v)) H).
  done.
Qed.

(** Whatever the chat confirmation (returning or raising), the confirm
    and cancel endpoints and the warehouse acknowledgement do for one order
    id, every other order id keeps its stored order, its status history
    and its timeline, and the order endpoint answers for it as before. *)
Theorem order_operations_are_local other w :
  (forall request patient order_id post,
     other <> order_id ->
     same_order other w
       (snd (OrchestratorAgent._handle_order_confirmation request patient
               order_id post w)))
  /\ (forall order_id,
        other <> order_id ->
        same_order other w (snd (Api.confirm_order order_id w))
        /\ same_order other w (snd (Api.cancel_order order_id w))
        /\ same_order other w (Endpoints.warehouse_webhook order_id w)).
Proof.
  split.
  - intros request patient order_id post Hne.
    apply same_order_of_view.
    destruct (OrchestratorAgent.pending_preview request (orchestrator_agent w))
      as [[preview_id preview]|] eqn:Hpending.
    2: { unfold OrchestratorAgent._handle_order_confirmation.
         by rewrite Hpending. }
    destruct (handle_confirmation_cases request patient order_id post w _ _
                Hpending)
      as [(e & _ & ->)
         | [(total & e & ds & _ & _ & _ & _ & _ & _ & Hframe)
           | (total & quantity & ds & receipt & _ & _ & _ & _ & _ & _ & _
              & Hframe)]]; [done | by apply Hframe | by apply Hframe].
  - intros order_id Hne. split; [|split]; apply same_order_of_view.
    + unfold Api.confirm_order.
      destruct (FulfillmentAgent.get_order order_id (fulfillment_agent w));
        [|done].
      destruct (negb _); [done|].
      destruct (Api.decrement_stock _ _) as [[[]|e] ds];
        cbn [snd fulfillment_agent];
        by rewrite !order_view_update_status_ne.
    + unfold Api.cancel_order.
      destruct (FulfillmentAgent.get_order order_id (fulfillment_agent w));
        [|done].
      destruct (_ || _); [done|]. cbn [snd fulfillment_agent with_fulfillment].
      by rewrite order_view_update_status_ne.
    + unfold Endpoints.warehouse_webhook.
      destruct (FulfillmentAgent.get_order order_id (fulfillment_agent w));
        [|done].
      cbn [fulfillment_agent with_fulfillment].
      by rewrite order_view_update_status_ne.
Qed.
(** ** Matching an entity to a medicine *)

Lemma search_medicine_sound ops query ds results m :
  DataService.search_medicine ops query ds = Returns results ->
  In m results ->
  In m (default [] (DataService.medicines_df ds))
  /\ series_contains ops (str_lower ops (Medicine.medicine_name m))
       (str_lower ops query) = true.
Proof.
  unfold DataService.search_medicine.
  destruct (DataService.medicines_df ds) as [rows|]; [|by intros [= <-]].
  cbv zeta. destruct (regex_error ops (str_lower ops query)); [discriminate|].
  intros [= <-]. rewrite filter_In. done.
Qed.

(** Matching an entity raises exactly when the search for its name
    raises, with the same error.  When the search returns, the entity has
    no match exactly when the search is empty; a match is always one of the
    search results, so a row of the medicine table whose lower-cased name
    contains the lower-cased query; it is the first result whose strength
    fits the entity's dosage, or, when no result fits, the first result
    whatever its strength. *)
Theorem match_entity_sound ops ds entity :
  let search :=
    DataService.search_medicine ops (ExtractedEntity.medicine entity) ds in
  (forall e,
     search = Raises e
     <-> OrchestratorAgent.match_entity ops ds entity = Raises e)
  /\ forall results,
       search = Returns results ->
       (exists found,
          OrchestratorAgent.match_entity ops ds entity = Returns found)
       /\ (OrchestratorAgent.match_entity ops ds entity = Returns None
           <-> results = [])
       /\ forall m,
            OrchestratorAgent.match_entity ops ds entity = Returns (Some m) ->
            In m results
            /\ In m (default [] (DataService.medicines_df ds))
            /\ series_contains ops (str_lower ops (Medicine.medicine_name m))
                 (str_lower ops (ExtractedEntity.medicine entity)) = true
            /\ (List.find (OrchestratorAgent.dosage_matches ops entity) results
                = Some m
                \/ (Forall (fun m' =>
                              OrchestratorAgent.dosage_matches ops entity m'
                              = false)
                           results
                    /\ head results = Some m)).
Proof.
  intros search. unfold OrchestratorAgent.match_entity. fold search.
  pose proof (search_medicine_sound ops (ExtractedEntity.medicine entity) ds)
    as Hsound.
  fold search in Hsound. clearbody search.
  destruct search as [results|e0].
  2: { split; [|discriminate]. intros e. split; by intros [= <-]. }
  split; [intros e; split; discriminate|].
  intros ? [= <-]. specialize (Hsound results).
  split; [by eexists|].
  destruct results as [|r rs]; cbn [truthy_list]; [by split|].
  destruct (List.find _ (r :: rs)) as [med|] eqn:Hfind.
  - split; [by split|]. intros m [= <-].
    pose proof (find_some _ _ Hfind) as [Hin _].
    split; [exact Hin|]. destruct (Hsound med eq_refl Hin).
    by repeat split; [| |left].
  - cbn [head]. split; [by split|]. intros m [= <-].
    assert (In r (r :: rs)) as Hin by (by left).
    split; [exact Hin|]. destruct (Hsound r eq_refl Hin).
    repeat split; try done.
    right. split; [|done]. apply Forall_forall. intros m' Hm'.
    apply (find_none _ _ Hfind). by apply list_elem_of_In.
Qed.
